(** * node-tcnet: the TCNet packet codec and the layer-state tracker

    A shallow embedding of [src/network.ts] (packet classes over a Node
    [Buffer]) and of [PioneerDJState] in [src/pioneer.ts], with the
    properties of the specification stated over it.

    Conventions of the embedding:
    - a JavaScript number that the code only ever uses as an integer (byte
      values, offsets, track ids, status codes) is a [Z]; array indices and
      1-based layer numbers are [nat]; the one fractional number of the
      codec, [bpm], is an IEEE binary64 [float];
    - [console.assert] (both files do [import { assert } from "console"])
      prints a line when its condition is false and returns, so it is
      modelled as an append to the console output, never as an exception;
    - a thrown exception is a [Throw] result;
    - the arrays of the tracker are objects in a heap, reached through
      references, so that a write through one reference is seen through
      every other reference to the same array; a packet and its header share
      one buffer. *)

From Stdlib Require Import ZArith Lia Bool List String Ascii DecimalString.
From Stdlib Require Import Floats Uint63.
From stdpp Require Import base list gmap.
Import ListNotations.

Local Open Scope Z_scope.

(** ** The console *)

Abbreviation Console := (list string).

(** [console.assert(value)] and [console.assert(value, message)]: a falsy
    value prints "Assertion failed", followed by the message when there is
    one; nothing is thrown. *)
Definition console_assert (value : bool) (message : option string) : Console :=
  if value then []
  else [match message with
        | None => "Assertion failed"%string
        | Some m => String.append "Assertion failed: " m
        end].

(** * pioneer.ts: the layer-state tracker *)

Module Pioneer.

(** The elements of the tracker's arrays: a number, or [undefined] where an
    index is read outside the array. *)
Inductive value : Type :=
  | undefined
  | number (n : Z).

(** [a !== b] *)
Definition strict_neq (a b : value) : bool :=
  match a, b with
  | undefined, undefined => false
  | number x, number y => negb (x =? y)
  | _, _ => true
  end.

(** [a[i]]: reading past the end of an array yields [undefined]. *)
Definition array_get (a : list value) (i : nat) : value :=
  match a !! i with
  | Some v => v
  | None => undefined
  end.

(** [a[i] = v]: assignment inside the array overwrites the slot, assignment
    at or past the end extends the array (skipped slots read [undefined]). *)
Definition array_set (a : list value) (i : nat) (v : value) : list value :=
  if (i <? length a)%nat then <[i:=v]> a
  else a ++ replicate (i - length a)%nat undefined ++ [v].

(** Arrays are objects: a field or a parameter holds a reference, the
    arrays themselves live in the heap, and an assignment to a slot is seen
    through every reference to the array. *)
Abbreviation ref := nat.
Abbreviation Heap := (gmap nat (list value)).

Definition empty_heap : Heap := empty.

(** The array behind a reference. *)
Definition deref (h : Heap) (r : ref) : list value :=
  match h !! r with
  | Some a => a
  | None => []
  end.

(** A newly created array ([new Array(..)], an array literal): its
    reference is one that is not in use. *)
Definition alloc (a : list value) (h : Heap) : ref * Heap :=
  let r := fresh (dom h) in (r, <[r := a]> h).

(** [enum LayerIndex] *)
Inductive LayerIndex : Type :=
  | Layer1 | Layer2 | Layer3 | Layer4 | LayerA | LayerB | LayerM | LayerC.

Definition LayerIndex_value (idx : LayerIndex) : nat :=
  match idx with
  | Layer1 => 1 | Layer2 => 2 | Layer3 => 3 | Layer4 => 4
  | LayerA => 5 | LayerB => 6 | LayerM => 7 | LayerC => 8
  end.

(** [class PioneerDJState]: two private fields, each holding an array. The
    fields are never reassigned, so an object is its two references. *)
Record PioneerDJState : Type := {
  _trackID : ref;
  _status : ref
}.

(** [new PioneerDJState()]: each field initialiser creates its own array,
    [new Array(8).fill(-1)]. *)
Definition new_PioneerDJState (h : Heap) : PioneerDJState * Heap :=
  let '(t, h1) := alloc (replicate 8 (number (-1))) h in
  let '(s, h2) := alloc (replicate 8 (number (-1))) h1 in
  ({| _trackID := t; _status := s |}, h2).

Definition trackID (st : PioneerDJState) (idx : LayerIndex) (h : Heap)
    : value :=
  array_get (deref h (_trackID st)) (LayerIndex_value idx - 1).

Definition status (st : PioneerDJState) (idx : LayerIndex) (h : Heap)
    : value :=
  array_get (deref h (_status st)) (LayerIndex_value idx - 1).

(** The [for] loop of [update]: [i] is the loop counter and [fuel] is
    [source.length - i], the number of iterations left ([source] does not
    change length during the loop: the only array written is [field], and
    when [source] is that same array no slot differs). *)
Fixpoint update_loop (fuel i : nat) (field source : ref) (h : Heap)
    (changedLayers : list nat) : Heap * list nat :=
  match fuel with
  | O => (h, changedLayers)
  | S fuel' =>
      if strict_neq (array_get (deref h field) i) (array_get (deref h source) i)
      then update_loop fuel' (S i) field source
             (<[field := array_set (deref h field) i
                           (array_get (deref h source) i)]> h)
             (changedLayers ++ [(i + 1)%nat])
      else update_loop fuel' (S i) field source h changedLayers
  end.

(** What a call leaves behind: the lines printed on the console, the heap,
    and the returned list. *)
Record Updated : Type := {
  printed : Console;
  heap : Heap;
  changed : list nat
}.

(** [private update(field, source)] *)
Definition update (field source : ref) (h : Heap) : Updated :=
  let out :=
    console_assert (length (deref h source) =? 8)%nat
      (Some "there must be data for exactly 8 layers"%string) in
  let '(h', changedLayers) :=
    update_loop (length (deref h source)) 0 field source h [] in
  {| printed := out; heap := h'; changed := changedLayers |}.

Definition updateTrackIDs (st : PioneerDJState) (trackIDs : ref) (h : Heap)
    : Updated :=
  update (_trackID st) trackIDs h.

Definition updateStatus (st : PioneerDJState) (statuses : ref) (h : Heap)
    : Updated :=
  update (_status st) statuses h.

(** The slot test of the loop, as a predicate on indices. *)
Definition differs (field source : list value) (i : nat) : bool :=
  strict_neq (array_get field i) (array_get source i).

(** An array of numbers, as the Status decoder produces them. *)
Definition numbers (l : list Z) : list value := map number l.

(** The status array [3,3,0,0,0,0,0,0] and the track ids
    [5,5,-1,-1,-1,-1,-1,-1] of the specification's scenarios. *)
Definition status_3_3 : list value := numbers [3; 3; 0; 0; 0; 0; 0; 0].
Definition tracks_5_5 : list value := numbers [5; 5; -1; -1; -1; -1; -1; -1].

(** A tracker created in an empty heap, then handed a newly created array:
    the tracker, the reference to the array, and the heap. *)
Definition fresh_tracker_with (a : list value)
    : PioneerDJState * ref * Heap :=
  let '(st, h) := new_PioneerDJState empty_heap in
  let '(r, h') := alloc a h in
  (st, r, h').

Definition tracker_of (s : PioneerDJState * ref * Heap) : PioneerDJState :=
  fst (fst s).
Definition array_of (s : PioneerDJState * ref * Heap) : ref := snd (fst s).
Definition heap_of (s : PioneerDJState * ref * Heap) : Heap := snd s.

End Pioneer.

(** * network.ts: the packet codec *)

Module Network.

(** ** Exceptions, results and the codec monad *)

(** What the code can throw: Node's [RangeError] (an offset or a value out of
    range in a [Buffer] accessor) and [new Error(message)]. *)
Inductive exn : Type :=
  | RangeError
  | Error (message : string).

Inductive result (A : Type) : Type :=
  | Ok (a : A)
  | Throw (e : exn).

Arguments Ok {A} a.
Arguments Throw {A} e.

(** A Node [Buffer]: its bytes, each in 0..255. *)
Abbreviation Buffer := (list Z).

(** What a method of a packet object can touch: the packet's [buffer] (shared
    with its header) and the console. *)
Record World : Type := {
  buffer : Buffer;
  console : Console
}.

Definition M (A : Type) : Type := World -> World * result A.

Definition ret {A : Type} (a : A) : M A := fun w => (w, Ok a).

Definition bind {A B : Type} (m : M A) (k : A -> M B) : M B :=
  fun w =>
    match m w with
    | (w', Ok a) => k a w'
    | (w', Throw e) => (w', Throw e)
    end.

Definition throw {A : Type} (e : exn) : M A := fun w => (w, Throw e).

Notation "'let*' x ':=' m 'in' k" := (bind m (fun x => k))
  (at level 10, x name, m at level 100, k at level 200,
   format "'[v' 'let*'  x  ':='  m  'in' '/' k ']'").
Notation "m ';;' k" := (bind m (fun _ => k))
  (at level 100, k at level 200, right associativity).

Fixpoint mapM {A B : Type} (f : A -> M B) (l : list A) : M (list B) :=
  match l with
  | [] => ret []
  | x :: l' =>
      let* y := f x in
      let* ys := mapM f l' in
      ret (y :: ys)
  end.

(** The indices [0 .. 7] of a [for (let n = 0; n < 8; n++)] loop. *)
Definition layers : list Z := [0; 1; 2; 3; 4; 5; 6; 7].

(** [assert(value)], the [assert] of the [console] module. *)
Definition assert (value : bool) : M unit :=
  fun w =>
    ({| buffer := buffer w;
        console := console w ++ console_assert value None |}, Ok tt).

(** ** Buffer accessors (Node's [Buffer] API) *)

Definition in_bounds (b : Buffer) (offset width : Z) : bool :=
  (0 <=? offset) && (offset + width <=? Z.of_nat (length b)).

Definition byte_at (b : Buffer) (i : Z) : Z :=
  match b !! Z.to_nat i with
  | Some x => x
  | None => 0
  end.

(** The unsigned little-endian integers held at an offset. *)
Definition u16le (b : Buffer) (offset : Z) : Z :=
  byte_at b offset + byte_at b (offset + 1) * 2 ^ 8.

Definition u32le (b : Buffer) (offset : Z) : Z :=
  byte_at b offset + byte_at b (offset + 1) * 2 ^ 8
  + byte_at b (offset + 2) * 2 ^ 16 + byte_at b (offset + 3) * 2 ^ 24.

(** [readUInt8], [readUInt16LE], [readUInt32LE]: a [RangeError] unless the
    whole field lies inside the buffer. *)
Definition readUInt8 (offset : Z) : M Z :=
  fun w =>
    if in_bounds (buffer w) offset 1 then (w, Ok (byte_at (buffer w) offset))
    else (w, Throw RangeError).

Definition readUInt16LE (offset : Z) : M Z :=
  fun w =>
    if in_bounds (buffer w) offset 2 then (w, Ok (u16le (buffer w) offset))
    else (w, Throw RangeError).

Definition readUInt32LE (offset : Z) : M Z :=
  fun w =>
    if in_bounds (buffer w) offset 4 then (w, Ok (u32le (buffer w) offset))
    else (w, Throw RangeError).

(** [buf.slice(start, end)] for the non-negative constants of the source:
    both ends are clamped to the buffer, nothing is thrown. *)
Definition slice (b : Buffer) (start end_ : Z) : list Z :=
  take (Z.to_nat (end_ - start)) (drop (Z.to_nat start) b).

(** [.toString("ascii")]: every byte is masked to seven bits. *)
Definition toString_ascii (bytes : list Z) : string :=
  string_of_list_ascii
    (map (fun x => ascii_of_N (Z.to_N (Z.land x 127))) bytes).

(** [this.buffer.slice(start, end).toString("ascii")] *)
Definition slice_ascii (start end_ : Z) : M string :=
  fun w => (w, Ok (toString_ascii (slice (buffer w) start end_))).

(** Storing into a typed array keeps the low eight bits; a store outside the
    array is dropped. *)
Definition store (b : Buffer) (i : nat) (x : Z) : Buffer :=
  <[i := x mod 256]> b.

Fixpoint store_bytes (b : Buffer) (i : nat) (bytes : list Z) : Buffer :=
  match bytes with
  | [] => b
  | x :: bytes' => store_bytes (store b i x) (S i) bytes'
  end.

Definition set_buffer (w : World) (b : Buffer) : World :=
  {| buffer := b; console := console w |}.

(** [writeUInt8(value, offset)], [writeUInt16LE(value, offset)],
    [writeUInt32LE(value, offset)]: a [RangeError] when the value does not
    fit or the field does not lie inside the buffer. Note the argument
    order: the value comes first. *)
Definition writeUInt8 (value offset : Z) : M unit :=
  fun w =>
    if (0 <=? value) && (value <=? 255) && in_bounds (buffer w) offset 1
    then (set_buffer w (store (buffer w) (Z.to_nat offset) value), Ok tt)
    else (w, Throw RangeError).

Definition writeUInt16LE (value offset : Z) : M unit :=
  fun w =>
    if (0 <=? value) && (value <=? 65535) && in_bounds (buffer w) offset 2
    then (set_buffer w
            (store_bytes (buffer w) (Z.to_nat offset)
               [value; Z.shiftr value 8]), Ok tt)
    else (w, Throw RangeError).

Definition writeUInt32LE (value offset : Z) : M unit :=
  fun w =>
    if (0 <=? value) && (value <=? 4294967295) && in_bounds (buffer w) offset 4
    then (set_buffer w
            (store_bytes (buffer w) (Z.to_nat offset)
               [value; Z.shiftr value 8; Z.shiftr value 16; Z.shiftr value 24]),
          Ok tt)
    else (w, Throw RangeError).

(** The bytes of a string under the "ascii" encoding of [Buffer.write] and
    [Buffer.from]: one byte per character. *)
Definition ascii_bytes (s : string) : list Z :=
  map (fun c => Z.of_N (N_of_ascii c)) (list_ascii_of_string s).

(** [buf.write(string, offset, "ascii")]: a [RangeError] when the offset is
    past the end; otherwise as many bytes as fit are written. *)
Definition write_ascii (s : string) (offset : Z) : M unit :=
  fun w =>
    if (0 <=? offset) && (offset <=? Z.of_nat (length (buffer w)))
    then (set_buffer w
            (store_bytes (buffer w) (Z.to_nat offset) (ascii_bytes s)), Ok tt)
    else (w, Throw RangeError).

(** ** String helpers *)

Definition NUL : ascii := Ascii.zero.

(** A line terminator, which [.] of a regular expression does not match. *)
Definition is_line_terminator (c : ascii) : bool :=
  (N_of_ascii c =? 10)%N || (N_of_ascii c =? 13)%N.

Fixpoint no_line_terminator (s : string) : bool :=
  match s with
  | EmptyString => true
  | String c s' => negb (is_line_terminator c) && no_line_terminator s'
  end.

(** [s.replace(/\0.*$/g, "")]: the match starts at the first NUL that is
    followed by no line terminator up to the end of the string, and runs to
    the end. *)
Fixpoint strip_from_NUL (s : string) : string :=
  match s with
  | EmptyString => EmptyString
  | String c s' =>
      if Ascii.eqb c NUL && no_line_terminator s' then EmptyString
      else String c (strip_from_NUL s')
  end.

(** [s.replace(/\x00/g, "")] *)
Fixpoint remove_NULs (s : string) : string :=
  match s with
  | EmptyString => EmptyString
  | String c s' =>
      if Ascii.eqb c NUL then remove_NULs s' else String c (remove_NULs s')
  end.

(** White space of [trimEnd] among the seven-bit characters. *)
Definition is_white_space (c : ascii) : bool :=
  let n := N_of_ascii c in
  ((9 <=? n) && (n <=? 13))%N || (n =? 32)%N.

Fixpoint all_white_space (s : string) : bool :=
  match s with
  | EmptyString => true
  | String c s' => is_white_space c && all_white_space s'
  end.

(** [s.trimEnd()] *)
Fixpoint trimEnd (s : string) : string :=
  match s with
  | EmptyString => EmptyString
  | String c s' =>
      if all_white_space s then EmptyString else String c (trimEnd s')
  end.

(** [s.padEnd(n, "\x00")] *)
Definition padEnd_NUL (s : string) (n : nat) : string :=
  String.append s
    (string_of_list_ascii (replicate (n - String.length s)%nat NUL)).

(** [Buffer.from(s, "ascii").length] *)
Definition ascii_length (s : string) : Z := Z.of_nat (String.length s).

(** [console.log(line)] *)
Definition console_log (line : string) : M unit :=
  fun w => ({| buffer := buffer w; console := console w ++ [line] |}, Ok tt).

(** A non-negative integer printed in decimal, as string concatenation with
    a number does. *)
Definition number_toString (n : Z) : string :=
  NilZero.string_of_uint (N.to_uint (Z.to_N n)).

(** An integer below 2^53 as a JavaScript number. *)
Definition number_of_Z (n : Z) : float := PrimFloat.of_uint63 (Uint63.of_Z n).

(** ** The management header *)

Module TCNetManagementHeader.

Definition MAJOR_VERSION : Z := 3.
Definition MAGIC_HEADER : string := "TCN".

Record t : Type := {
  nodeId : Z;
  minorVersion : Z;
  messageType : Z;
  nodeName : string;
  seq : Z;
  nodeType : Z;
  nodeOptions : Z;
  timestamp : Z
}.

Definition read : M t :=
  let* nodeId := readUInt16LE 0 in
  let* major := readUInt8 2 in
  assert (major =? MAJOR_VERSION) ;;
  let* minorVersion := readUInt8 3 in
  let* magic := slice_ascii 4 7 in
  assert (String.eqb magic MAGIC_HEADER) ;;
  let* messageType := readUInt8 7 in
  let* name := slice_ascii 8 16 in
  let* seq := readUInt8 16 in
  let* nodeType := readUInt8 17 in
  let* nodeOptions := readUInt16LE 18 in
  let* timestamp := readUInt32LE 20 in
  ret {| nodeId := nodeId; minorVersion := minorVersion;
         messageType := messageType; nodeName := strip_from_NUL name;
         seq := seq; nodeType := nodeType; nodeOptions := nodeOptions;
         timestamp := timestamp |}.

Definition write (h : t) : M unit :=
  assert (ascii_length (nodeName h) <=? 8) ;;
  writeUInt16LE (nodeId h) 0 ;;
  writeUInt8 MAJOR_VERSION 2 ;;
  writeUInt8 (minorVersion h) 3 ;;
  write_ascii MAGIC_HEADER 4 ;;
  writeUInt8 (messageType h) 7 ;;
  write_ascii (padEnd_NUL (nodeName h) 8) 8 ;;
  writeUInt8 (seq h) 16 ;;
  writeUInt8 (nodeType h) 17 ;;
  writeUInt16LE (nodeOptions h) 18 ;;
  writeUInt32LE (timestamp h) 20.

End TCNetManagementHeader.

(** ** Packets that are written as well as read *)

Module TCNetOptInPacket.

Record t : Type := {
  nodeCount : Z;
  nodeListenerPort : Z;
  uptime : Z;
  vendorName : string;
  appName : string;
  majorVersion : Z;
  minorVersion : Z;
  bugVersion : Z
}.

Definition read : M t :=
  let* nodeCount := readUInt16LE 24 in
  let* nodeListenerPort := readUInt16LE 26 in
  let* uptime := readUInt16LE 28 in
  let* vendor := slice_ascii 32 48 in
  let* app := slice_ascii 48 64 in
  let* majorVersion := readUInt8 64 in
  let* minorVersion := readUInt8 65 in
  let* bugVersion := readUInt8 66 in
  ret {| nodeCount := nodeCount; nodeListenerPort := nodeListenerPort;
         uptime := uptime; vendorName := strip_from_NUL vendor;
         appName := strip_from_NUL app; majorVersion := majorVersion;
         minorVersion := minorVersion; bugVersion := bugVersion |}.

(** The last three calls are [writeUInt8(64, this.majorVersion)],
    [writeUInt8(65, this.minorVersion)], [writeUInt8(66, this.bugVersion)]
    in the source: the constant is passed as the value and the field as the
    offset. *)
Definition write (p : t) : M unit :=
  assert (ascii_length (vendorName p) <=? 16) ;;
  assert (ascii_length (appName p) <=? 16) ;;
  writeUInt16LE (nodeCount p) 24 ;;
  writeUInt16LE (nodeListenerPort p) 26 ;;
  writeUInt16LE (uptime p) 28 ;;
  write_ascii (padEnd_NUL (vendorName p) 16) 32 ;;
  write_ascii (padEnd_NUL (appName p) 16) 48 ;;
  writeUInt8 64 (majorVersion p) ;;
  writeUInt8 65 (minorVersion p) ;;
  writeUInt8 66 (bugVersion p).

Definition length : Z := 68.
Definition type : Z := 2.

End TCNetOptInPacket.

Module TCNetOptOutPacket.

Record t : Type := {
  nodeCount : Z;
  nodeListenerPort : Z
}.

Definition read : M t :=
  let* nodeCount := readUInt16LE 24 in
  let* nodeListenerPort := readUInt16LE 26 in
  ret {| nodeCount := nodeCount; nodeListenerPort := nodeListenerPort |}.

Definition write (p : t) : M unit :=
  writeUInt16LE (nodeCount p) 24 ;;
  writeUInt16LE (nodeListenerPort p) 26.

Definition length : Z := 28.
Definition type : Z := 3.

End TCNetOptOutPacket.

Module TCNetRequestPacket.

Record t : Type := {
  dataType : Z;
  layer : Z
}.

Definition read : M t :=
  let* dataType := readUInt8 24 in
  let* layer := readUInt8 25 in
  ret {| dataType := dataType; layer := layer |}.

Definition write (p : t) : M unit :=
  assert ((0 <=? dataType p) && (dataType p <=? 255)) ;;
  assert ((0 <=? layer p) && (layer p <=? 255)) ;;
  writeUInt8 (dataType p) 24 ;;
  writeUInt8 (layer p) 25.

Definition length : Z := 26.
Definition type : Z := 20.

End TCNetRequestPacket.

Module TCNetApplicationData.

Record t : Type := {
  dataType : Z;
  layer : Z
}.

Definition read : M t :=
  let* dataType := readUInt8 24 in
  let* layer := readUInt8 25 in
  ret {| dataType := dataType; layer := layer |}.

Definition write (p : t) : M unit :=
  assert ((0 <=? dataType p) && (dataType p <=? 255)) ;;
  assert ((0 <=? layer p) && (layer p <=? 255)) ;;
  writeUInt8 (dataType p) 24 ;;
  writeUInt8 (layer p) 25.

Definition length : Z := 62.
Definition type : Z := 30.

End TCNetApplicationData.

(** ** Packets that are only read *)

Module TCNetStatusPacket.

Record t : Type := {
  nodeCount : Z;
  nodeListenerPort : Z;
  layerSource : list Z;
  layerStatus : list Z;
  trackID : list Z;
  smpteMode : Z;
  autoMasterMode : Z;
  layerName : list string
}.

Definition read : M t :=
  let* nodeCount := readUInt16LE 24 in
  let* nodeListenerPort := readUInt16LE 26 in
  let* layerSource := mapM (fun n => readUInt8 (34 + n)) layers in
  let* layerStatus := mapM (fun n => readUInt8 (42 + n)) layers in
  let* trackID := mapM (fun n => readUInt32LE (50 + n * 4)) layers in
  let* smpteMode := readUInt8 83 in
  let* autoMasterMode := readUInt8 84 in
  let* layerName :=
    mapM (fun n =>
            let* name := slice_ascii (172 + n * 16) (172 + (n + 1) * 16) in
            ret (strip_from_NUL name)) layers in
  ret {| nodeCount := nodeCount; nodeListenerPort := nodeListenerPort;
         layerSource := layerSource; layerStatus := layerStatus;
         trackID := trackID; smpteMode := smpteMode;
         autoMasterMode := autoMasterMode; layerName := layerName |}.

Definition write (p : t) : M unit := throw (Error "not supported!").

Definition length : Z := 300.
Definition type : Z := 5.

End TCNetStatusPacket.

Module TCNetTimecode.

Record t : Type := {
  mode : Z;
  state : Z;
  hours : Z;
  minutes : Z;
  seconds : Z;
  frames : Z
}.

Definition read (offset : Z) : M t :=
  let* mode := readUInt8 (offset + 0) in
  let* state := readUInt8 (offset + 1) in
  let* hours := readUInt8 (offset + 2) in
  let* minutes := readUInt8 (offset + 3) in
  let* seconds := readUInt8 (offset + 4) in
  let* frames := readUInt8 (offset + 5) in
  ret {| mode := mode; state := state; hours := hours; minutes := minutes;
         seconds := seconds; frames := frames |}.

End TCNetTimecode.

Module TCNetTimePacket.

Record t : Type := {
  layerCurrentTime : list Z;
  layerTotalTime : list Z;
  layerBeatmarker : list Z;
  layerState : list Z;
  generalSMPTEMode : Z;
  layerTimecode : list TCNetTimecode.t
}.

(** One iteration of the loop of [read]: the five values stored at index
    [n] of the five arrays. *)
Definition read_layer (n : Z)
    : M (Z * Z * Z * Z * TCNetTimecode.t) :=
  let* currentTime := readUInt32LE (24 + n * 4) in
  let* totalTime := readUInt32LE (56 + n * 4) in
  let* beatmarker := readUInt8 (88 + n) in
  let* state := readUInt8 (96 + n) in
  let* timecode := TCNetTimecode.read (106 + n * 6) in
  ret (currentTime, totalTime, beatmarker, state, timecode).

Definition read : M t :=
  let* rows := mapM read_layer layers in
  let* generalSMPTEMode := readUInt8 105 in
  ret {| layerCurrentTime := map (fun '(c, _, _, _, _) => c) rows;
         layerTotalTime := map (fun '(_, t, _, _, _) => t) rows;
         layerBeatmarker := map (fun '(_, _, b, _, _) => b) rows;
         layerState := map (fun '(_, _, _, s, _) => s) rows;
         generalSMPTEMode := generalSMPTEMode;
         layerTimecode := map (fun '(_, _, _, _, c) => c) rows |}.

Definition write (p : t) : M unit := throw (Error "not supported!").

Definition length : Z := 154.
Definition type : Z := 254.

End TCNetTimePacket.

(** The Data envelope. Its subclasses below override [read], [write] and
    [length] and do not call the envelope's [read], so their own [read] leaves
    the inherited [dataType] and [layer] alone. *)
Module TCNetDataPacket.

Record t : Type := {
  dataType : Z;
  layer : Z
}.

Definition read : M t :=
  let* dataType := readUInt8 24 in
  let* layer := readUInt8 25 in
  ret {| dataType := dataType; layer := layer |}.

Definition write (p : t) : M unit :=
  assert ((0 <=? dataType p) && (dataType p <=? 255)) ;;
  assert ((0 <=? layer p) && (layer p <=? 255)) ;;
  writeUInt8 (dataType p) 24 ;;
  writeUInt8 (layer p) 25.

Definition length : Z := -1.
Definition type : Z := 200.

End TCNetDataPacket.

Module TCNetDataPacketMetrics.

Record t : Type := {
  state : Z;
  syncMaster : Z;
  beatMarker : Z;
  trackLength : Z;
  currentPosition : Z;
  speed : Z;
  beatNumber : Z;
  bpm : float;
  pitchBend : Z;
  trackID : Z
}.

Definition read : M t :=
  let* state := readUInt8 27 in
  let* syncMaster := readUInt8 29 in
  let* beatMarker := readUInt8 31 in
  let* trackLength := readUInt32LE 32 in
  let* currentPosition := readUInt32LE 36 in
  let* speed := readUInt32LE 40 in
  let* beatNumber := readUInt32LE 57 in
  let* raw := readUInt32LE 112 in
  let* pitchBend := readUInt16LE 116 in
  let* trackID := readUInt32LE 118 in
  ret {| state := state; syncMaster := syncMaster; beatMarker := beatMarker;
         trackLength := trackLength; currentPosition := currentPosition;
         speed := speed; beatNumber := beatNumber;
         bpm := (number_of_Z raw / number_of_Z 100)%float;
         pitchBend := pitchBend; trackID := trackID |}.

Definition write (p : t) : M unit := throw (Error "not supported!").

Definition length : Z := 122.

End TCNetDataPacketMetrics.

Module TCNetDataPacketMetadata.

Record t : Type := {
  trackArtist : string;
  trackTitle : string;
  trackKey : string;
  trackID : Z
}.

Definition read : M t :=
  let* artist := slice_ascii 29 285 in
  let* title := slice_ascii 285 541 in
  let* key := slice_ascii 541 566 in
  let* trackID := readUInt32LE 543 in
  ret {| trackArtist := trimEnd (remove_NULs artist);
         trackTitle := trimEnd (remove_NULs title);
         trackKey := remove_NULs key; trackID := trackID |}.

Definition write (p : t) : M unit := throw (Error "not supported!").

Definition length : Z := 548.

End TCNetDataPacketMetadata.

Module TCNetDataPacketBeatGridData.

(** [packetNo], [dataClusterSize] and [packetNumber] are declared in the
    class and never assigned by [read]. *)
Record t : Type := {
  dataSize : Z;
  totalPacket : Z;
  beatNumber : Z;
  beatType : Z;
  beatTypeTimestamp : Z
}.

Definition read : M t :=
  let* dataSize := readUInt32LE 26 in
  let* totalPacket := readUInt32LE 30 in
  let* beatNumber := readUInt16LE 42 in
  let* beatType := readUInt8 44 in
  let* beatTypeTimestamp := readUInt16LE 46 in
  console_log (String.append (number_toString dataSize) "datasize -- ") ;;
  console_log (String.append (number_toString totalPacket) "totalPacket --") ;;
  console_log (String.append (number_toString beatNumber) "beatNumber --") ;;
  ret {| dataSize := dataSize; totalPacket := totalPacket;
         beatNumber := beatNumber; beatType := beatType;
         beatTypeTimestamp := beatTypeTimestamp |}.

Definition write (p : t) : M unit := throw (Error "not supported!").

Definition length : Z := 2442.

End TCNetDataPacketBeatGridData.

Module TCNetDataPacketMixerData.

Record t : Type := {
  mixerId : Z;
  mixerType : Z;
  mixerName : string;
  micEQHi : Z;
  micEQLow : Z;
  masterAudioLevel : Z;
  masterFaderLevel : Z;
  linkCueA : Z;
  linkCueB : Z;
  masterFilter : Z;
  masterCueA : Z;
  masterCueB : Z;
  masterIsolatorOnOff : Z;
  masterIsolatorHi : Z;
  masterIsolatorMid : Z;
  masterIsolatorLow : Z;
  filterHPF : Z;
  filterLPF : Z;
  filterRes : Z;
  sendFXEffect : Z;
  sendFXExt1 : Z;
  sendFXExt2 : Z;
  sendFXMasterMix : Z;
  sendFXSizeFeedback : Z;
  sendFXTime : Z;
  sendFXHPF : Z;
  sendFXLevel : Z;
  sendReturn3SourceSelect : Z;
  sendReturn3Type : Z;
  sendReturn3OnOff : Z;
  sendReturn3Level : Z;
  channelFaderCurve : Z;
  crossFaderCurve : Z;
  crossFader : Z;
  beatFxOnOff : Z;
  beatFxLevelDepth : Z;
  beatFxChannelSelect : Z;
  beatFxSelect : Z;
  beatFxFreqHi : Z;
  beatFxFreqMid : Z;
  beatFxFreqLow : Z;
  headphonesPreEq : Z;
  headphonesALevel : Z;
  headphonesAMix : Z;
  headphonesBLevel : Z;
  headphonesBMix : Z;
  boothLevel : Z;
  boothEqHi : Z;
  boothEqLow : Z;
  channel1SourceSelect : Z;
  channel1AudioLevel : Z;
  channel1FaderLevel : Z;
  channel1TrimLevel : Z;
  channel1CompLevel : Z;
  channel1EqHiLevel : Z;
  channel1EqHiMidLevel : Z;
  channel1EqLowMidLevel : Z;
  channel1EqLowLevel : Z;
  channel1FilterColor : Z;
  channel1Send : Z;
  channel1CueA : Z;
  channel1CueB : Z;
  channel1CrossfaderAssign : Z;
  channel2SourceSelect : Z;
  channel2AudioLevel : Z;
  channel2FaderLevel : Z;
  channel2TrimLevel : Z;
  channel2CompLevel : Z;
  channel2EqHiLevel : Z;
  channel2EqHiMidLevel : Z;
  channel2EqLowMidLevel : Z;
  channel2EqLowLevel : Z;
  channel2FilterColor : Z;
  channel2Send : Z;
  channel2CueA : Z;
  channel2CueB : Z;
  channel2CrossfaderAssign : Z;
  channel3SourceSelect : Z;
  channel3AudioLevel : Z;
  channel3FaderLevel : Z;
  channel3TrimLevel : Z;
  channel3CompLevel : Z;
  channel3EqHiLevel : Z;
  channel3EqHiMidLevel : Z;
  channel3EqLowMidLevel : Z;
  channel3EqLowLevel : Z;
  channel3FilterColor : Z;
  channel3Send : Z;
  channel3CueA : Z;
  channel3CueB : Z;
  channel3CrossfaderAssign : Z;
  channel4SourceSelect : Z;
  channel4AudioLevel : Z;
  channel4FaderLevel : Z;
  channel4TrimLevel : Z;
  channel4CompLevel : Z;
  channel4EqHiLevel : Z;
  channel4EqHiMidLevel : Z;
  channel4EqLowMidLevel : Z;
  channel4EqLowLevel : Z;
  channel4FilterColor : Z;
  channel4Send : Z;
  channel4CueA : Z;
  channel4CueB : Z;
  channel4CrossfaderAssign : Z;
  channel5SourceSelect : Z;
  channel5AudioLevel : Z;
  channel5FaderLevel : Z;
  channel5TrimLevel : Z;
  channel5CompLevel : Z;
  channel5EqHiLevel : Z;
  channel5EqHiMidLevel : Z;
  channel5EqLowMidLevel : Z;
  channel5EqLowLevel : Z;
  channel5FilterColor : Z;
  channel5Send : Z;
  channel5CueA : Z;
  channel5CueB : Z;
  channel5CrossfaderAssign : Z;
  channel6SourceSelect : Z;
  channel6AudioLevel : Z;
  channel6FaderLevel : Z;
  channel6TrimLevel : Z;
  channel6CompLevel : Z;
  channel6EqHiLevel : Z;
  channel6EqHiMidLevel : Z;
  channel6EqLowMidLevel : Z;
  channel6EqLowLevel : Z;
  channel6FilterColor : Z;
  channel6Send : Z;
  channel6CueA : Z;
  channel6CueB : Z;
  channel6CrossfaderAssign : Z
}.

Definition read : M t :=
  let* mixerId := readUInt8 25 in
  let* mixerType := readUInt8 26 in
  let* name := slice_ascii 27 59 in
  let* micEQHi := readUInt8 59 in
  let* micEQLow := readUInt8 60 in
  let* masterAudioLevel := readUInt8 61 in
  let* masterFaderLevel := readUInt8 62 in
  let* linkCueA := readUInt8 67 in
  let* linkCueB := readUInt8 68 in
  let* masterFilter := readUInt8 69 in
  let* masterCueA := readUInt8 71 in
  let* masterCueB := readUInt8 72 in
  let* masterIsolatorOnOff := readUInt8 74 in
  let* masterIsolatorHi := readUInt8 75 in
  let* masterIsolatorMid := readUInt8 76 in
  let* masterIsolatorLow := readUInt8 77 in
  let* filterHPF := readUInt8 79 in
  let* filterLPF := readUInt8 80 in
  let* filterRes := readUInt8 81 in
  let* sendFXEffect := readUInt8 84 in
  let* sendFXExt1 := readUInt8 85 in
  let* sendFXExt2 := readUInt8 86 in
  let* sendFXMasterMix := readUInt8 87 in
  let* sendFXSizeFeedback := readUInt8 88 in
  let* sendFXTime := readUInt8 89 in
  let* sendFXHPF := readUInt8 90 in
  let* sendFXLevel := readUInt8 91 in
  let* sendReturn3SourceSelect := readUInt8 92 in
  let* sendReturn3Type := readUInt8 93 in
  let* sendReturn3OnOff := readUInt8 94 in
  let* sendReturn3Level := readUInt8 95 in
  let* channelFaderCurve := readUInt8 97 in
  let* crossFaderCurve := readUInt8 98 in
  let* crossFader := readUInt8 99 in
  let* beatFxOnOff := readUInt8 100 in
  let* beatFxLevelDepth := readUInt8 101 in
  let* beatFxChannelSelect := readUInt8 102 in
  let* beatFxSelect := readUInt8 103 in
  let* beatFxFreqHi := readUInt8 14 in
  let* beatFxFreqMid := readUInt8 105 in
  let* beatFxFreqLow := readUInt8 106 in
  let* headphonesPreEq := readUInt8 107 in
  let* headphonesALevel := readUInt8 108 in
  let* headphonesAMix := readUInt8 109 in
  let* headphonesBLevel := readUInt8 110 in
  let* headphonesBMix := readUInt8 111 in
  let* boothLevel := readUInt8 112 in
  let* boothEqHi := readUInt8 113 in
  let* boothEqLow := readUInt8 114 in
  let* channel1SourceSelect := readUInt8 125 in
  let* channel1AudioLevel := readUInt8 126 in
  let* channel1FaderLevel := readUInt8 127 in
  let* channel1TrimLevel := readUInt8 128 in
  let* channel1CompLevel := readUInt8 129 in
  let* channel1EqHiLevel := readUInt8 130 in
  let* channel1EqHiMidLevel := readUInt8 131 in
  let* channel1EqLowMidLevel := readUInt8 132 in
  let* channel1EqLowLevel := readUInt8 133 in
  let* channel1FilterColor := readUInt8 134 in
  let* channel1Send := readUInt8 135 in
  let* channel1CueA := readUInt8 136 in
  let* channel1CueB := readUInt8 137 in
  let* channel1CrossfaderAssign := readUInt8 138 in
  let* channel2SourceSelect := readUInt8 149 in
  let* channel2AudioLevel := readUInt8 150 in
  let* channel2FaderLevel := readUInt8 151 in
  let* channel2TrimLevel := readUInt8 152 in
  let* channel2CompLevel := readUInt8 153 in
  let* channel2EqHiLevel := readUInt8 154 in
  let* channel2EqHiMidLevel := readUInt8 155 in
  let* channel2EqLowMidLevel := readUInt8 156 in
  let* channel2EqLowLevel := readUInt8 157 in
  let* channel2FilterColor := readUInt8 158 in
  let* channel2Send := readUInt8 159 in
  let* channel2CueA := readUInt8 160 in
  let* channel2CueB := readUInt8 161 in
  let* channel2CrossfaderAssign := readUInt8 162 in
  let* channel3SourceSelect := readUInt8 173 in
  let* channel3AudioLevel := readUInt8 174 in
  let* channel3FaderLevel := readUInt8 175 in
  let* channel3TrimLevel := readUInt8 176 in
  let* channel3CompLevel := readUInt8 177 in
  let* channel3EqHiLevel := readUInt8 178 in
  let* channel3EqHiMidLevel := readUInt8 179 in
  let* channel3EqLowMidLevel := readUInt8 180 in
  let* channel3EqLowLevel := readUInt8 181 in
  let* channel3FilterColor := readUInt8 182 in
  let* channel3Send := readUInt8 183 in
  let* channel3CueA := readUInt8 184 in
  let* channel3CueB := readUInt8 185 in
  let* channel3CrossfaderAssign := readUInt8 186 in
  let* channel4SourceSelect := readUInt8 197 in
  let* channel4AudioLevel := readUInt8 198 in
  let* channel4FaderLevel := readUInt8 199 in
  let* channel4TrimLevel := readUInt8 200 in
  let* channel4CompLevel := readUInt8 201 in
  let* channel4EqHiLevel := readUInt8 202 in
  let* channel4EqHiMidLevel := readUInt8 203 in
  let* channel4EqLowMidLevel := readUInt8 204 in
  let* channel4EqLowLevel := readUInt8 205 in
  let* channel4FilterColor := readUInt8 206 in
  let* channel4Send := readUInt8 207 in
  let* channel4CueA := readUInt8 208 in
  let* channel4CueB := readUInt8 209 in
  let* channel4CrossfaderAssign := readUInt8 210 in
  let* channel5SourceSelect := readUInt8 221 in
  let* channel5AudioLevel := readUInt8 222 in
  let* channel5FaderLevel := readUInt8 223 in
  let* channel5TrimLevel := readUInt8 224 in
  let* channel5CompLevel := readUInt8 225 in
  let* channel5EqHiLevel := readUInt8 226 in
  let* channel5EqHiMidLevel := readUInt8 227 in
  let* channel5EqLowMidLevel := readUInt8 228 in
  let* channel5EqLowLevel := readUInt8 229 in
  let* channel5FilterColor := readUInt8 230 in
  let* channel5Send := readUInt8 231 in
  let* channel5CueA := readUInt8 232 in
  let* channel5CueB := readUInt8 233 in
  let* channel5CrossfaderAssign := readUInt8 234 in
  let* channel6SourceSelect := readUInt8 245 in
  let* channel6AudioLevel := readUInt8 246 in
  let* channel6FaderLevel := readUInt8 247 in
  let* channel6TrimLevel := readUInt8 248 in
  let* channel6CompLevel := readUInt8 249 in
  let* channel6EqHiLevel := readUInt8 250 in
  let* channel6EqHiMidLevel := readUInt8 251 in
  let* channel6EqLowMidLevel := readUInt8 252 in
  let* channel6EqLowLevel := readUInt8 253 in
  let* channel6FilterColor := readUInt8 254 in
  let* channel6Send := readUInt8 255 in
  let* channel6CueA := readUInt8 256 in
  let* channel6CueB := readUInt8 257 in
  let* channel6CrossfaderAssign := readUInt8 258 in
  ret {| mixerId := mixerId; mixerType := mixerType;
         mixerName := trimEnd (remove_NULs name); micEQHi := micEQHi;
         micEQLow := micEQLow; masterAudioLevel := masterAudioLevel;
         masterFaderLevel := masterFaderLevel; linkCueA := linkCueA;
         linkCueB := linkCueB; masterFilter := masterFilter;
         masterCueA := masterCueA; masterCueB := masterCueB;
         masterIsolatorOnOff := masterIsolatorOnOff;
         masterIsolatorHi := masterIsolatorHi;
         masterIsolatorMid := masterIsolatorMid;
         masterIsolatorLow := masterIsolatorLow; filterHPF := filterHPF;
         filterLPF := filterLPF; filterRes := filterRes;
         sendFXEffect := sendFXEffect; sendFXExt1 := sendFXExt1;
         sendFXExt2 := sendFXExt2; sendFXMasterMix := sendFXMasterMix;
         sendFXSizeFeedback := sendFXSizeFeedback; sendFXTime := sendFXTime;
         sendFXHPF := sendFXHPF; sendFXLevel := sendFXLevel;
         sendReturn3SourceSelect := sendReturn3SourceSelect;
         sendReturn3Type := sendReturn3Type;
         sendReturn3OnOff := sendReturn3OnOff;
         sendReturn3Level := sendReturn3Level;
         channelFaderCurve := channelFaderCurve;
         crossFaderCurve := crossFaderCurve; crossFader := crossFader;
         beatFxOnOff := beatFxOnOff; beatFxLevelDepth := beatFxLevelDepth;
         beatFxChannelSelect := beatFxChannelSelect;
         beatFxSelect := beatFxSelect; beatFxFreqHi := beatFxFreqHi;
         beatFxFreqMid := beatFxFreqMid; beatFxFreqLow := beatFxFreqLow;
         headphonesPreEq := headphonesPreEq;
         headphonesALevel := headphonesALevel;
         headphonesAMix := headphonesAMix;
         headphonesBLevel := headphonesBLevel;
         headphonesBMix := headphonesBMix; boothLevel := boothLevel;
         boothEqHi := boothEqHi; boothEqLow := boothEqLow;
         channel1SourceSelect := channel1SourceSelect;
         channel1AudioLevel := channel1AudioLevel;
         channel1FaderLevel := channel1FaderLevel;
         channel1TrimLevel := channel1TrimLevel;
         channel1CompLevel := channel1CompLevel;
         channel1EqHiLevel := channel1EqHiLevel;
         channel1EqHiMidLevel := channel1EqHiMidLevel;
         channel1EqLowMidLevel := channel1EqLowMidLevel;
         channel1EqLowLevel := channel1EqLowLevel;
         channel1FilterColor := channel1FilterColor;
         channel1Send := channel1Send; channel1CueA := channel1CueA;
         channel1CueB := channel1CueB;
         channel1CrossfaderAssign := channel1CrossfaderAssign;
         channel2SourceSelect := channel2SourceSelect;
         channel2AudioLevel := channel2AudioLevel;
         channel2FaderLevel := channel2FaderLevel;
         channel2TrimLevel := channel2TrimLevel;
         channel2CompLevel := channel2CompLevel;
         channel2EqHiLevel := channel2EqHiLevel;
         channel2EqHiMidLevel := channel2EqHiMidLevel;
         channel2EqLowMidLevel := channel2EqLowMidLevel;
         channel2EqLowLevel := channel2EqLowLevel;
         channel2FilterColor := channel2FilterColor;
         channel2Send := channel2Send; channel2CueA := channel2CueA;
         channel2CueB := channel2CueB;
         channel2CrossfaderAssign := channel2CrossfaderAssign;
         channel3SourceSelect := channel3SourceSelect;
         channel3AudioLevel := channel3AudioLevel;
         channel3FaderLevel := channel3FaderLevel;
         channel3TrimLevel := channel3TrimLevel;
         channel3CompLevel := channel3CompLevel;
         channel3EqHiLevel := channel3EqHiLevel;
         channel3EqHiMidLevel := channel3EqHiMidLevel;
         channel3EqLowMidLevel := channel3EqLowMidLevel;
         channel3EqLowLevel := channel3EqLowLevel;
         channel3FilterColor := channel3FilterColor;
         channel3Send := channel3Send; channel3CueA := channel3CueA;
         channel3CueB := channel3CueB;
         channel3CrossfaderAssign := channel3CrossfaderAssign;
         channel4SourceSelect := channel4SourceSelect;
         channel4AudioLevel := channel4AudioLevel;
         channel4FaderLevel := channel4FaderLevel;
         channel4TrimLevel := channel4TrimLevel;
         channel4CompLevel := channel4CompLevel;
         channel4EqHiLevel := channel4EqHiLevel;
         channel4EqHiMidLevel := channel4EqHiMidLevel;
         channel4EqLowMidLevel := channel4EqLowMidLevel;
         channel4EqLowLevel := channel4EqLowLevel;
         channel4FilterColor := channel4FilterColor;
         channel4Send := channel4Send; channel4CueA := channel4CueA;
         channel4CueB := channel4CueB;
         channel4CrossfaderAssign := channel4CrossfaderAssign;
         channel5SourceSelect := channel5SourceSelect;
         channel5AudioLevel := channel5AudioLevel;
         channel5FaderLevel := channel5FaderLevel;
         channel5TrimLevel := channel5TrimLevel;
         channel5CompLevel := channel5CompLevel;
         channel5EqHiLevel := channel5EqHiLevel;
         channel5EqHiMidLevel := channel5EqHiMidLevel;
         channel5EqLowMidLevel := channel5EqLowMidLevel;
         channel5EqLowLevel := channel5EqLowLevel;
         channel5FilterColor := channel5FilterColor;
         channel5Send := channel5Send; channel5CueA := channel5CueA;
         channel5CueB := channel5CueB;
         channel5CrossfaderAssign := channel5CrossfaderAssign;
         channel6SourceSelect := channel6SourceSelect;
         channel6AudioLevel := channel6AudioLevel;
         channel6FaderLevel := channel6FaderLevel;
         channel6TrimLevel := channel6TrimLevel;
         channel6CompLevel := channel6CompLevel;
         channel6EqHiLevel := channel6EqHiLevel;
         channel6EqHiMidLevel := channel6EqHiMidLevel;
         channel6EqLowMidLevel := channel6EqLowMidLevel;
         channel6EqLowLevel := channel6EqLowLevel;
         channel6FilterColor := channel6FilterColor;
         channel6Send := channel6Send; channel6CueA := channel6CueA;
         channel6CueB := channel6CueB;
         channel6CrossfaderAssign := channel6CrossfaderAssign |}.

Definition write (p : t) : M unit := throw (Error "not supported!").

Definition length : Z := 270.

End TCNetDataPacketMixerData.

(** ** The packet classes together *)

(** The concrete subclasses of [TCNetPacket]. *)
Inductive PacketClass : Type :=
  | OptInPacket | OptOutPacket | StatusPacket | RequestPacket
  | ApplicationData | TimePacket | DataPacket
  | DataPacketMetrics | DataPacketMetadata | DataPacketBeatGridData
  | DataPacketMixerData.

(** A packet object after [read], or before [write]: its class and fields. *)
Inductive Packet : Type :=
  | OptIn (p : TCNetOptInPacket.t)
  | OptOut (p : TCNetOptOutPacket.t)
  | Status (p : TCNetStatusPacket.t)
  | Request (p : TCNetRequestPacket.t)
  | Application (p : TCNetApplicationData.t)
  | Time (p : TCNetTimePacket.t)
  | Data (p : TCNetDataPacket.t)
  | Metrics (p : TCNetDataPacketMetrics.t)
  | Metadata (p : TCNetDataPacketMetadata.t)
  | BeatGrid (p : TCNetDataPacketBeatGridData.t)
  | Mixer (p : TCNetDataPacketMixerData.t).

Definition class_of (p : Packet) : PacketClass :=
  match p with
  | OptIn _ => OptInPacket
  | OptOut _ => OptOutPacket
  | Status _ => StatusPacket
  | Request _ => RequestPacket
  | Application _ => ApplicationData
  | Time _ => TimePacket
  | Data _ => DataPacket
  | Metrics _ => DataPacketMetrics
  | Metadata _ => DataPacketMetadata
  | BeatGrid _ => DataPacketBeatGridData
  | Mixer _ => DataPacketMixerData
  end.

(** [packet.length()] *)
Definition packet_length (c : PacketClass) : Z :=
  match c with
  | OptInPacket => TCNetOptInPacket.length
  | OptOutPacket => TCNetOptOutPacket.length
  | StatusPacket => TCNetStatusPacket.length
  | RequestPacket => TCNetRequestPacket.length
  | ApplicationData => TCNetApplicationData.length
  | TimePacket => TCNetTimePacket.length
  | DataPacket => TCNetDataPacket.length
  | DataPacketMetrics => TCNetDataPacketMetrics.length
  | DataPacketMetadata => TCNetDataPacketMetadata.length
  | DataPacketBeatGridData => TCNetDataPacketBeatGridData.length
  | DataPacketMixerData => TCNetDataPacketMixerData.length
  end.

Definition fmapM {A B : Type} (f : A -> B) (m : M A) : M B :=
  let* a := m in ret (f a).

(** [packet.read()], dispatched on the class of the object. *)
Definition packet_read (c : PacketClass) : M Packet :=
  match c with
  | OptInPacket => fmapM OptIn TCNetOptInPacket.read
  | OptOutPacket => fmapM OptOut TCNetOptOutPacket.read
  | StatusPacket => fmapM Status TCNetStatusPacket.read
  | RequestPacket => fmapM Request TCNetRequestPacket.read
  | ApplicationData => fmapM Application TCNetApplicationData.read
  | TimePacket => fmapM Time TCNetTimePacket.read
  | DataPacket => fmapM Data TCNetDataPacket.read
  | DataPacketMetrics => fmapM Metrics TCNetDataPacketMetrics.read
  | DataPacketMetadata => fmapM Metadata TCNetDataPacketMetadata.read
  | DataPacketBeatGridData => fmapM BeatGrid TCNetDataPacketBeatGridData.read
  | DataPacketMixerData => fmapM Mixer TCNetDataPacketMixerData.read
  end.

(** [packet.write()], dispatched on the class of the object. *)
Definition packet_write (p : Packet) : M unit :=
  match p with
  | OptIn p => TCNetOptInPacket.write p
  | OptOut p => TCNetOptOutPacket.write p
  | Status p => TCNetStatusPacket.write p
  | Request p => TCNetRequestPacket.write p
  | Application p => TCNetApplicationData.write p
  | Time p => TCNetTimePacket.write p
  | Data p => TCNetDataPacket.write p
  | Metrics p => TCNetDataPacketMetrics.write p
  | Metadata p => TCNetDataPacketMetadata.write p
  | BeatGrid p => TCNetDataPacketBeatGridData.write p
  | Mixer p => TCNetDataPacketMixerData.write p
  end.

(** Running a method on a buffer with an empty console. *)
Definition on_buffer (b : Buffer) : World := {| buffer := b; console := [] |}.

(** ** Vocabulary for the properties of the decoders *)

(** [buffer.length] *)
Definition len (w : World) : Z := Z.of_nat (List.length (buffer w)).

(** A computation that only inspects the world: it hands the world back as
    it found it, and throws nothing but a [RangeError]. *)
Definition inspects {A : Type} (m : M A) : Prop :=
  forall w, exists r,
    m w = (w, r) /\ (r = Throw RangeError \/ exists a, r = Ok a).

(** A computation that throws a [RangeError], and does nothing else, on every
    buffer shorter than [n]. *)
Definition fails_below {A : Type} (n : Z) (m : M A) : Prop :=
  forall w, len w < n -> m w = (w, Throw RangeError).

(** A computation that returns a value, and leaves the buffer alone, on every
    buffer of at least [n] bytes. *)
Definition succeeds_from {A : Type} (n : Z) (m : M A) : Prop :=
  forall w, n <= len w ->
    exists w' a, m w = (w', Ok a) /\ buffer w' = buffer w.

(** A computation that only stores into the buffer: the buffer keeps its
    length, and nothing but a [RangeError] is thrown. *)
Definition stores {A : Type} (m : M A) : Prop :=
  forall w, exists w' r,
    m w = (w', r) /\ len w' = len w
    /\ (r = Throw RangeError \/ exists a, r = Ok a).

(** A computation that ends in a [RangeError] on every buffer shorter than
    [n]; the buffer keeps its length. *)
Definition breaks_below {A : Type} (n : Z) (m : M A) : Prop :=
  forall w, len w < n ->
    exists w', m w = (w', Throw RangeError) /\ len w' = len w.

(** The end of the furthest integer field that [read] of a class reads. *)
Definition extent (c : PacketClass) : Z :=
  match c with
  | OptInPacket => 67
  | OptOutPacket => 28
  | StatusPacket => 85
  | RequestPacket => 26
  | ApplicationData => 26
  | TimePacket => 154
  | DataPacket => 26
  | DataPacketMetrics => 122
  | DataPacketMetadata => 547
  | DataPacketBeatGridData => 48
  | DataPacketMixerData => 259
  end.

(** The classes whose [write] is [throw new Error("not supported!")]. *)
Definition decode_only : list PacketClass :=
  [StatusPacket; TimePacket; DataPacketMetrics; DataPacketMetadata;
   DataPacketBeatGridData; DataPacketMixerData].

(** ** Inputs of the scenarios *)

(** A 24-byte header: node id 1, major version 3, minor version 5, the
    bytes "XYZ" where the magic "TCN" belongs, message type 5 (Status), node
    name "NODE", sequence 7, node type 2, options 7, timestamp 1000. *)
Definition header_with_bad_magic : Buffer :=
  [1; 0; 3; 5; 88; 89; 90; 5; 78; 79; 68; 69; 0; 0; 0; 0; 7; 2; 7; 0;
   232; 3; 0; 0].

(** The same header with the magic "TCN" and major version 2. *)
Definition header_with_version_2 : Buffer :=
  [1; 0; 2; 5; 84; 67; 78; 5; 78; 79; 68; 69; 0; 0; 0; 0; 7; 2; 7; 0;
   232; 3; 0; 0].

(** An OptIn packet of application version 1.2.3. *)
Definition optin_1_2_3 : TCNetOptInPacket.t :=
  {| TCNetOptInPacket.nodeCount := 1;
     TCNetOptInPacket.nodeListenerPort := 65023;
     TCNetOptInPacket.uptime := 10;
     TCNetOptInPacket.vendorName := "VENDOR";
     TCNetOptInPacket.appName := "APP";
     TCNetOptInPacket.majorVersion := 1;
     TCNetOptInPacket.minorVersion := 2;
     TCNetOptInPacket.bugVersion := 3 |}.

(** [Buffer.alloc(n)]: [n] zero bytes. *)
Definition alloc (n : nat) : Buffer := replicate n 0.


(** The Metadata packet decoded from zero bytes: no text, track id 0. *)
Definition metadata_of_zeros : TCNetDataPacketMetadata.t :=
  {| TCNetDataPacketMetadata.trackArtist := "";
     TCNetDataPacketMetadata.trackTitle := "";
     TCNetDataPacketMetadata.trackKey := "";
     TCNetDataPacketMetadata.trackID := 0 |}.

(** A 122-byte Metrics buffer whose bytes 112..115 hold 12000 (0x2EE0),
    little-endian. *)
Definition metrics_with_12000 : Buffer :=
  replicate 112 0 ++ [224; 46; 0; 0] ++ replicate 6 0.

(** A Status packet object, for [write]. *)
Definition a_status_packet : TCNetStatusPacket.t :=
  {| TCNetStatusPacket.nodeCount := 1;
     TCNetStatusPacket.nodeListenerPort := 65023;
     TCNetStatusPacket.layerSource := [1; 2; 3; 4; 5; 6; 7; 8];
     TCNetStatusPacket.layerStatus := [3; 3; 0; 0; 0; 0; 0; 0];
     TCNetStatusPacket.trackID := [5; 5; 0; 0; 0; 0; 0; 0];
     TCNetStatusPacket.smpteMode := 0;
     TCNetStatusPacket.autoMasterMode := 0;
     TCNetStatusPacket.layerName := [] |}.

End Network.

(** * network.ts: the dispatch tables and [type()] *)

Module Dispatch.

Import Network.

(** [packet.type()]: every direct subclass of [TCNetPacket] defines it; the
    Data sub-type classes inherit the envelope's. *)
Definition packet_type (c : PacketClass) : Z :=
  match c with
  | OptInPacket => TCNetOptInPacket.type
  | OptOutPacket => TCNetOptOutPacket.type
  | StatusPacket => TCNetStatusPacket.type
  | RequestPacket => TCNetRequestPacket.type
  | ApplicationData => TCNetApplicationData.type
  | TimePacket => TCNetTimePacket.type
  | DataPacket | DataPacketMetrics | DataPacketMetadata
  | DataPacketBeatGridData | DataPacketMixerData => TCNetDataPacket.type
  end.

(** What indexing a table with a number yields: [undefined] for a key the
    table does not have, [null] for a message that is not implemented, or a
    class. *)
Inductive entry : Type :=
  | no_such_key
  | null
  | constructable (c : PacketClass).

(** [TCNetPackets[messageType]] *)
Definition TCNetPackets (messageType : Z) : entry :=
  match messageType with
  | 2 => constructable OptInPacket
  | 3 => constructable OptOutPacket
  | 5 => constructable StatusPacket
  | 10 => null
  | 13 => null
  | 20 => constructable RequestPacket
  | 30 => constructable ApplicationData
  | 101 => null
  | 128 => null
  | 132 => null
  | 200 => constructable DataPacket
  | 204 => null
  | 254 => constructable TimePacket
  | _ => no_such_key
  end.

(** [TCNetDataPackets[dataType]] *)
Definition TCNetDataPackets (dataType : Z) : entry :=
  match dataType with
  | 2 => constructable DataPacketMetrics
  | 4 => constructable DataPacketMetadata
  | 8 => constructable DataPacketBeatGridData
  | 12 => null
  | 16 => null
  | 32 => null
  | 150 => constructable DataPacketMixerData
  | _ => no_such_key
  end.

End Dispatch.

(** * Values that fit the wire format *)

Module Fits.

Import Network.

(** A buffer as Node holds it: every element a byte. *)
Definition bytes (b : Buffer) : Prop := Forall (fun x => 0 <= x < 256) b.

(** A string of seven-bit characters without NUL: text for a fixed-width
    field. *)
Definition field_text (s : string) : Prop :=
  Forall (fun c => (0 < N_of_ascii c < 128)%N) (list_ascii_of_string s).

(** The header values that fit their fields. *)
Definition header_fits (h : TCNetManagementHeader.t) : Prop :=
  0 <= TCNetManagementHeader.nodeId h <= 65535
  /\ 0 <= TCNetManagementHeader.minorVersion h <= 255
  /\ 0 <= TCNetManagementHeader.messageType h <= 255
  /\ field_text (TCNetManagementHeader.nodeName h)
  /\ (String.length (TCNetManagementHeader.nodeName h) <= 8)%nat
  /\ 0 <= TCNetManagementHeader.seq h <= 255
  /\ 0 <= TCNetManagementHeader.nodeType h <= 255
  /\ 0 <= TCNetManagementHeader.nodeOptions h <= 65535
  /\ 0 <= TCNetManagementHeader.timestamp h <= 4294967295.

(** The 24 bytes of a header on the wire, in the order of their offsets:
    node id (little-endian), major version 3, minor version, "TCN", message
    type, the node name padded with NULs to 8 bytes, sequence number, node
    type, node options (little-endian), timestamp (little-endian). *)
Definition header_image (h : TCNetManagementHeader.t) : list Z :=
  [TCNetManagementHeader.nodeId h mod 256;
   TCNetManagementHeader.nodeId h / 256;
   3;
   TCNetManagementHeader.minorVersion h;
   84; 67; 78;
   TCNetManagementHeader.messageType h]
  ++ ascii_bytes (padEnd_NUL (TCNetManagementHeader.nodeName h) 8)
  ++ [TCNetManagementHeader.seq h;
      TCNetManagementHeader.nodeType h;
      TCNetManagementHeader.nodeOptions h mod 256;
      TCNetManagementHeader.nodeOptions h / 256;
      TCNetManagementHeader.timestamp h mod 256;
      TCNetManagementHeader.timestamp h / 256 mod 256;
      TCNetManagementHeader.timestamp h / 65536 mod 256;
      TCNetManagementHeader.timestamp h / 16777216].

(** The packets whose [write] stores their fields, with values that fit
    the fields. *)
Definition payload_fits (p : Packet) : Prop :=
  match p with
  | OptOut q =>
      0 <= TCNetOptOutPacket.nodeCount q <= 65535
      /\ 0 <= TCNetOptOutPacket.nodeListenerPort q <= 65535
  | Request q =>
      0 <= TCNetRequestPacket.dataType q <= 255
      /\ 0 <= TCNetRequestPacket.layer q <= 255
  | Application q =>
      0 <= TCNetApplicationData.dataType q <= 255
      /\ 0 <= TCNetApplicationData.layer q <= 255
  | Data q =>
      0 <= TCNetDataPacket.dataType q <= 255
      /\ 0 <= TCNetDataPacket.layer q <= 255
  | _ => False
  end.

(** The bytes of such a packet on the wire, from offset 24 on. *)
Definition payload_image (p : Packet) : list Z :=
  match p with
  | OptOut q =>
      [TCNetOptOutPacket.nodeCount q mod 256;
       TCNetOptOutPacket.nodeCount q / 256;
       TCNetOptOutPacket.nodeListenerPort q mod 256;
       TCNetOptOutPacket.nodeListenerPort q / 256]
  | Request q => [TCNetRequestPacket.dataType q; TCNetRequestPacket.layer q]
  | Application q =>
      [TCNetApplicationData.dataType q; TCNetApplicationData.layer q]
  | Data q => [TCNetDataPacket.dataType q; TCNetDataPacket.layer q]
  | _ => []
  end.

End Fits.

(** * utils.ts *)

Module Utils.

Import Network.

(** [Color.rgb(r, g, b)] of the [color] package: the three channels. *)
Record Color : Type := {
  red : Z;
  green : Z;
  blue : Z
}.

(** [toColor(buffer)] *)
Definition toColor : M Color :=
  fun w =>
    if negb (len w =? 3)
    then (w, Throw (Error "amount of bytes not correct for RGB"))
    else (let* r := readUInt8 0 in
          let* g := readUInt8 1 in
          let* b := readUInt8 2 in
          ret {| red := r; green := g; blue := b |}) w.

End Utils.

(** * pioneer.ts: the client *)

Module Client.

Import Pioneer.

(** [LayerIndexUtil.layerToIdx(layer)]: the assertion is [console.assert]. *)
Definition layerToIdx (layer : Z) : Console * Z :=
  (console_assert ((1 <=? layer) && (layer <=? 4))
     (Some "Layer Number must be in the range of 1-4"%string), layer).

(** A packet object as [receiveBroadcast] sees it: of a [TCNetStatusPacket]
    it reads the fields [trackID] and [layerStatus], which hold arrays; of
    an object of any other class it reads nothing. *)
Inductive TCNetPacket : Type :=
  | StatusPacketObject (trackID layerStatus : ref)
  | OtherPacketObject (c : Network.PacketClass).

(** What [this.emit(...)] is called with. The listeners are not part of the
    code; an [emit] is recorded. *)
Inductive event : Type :=
  | changedtrack (el : nat)
  | changedstatus (el : nat)
  | statuschange.

(** What a call of [receiveBroadcast] leaves behind. *)
Record Received : Type := {
  console_lines : Console;
  heap_after : Heap;
  emitted : list event
}.

(** [private receiveBroadcast(packet)], on the client's [_state]. *)
Definition receiveBroadcast (_state : PioneerDJState) (packet : TCNetPacket)
    (h : Heap) : Received :=
  match packet with
  | StatusPacketObject trackIDs layerStatus =>
      let changedTracks := updateTrackIDs _state trackIDs h in
      let changedStatus := updateStatus _state layerStatus (heap changedTracks) in
      {| console_lines := printed changedTracks ++ printed changedStatus;
         heap_after := heap changedStatus;
         emitted :=
           map changedtrack (changed changedTracks)
           ++ map changedstatus (changed changedStatus)
           ++ (if (0 <? length (changed changedTracks))%nat
                  || (0 <? length (changed changedStatus))%nat
               then [statuschange] else []) |}
  | OtherPacketObject _ =>
      {| console_lines := []; heap_after := h; emitted := [] |}
  end.

(** The packet object of a decoded Status packet: the arrays that the
    packet's field initialisers created and [read] filled. *)
Definition status_packet_object (p : Network.TCNetStatusPacket.t) (h : Heap)
    : TCNetPacket * Heap :=
  let '(t, h1) := alloc (numbers (Network.TCNetStatusPacket.trackID p)) h in
  let '(s, h2) := alloc (numbers (Network.TCNetStatusPacket.layerStatus p)) h1 in
  (StatusPacketObject t s, h2).

(** The packet's arrays are not the tracker's, and the tracker's two arrays
    are two arrays. *)
Definition separate (st : PioneerDJState) (trackIDs layerStatus : ref) : Prop :=
  _trackID st <> _status st
  /\ trackIDs <> _trackID st /\ trackIDs <> _status st
  /\ layerStatus <> _trackID st /\ layerStatus <> _status st.

(** A tracker in a heap: its two arrays are there, and are two arrays. *)
Definition tracker_in (st : PioneerDJState) (h : Heap) : Prop :=
  _trackID st <> _status st
  /\ is_Some (h !! _trackID st) /\ is_Some (h !! _status st).

(** The 1-based numbers of the slots 0..7 at which two arrays differ. *)
Definition differing_layers (stored input : list value) : list nat :=
  map (fun i => (i + 1)%nat) (List.filter (differs stored input) (seq 0 8)).

End Client.


(** * Properties of the layer-state tracker *)

Section TrackerFacts.

Import Pioneer.

Lemma strict_neq_refl (a : value) : strict_neq a a = false.
Proof. destruct a as [|n]; simpl; [reflexivity|]. now rewrite Z.eqb_refl. Qed.

Lemma strict_neq_false (a b : value) : strict_neq a b = false -> a = b.
Proof.
  destruct a as [|x], b as [|y]; simpl; try discriminate; try reflexivity.
  intros H. apply negb_false_iff, Z.eqb_eq in H. now subst.
Qed.

(** Reading back after an assignment: the assigned slot holds the value and
    every other index reads as before, whether or not the array grew. *)
Lemma array_get_set (a : list value) (i j : nat) (v : value) :
  array_get (array_set a i v) j = if (j =? i)%nat then v else array_get a j.
Proof.
  unfold array_get, array_set.
  destruct (Nat.ltb_spec i (length a)) as [Hlt|Hge].
  - destruct (Nat.eqb_spec j i) as [->|Hne].
    + now rewrite list_lookup_insert_eq.
    + now rewrite list_lookup_insert_ne by congruence.
  - destruct (Nat.eqb_spec j i) as [->|Hne].
    + rewrite lookup_app_r by lia.
      rewrite lookup_app_r by (rewrite length_replicate; lia).
      rewrite length_replicate.
      now replace (i - length a - (i - length a))%nat with 0%nat by lia.
    + destruct (Nat.lt_ge_cases j (length a)) as [Hj|Hj].
      * now rewrite lookup_app_l by lia.
      * rewrite (lookup_ge_None_2 a j) by lia.
        rewrite lookup_app_r by lia.
        destruct (Nat.lt_ge_cases (j - length a) (i - length a)) as [Hk|Hk].
        -- rewrite lookup_app_l by (rewrite length_replicate; lia).
           now rewrite lookup_replicate_2 by lia.
        -- rewrite lookup_app_r by (rewrite length_replicate; lia).
           rewrite length_replicate.
           destruct (j - length a - (i - length a))%nat as [|k] eqn:Hd;
             [lia | reflexivity].
Qed.

Lemma length_array_set_inside (a : list value) (i : nat) (v : value) :
  (i < length a)%nat -> length (array_set a i v) = length a.
Proof.
  intros Hi. unfold array_set.
  destruct (Nat.ltb_spec i (length a)); [apply length_insert | lia].
Qed.

(** ** The heap *)

Lemma deref_insert_eq (h : Heap) (r : ref) (a : list value) :
  deref (<[r := a]> h) r = a.
Proof. unfold deref. now rewrite lookup_insert_eq. Qed.

Lemma deref_insert_ne (h : Heap) (r r' : ref) (a : list value) :
  r <> r' -> deref (<[r := a]> h) r' = deref h r'.
Proof. intros Hne. unfold deref. now rewrite lookup_insert_ne. Qed.

Lemma alloc_spec (a : list value) (h : Heap) :
  h !! fst (alloc a h) = None
  /\ deref (snd (alloc a h)) (fst (alloc a h)) = a
  /\ forall r, r <> fst (alloc a h) -> snd (alloc a h) !! r = h !! r.
Proof.
  unfold alloc. cbn [fst snd]. split; [|split].
  - apply not_elem_of_dom. apply is_fresh.
  - apply deref_insert_eq.
  - intros r Hr. now rewrite lookup_insert_ne.
Qed.

(** The two arrays of a new tracker are two different arrays, both filled
    with -1, and creating the tracker touches no array that was there
    before. *)
Lemma new_PioneerDJState_spec (h : Heap) :
  let st := fst (new_PioneerDJState h) in
  let h' := snd (new_PioneerDJState h) in
  _trackID st <> _status st
  /\ deref h' (_trackID st) = replicate 8 (number (-1))
  /\ deref h' (_status st) = replicate 8 (number (-1))
  /\ forall r, is_Some (h !! r) -> h' !! r = h !! r.
Proof.
  unfold new_PioneerDJState.
  pose proof (alloc_spec (replicate 8 (number (-1))) h) as (Hf1 & Hd1 & Ho1).
  destruct (alloc (replicate 8 (number (-1))) h) as [t h1] eqn:E1.
  pose proof (alloc_spec (replicate 8 (number (-1))) h1) as (Hf2 & Hd2 & Ho2).
  destruct (alloc (replicate 8 (number (-1))) h1) as [s h2] eqn:E2.
  cbn [fst snd _trackID _status] in *.
  assert (Hts : t <> s).
  { intros ->. unfold deref in Hd1. rewrite Hf2 in Hd1. discriminate Hd1. }
  split; [exact Hts|]. split; [|split].
  - unfold deref in *. rewrite Ho2 by exact Hts. exact Hd1.
  - exact Hd2.
  - intros r [a Hr].
    rewrite Ho2 by (intros ->; rewrite Ho1 in Hf2 by (intros ->; congruence);
                    congruence).
    apply Ho1. intros ->. congruence.
Qed.

(** ** The loop *)

Lemma filter_differs_set (field source : list value) (i n : nat) (v : value) :
  List.filter (differs (array_set field i v) source) (seq (S i) n)
  = List.filter (differs field source) (seq (S i) n).
Proof.
  apply List.filter_ext_in. intros j Hj. apply in_seq in Hj.
  unfold differs. rewrite array_get_set.
  destruct (Nat.eqb_spec j i); [lia | reflexivity].
Qed.

(** A slot of an array never differs from itself, so the loop writes only
    when [field] and [source] are two arrays. *)
Lemma differing_slot_not_aliased (field source : ref) (h : Heap) (i : nat) :
  strict_neq (array_get (deref h field) i) (array_get (deref h source) i)
  = true ->
  field <> source.
Proof. intros Hd ->. now rewrite strict_neq_refl in Hd. Qed.

(** The list returned by the loop: what was collected before, followed by
    the 1-based numbers of the indices still to visit whose slots differ. *)
Lemma update_loop_changed (fuel : nat) :
  forall (i : nat) (field source : ref) (h : Heap) (acc : list nat),
    snd (update_loop fuel i field source h acc)
    = acc ++ map (fun j => (j + 1)%nat)
               (List.filter (differs (deref h field) (deref h source))
                  (seq i fuel)).
Proof.
  induction fuel as [|fuel IH]; intros i field source h acc; simpl.
  - now rewrite app_nil_r.
  - fold (differs (deref h field) (deref h source) i).
    destruct (differs (deref h field) (deref h source) i) eqn:Hd.
    + pose proof (differing_slot_not_aliased _ _ _ _ Hd) as Hne.
      rewrite IH, deref_insert_eq, deref_insert_ne by exact Hne.
      rewrite filter_differs_set. simpl. now rewrite <- app_assoc.
    + apply IH.
Qed.

(** The array left in [field] by the loop: the visited indices hold the
    source's values, every other index reads as before. *)
Lemma update_loop_stored (fuel : nat) :
  forall (i : nat) (field source : ref) (h : Heap) (acc : list nat) (j : nat),
    array_get (deref (fst (update_loop fuel i field source h acc)) field) j
    = if ((i <=? j) && (j <? i + fuel))%nat
      then array_get (deref h source) j else array_get (deref h field) j.
Proof.
  induction fuel as [|fuel IH]; intros i field source h acc j; simpl.
  - destruct (Nat.leb_spec i j), (Nat.ltb_spec j (i + 0)); simpl;
      try reflexivity; lia.
  - destruct (strict_neq (array_get (deref h field) i)
                (array_get (deref h source) i)) eqn:Hd; rewrite IH.
    + pose proof (differing_slot_not_aliased _ _ _ _ Hd) as Hne.
      rewrite deref_insert_eq, deref_insert_ne by exact Hne.
      rewrite array_get_set.
      destruct (Nat.leb_spec (S i) j), (Nat.ltb_spec j (S i + fuel)),
        (Nat.leb_spec i j), (Nat.ltb_spec j (i + S fuel)),
        (Nat.eqb_spec j i); simpl; subst; try reflexivity; lia.
    + apply strict_neq_false in Hd.
      destruct (Nat.leb_spec (S i) j), (Nat.ltb_spec j (S i + fuel)),
        (Nat.leb_spec i j), (Nat.ltb_spec j (i + S fuel)); simpl;
        try reflexivity; try lia.
      replace j with i by lia. exact Hd.
Qed.

(** The loop writes through [field] only: every other array of the heap is
    left as it was. *)
Lemma update_loop_frame (fuel : nat) :
  forall (i : nat) (field source : ref) (h : Heap) (acc : list nat) (r : ref),
    r <> field ->
    fst (update_loop fuel i field source h acc) !! r = h !! r.
Proof.
  induction fuel as [|fuel IH]; intros i field source h acc r Hr; simpl;
    [reflexivity|].
  destruct (strict_neq _ _).
  - rewrite IH by exact Hr. now rewrite lookup_insert_ne by congruence.
  - now apply IH.
Qed.

(** Given one array as both [field] and [source], the loop does nothing. *)
Lemma update_loop_aliased (fuel : nat) :
  forall (i : nat) (r : ref) (h : Heap) (acc : list nat),
    update_loop fuel i r r h acc = (h, acc).
Proof.
  induction fuel as [|fuel IH]; intros i r h acc; simpl; [reflexivity|].
  rewrite strict_neq_refl. apply IH.
Qed.

(** A loop that stays inside the stored array does not resize it. *)
Lemma update_loop_length (fuel : nat) :
  forall (i : nat) (field source : ref) (h : Heap) (acc : list nat),
    (i + fuel <= length (deref h field))%nat ->
    length (deref (fst (update_loop fuel i field source h acc)) field)
    = length (deref h field).
Proof.
  induction fuel as [|fuel IH]; intros i field source h acc Hin; simpl;
    [reflexivity|].
  destruct (strict_neq _ _).
  - rewrite IH; rewrite deref_insert_eq, length_array_set_inside; lia.
  - apply IH. lia.
Qed.

(** ** [update] *)

Lemma update_changed (field source : ref) (h : Heap) :
  changed (update field source h)
  = map (fun j => (j + 1)%nat)
      (List.filter (differs (deref h field) (deref h source))
         (seq 0 (length (deref h source)))).
Proof.
  unfold update.
  pose proof (update_loop_changed (length (deref h source)) 0 field source h [])
    as H.
  destruct (update_loop _ 0 field source h []) as [h' c]. exact H.
Qed.

Lemma update_stored (field source : ref) (h : Heap) (j : nat) :
  (j < length (deref h source))%nat ->
  array_get (deref (heap (update field source h)) field) j
  = array_get (deref h source) j.
Proof.
  intros Hj. unfold update.
  pose proof (update_loop_stored (length (deref h source)) 0 field source h []
                j) as H.
  destruct (update_loop _ 0 field source h []) as [h' c].
  cbn [fst heap Nat.leb Nat.add andb] in *. rewrite H.
  destruct (Nat.ltb_spec j (length (deref h source))); [reflexivity | lia].
Qed.

Lemma update_frame (field source : ref) (h : Heap) (r : ref) :
  r <> field -> deref (heap (update field source h)) r = deref h r.
Proof.
  intros Hr. unfold update.
  pose proof (update_loop_frame (length (deref h source)) 0 field source h []
                r Hr) as H.
  destruct (update_loop _ 0 field source h []) as [h' c].
  cbn [fst heap] in *. unfold deref. now rewrite H.
Qed.

(** The array given as [source] is the same after the call. *)
Lemma update_source_unchanged (field source : ref) (h : Heap) :
  deref (heap (update field source h)) source = deref h source.
Proof.
  destruct (Nat.eq_dec source field) as [->|Hne].
  - unfold update. now rewrite update_loop_aliased.
  - now apply update_frame.
Qed.

Lemma filter_none {A : Type} (f : A -> bool) (l : list A) :
  (forall x, In x l -> f x = false) -> List.filter f l = [].
Proof.
  induction l as [|x l IH]; intros H; simpl; [reflexivity|].
  rewrite (H x) by now left. apply IH. intros y Hy. apply H. now right.
Qed.

(** Updating again, from any array with the contents of the first source,
    finds no differing slot. *)
Lemma update_twice (field source source' : ref) (h : Heap) :
  deref (heap (update field source h)) source' = deref h source ->
  changed (update field source' (heap (update field source h))) = [].
Proof.
  intros Hsame. rewrite update_changed, Hsame.
  replace (List.filter _ _) with (@nil nat); [reflexivity|].
  symmetry. apply filter_none. intros j Hj. apply in_seq in Hj.
  unfold differs. rewrite update_stored by lia. apply strict_neq_refl.
Qed.

(** Between arrays of the same length, [update] leaves exactly the contents
    of the source in the stored array. *)
Lemma update_stores_the_source (field source : ref) (h : Heap) :
  length (deref h field) = length (deref h source) ->
  deref (heap (update field source h)) field = deref h source.
Proof.
  intros Hlen. apply list_eq. intros j.
  assert (Hl : length (deref (heap (update field source h)) field)
               = length (deref h field)).
  { unfold update.
    pose proof (update_loop_length (length (deref h source)) 0 field source h
                  []) as H.
    destruct (update_loop _ 0 field source h []) as [h' c].
    apply H. lia. }
  destruct (Nat.lt_ge_cases j (length (deref h source))) as [Hj|Hj].
  - pose proof (update_stored field source h j Hj) as Hs.
    unfold array_get in Hs.
    destruct (lookup_lt_is_Some_2 (deref (heap (update field source h)) field)
                j ltac:(lia)) as [x Hx].
    destruct (lookup_lt_is_Some_2 (deref h source) j Hj) as [y Hy].
    rewrite Hx, Hy in Hs. now rewrite Hx, Hy, Hs.
  - now rewrite !lookup_ge_None_2 by lia.
Qed.

(** An input that is not 8 elements long costs one line on the console;
    the loop then runs over the input as it does for any other. *)
Lemma update_warns_on_wrong_width (field source : ref) (h : Heap) :
  length (deref h source) <> 8%nat ->
  printed (update field source h)
  = ["Assertion failed: there must be data for exactly 8 layers"%string]
  /\ changed (update field source h)
     = map (fun j => (j + 1)%nat)
         (List.filter (differs (deref h field) (deref h source))
            (seq 0 (length (deref h source)))).
Proof.
  intros Hne. split; [|apply update_changed].
  unfold update. destruct (update_loop _ _ _ _ _ _) as [h' c]. cbn [printed].
  destruct (Nat.eqb_spec (length (deref h source)) 8);
    [contradiction | reflexivity].
Qed.

(** ** What the specification states about the tracker *)

(** C2, as stated, fails: a fresh tracker does not answer [1,2] to the
    status array [3,3,0,0,0,0,0,0]. *)
Lemma fresh_updateStatus_is_not_1_2 :
  (let '(st, statuses, h) := fresh_tracker_with status_3_3 in
   changed (updateStatus st statuses h)) <> [1; 2]%nat.
Proof. vm_compute. discriminate. Qed.

(** C2, amended: the status slots of a fresh tracker hold the sentinel -1
    (as the track ids do), which differs from every status code, so
    [updateStatus] with [3,3,0,0,0,0,0,0] returns all eight layers,
    [1,2,3,4,5,6,7,8]. *)
Theorem fresh_updateStatus_reports_all_layers :
  (let '(st, statuses, h) := fresh_tracker_with status_3_3 in
   changed (updateStatus st statuses h)) = [1; 2; 3; 4; 5; 6; 7; 8]%nat.
Proof. vm_compute. reflexivity. Qed.

(** C3: for every tracker state and every 8-element input array,
    [updateTrackIDs] (and likewise [updateStatus]) returns exactly the
    ascending list of the 1-based indices [i+1], [i] in 0..7, at which the
    stored slot differed from the input slot, and afterwards every stored
    slot 0..7 equals the input slot. Starting from all track ids -1,
    [updateTrackIDs([5,5,-1,-1,-1,-1,-1,-1])] returns [1,2] and
    [trackID(Layer1)] is then 5. *)
Theorem update_reports_the_differing_layers
    (st : PioneerDJState) (newValues : ref) (h : Heap) :
  length (deref h newValues) = 8%nat ->
  (changed (updateTrackIDs st newValues h)
   = map (fun i => (i + 1)%nat)
       (List.filter (differs (deref h (_trackID st)) (deref h newValues))
          (seq 0 8))
   /\ forall i, (i < 8)%nat ->
        array_get (deref (heap (updateTrackIDs st newValues h)) (_trackID st)) i
        = array_get (deref h newValues) i)
  /\ (changed (updateStatus st newValues h)
      = map (fun i => (i + 1)%nat)
          (List.filter (differs (deref h (_status st)) (deref h newValues))
             (seq 0 8))
      /\ forall i, (i < 8)%nat ->
           array_get (deref (heap (updateStatus st newValues h)) (_status st)) i
           = array_get (deref h newValues) i)
  /\ (let '(st0, trackIDs, h0) := fresh_tracker_with tracks_5_5 in
      changed (updateTrackIDs st0 trackIDs h0) = [1; 2]%nat
      /\ trackID st0 Layer1 (heap (updateTrackIDs st0 trackIDs h0)) = number 5).
Proof.
  intros Hlen. unfold updateTrackIDs, updateStatus.
  split; [|split]; [split | split |].
  - rewrite update_changed, Hlen. reflexivity.
  - intros i Hi. apply update_stored. lia.
  - rewrite update_changed, Hlen. reflexivity.
  - intros i Hi. apply update_stored. lia.
  - vm_compute. split; reflexivity.
Qed.

Lemma update_reports_the_differing_layers_witness :
  let s := fresh_tracker_with tracks_5_5 in
  length (deref (heap_of s) (array_of s)) = 8%nat
  /\ changed (updateTrackIDs (tracker_of s) (array_of s) (heap_of s))
     = map (fun i => (i + 1)%nat)
         (List.filter
            (differs (deref (heap_of s) (_trackID (tracker_of s)))
               (deref (heap_of s) (array_of s)))
            (seq 0 8)).
Proof.
  split; [vm_compute; reflexivity|].
  refine (proj1 (proj1
    (update_reports_the_differing_layers
       (tracker_of (fresh_tracker_with tracks_5_5))
       (array_of (fresh_tracker_with tracks_5_5))
       (heap_of (fresh_tracker_with tracks_5_5)) _))).
  vm_compute. reflexivity.
Defined.

(** C7 on the code: for an input that is not 8 elements long, here the
    1-element array [5] given to a fresh tracker, [updateTrackIDs] prints the
    assertion line and carries on: slot 0 is overwritten and [1] is
    returned. *)
Theorem update_with_wrong_width_proceeds :
  let '(st, trackIDs, h) := fresh_tracker_with (numbers [5]) in
  let r := updateTrackIDs st trackIDs h in
  printed r
  = ["Assertion failed: there must be data for exactly 8 layers"%string]
  /\ deref (heap r) (_trackID st) = number 5 :: replicate 7 (number (-1))
  /\ changed r = [1%nat].
Proof. vm_compute. repeat split. Qed.

(** C8: [updateTrackIDs] and [updateStatus] are idempotent: for every
    tracker state and every array (of 8 elements or of any other length),
    the same operation called twice in a row with the same array returns
    the empty list the second time. *)
Theorem update_is_idempotent
    (st : PioneerDJState) (newValues : ref) (h : Heap) :
  changed (updateTrackIDs st newValues (heap (updateTrackIDs st newValues h)))
  = []
  /\ changed (updateStatus st newValues (heap (updateStatus st newValues h)))
     = [].
Proof.
  unfold updateTrackIDs, updateStatus.
  split; apply update_twice, update_source_unchanged.
Qed.

(** C10: [updateTrackIDs] mutates only the track-id store and
    [updateStatus] only the status store: for every tracker state (its two
    arrays being two arrays, as [new PioneerDJState()] makes them) and every
    input array (of 8 elements or of any other length), after
    [updateTrackIDs] the status array, and so the status of every layer
    1..8, is unchanged, and after [updateStatus] the track-id array, and so
    the track id of every layer 1..8, is unchanged. *)
Theorem update_leaves_the_other_store
    (st : PioneerDJState) (newValues : ref) (h : Heap) :
  _trackID st <> _status st ->
  (deref (heap (updateTrackIDs st newValues h)) (_status st)
   = deref h (_status st)
   /\ forall idx : LayerIndex,
        status st idx (heap (updateTrackIDs st newValues h)) = status st idx h)
  /\ (deref (heap (updateStatus st newValues h)) (_trackID st)
      = deref h (_trackID st)
      /\ forall idx : LayerIndex,
           trackID st idx (heap (updateStatus st newValues h))
           = trackID st idx h).
Proof.
  intros Hne. unfold updateTrackIDs, updateStatus, status, trackID.
  rewrite !update_frame by congruence. repeat split.
Qed.

Lemma update_leaves_the_other_store_witness :
  let s := fresh_tracker_with tracks_5_5 in
  _trackID (tracker_of s) <> _status (tracker_of s)
  /\ deref (heap (updateTrackIDs (tracker_of s) (array_of s) (heap_of s)))
       (_status (tracker_of s))
     = deref (heap_of s) (_status (tracker_of s)).
Proof.
  split; [vm_compute; discriminate|].
  refine (proj1 (proj1
    (update_leaves_the_other_store
       (tracker_of (fresh_tracker_with tracks_5_5))
       (array_of (fresh_tracker_with tracks_5_5))
       (heap_of (fresh_tracker_with tracks_5_5)) _))).
  vm_compute. discriminate.
Defined.

End TrackerFacts.

(** * Properties of the codec *)

Section CodecFacts.

Import Network.

(** ** How the accessors behave with respect to the buffer length *)

Lemma in_bounds_true (b : Buffer) (offset width : Z) :
  0 <= offset -> offset + width <= Z.of_nat (List.length b) ->
  in_bounds b offset width = true.
Proof.
  intros H0 H1. unfold in_bounds.
  apply andb_true_iff. split; apply Z.leb_le; assumption.
Qed.

Lemma in_bounds_false (b : Buffer) (offset width : Z) :
  Z.of_nat (List.length b) < offset + width ->
  in_bounds b offset width = false.
Proof.
  intros H. unfold in_bounds.
  apply andb_false_iff. right. apply Z.leb_gt. assumption.
Qed.

Lemma inspects_ret {A : Type} (a : A) : inspects (ret a).
Proof. intros w. exists (Ok a). split; [reflexivity | right; now exists a]. Qed.

Lemma inspects_bind {A B : Type} (m : M A) (k : A -> M B) :
  inspects m -> (forall a, inspects (k a)) -> inspects (bind m k).
Proof.
  intros Hm Hk w. unfold bind.
  destruct (Hm w) as (r & -> & [-> | [a ->]]).
  - exists (Throw RangeError). split; [reflexivity | now left].
  - apply Hk.
Qed.

Lemma inspects_readUInt8 (offset : Z) : inspects (readUInt8 offset).
Proof.
  intros w. unfold readUInt8. destruct (in_bounds _ _ _); eexists; split;
    try reflexivity; [right; eexists; reflexivity | now left].
Qed.

Lemma inspects_readUInt16LE (offset : Z) : inspects (readUInt16LE offset).
Proof.
  intros w. unfold readUInt16LE. destruct (in_bounds _ _ _); eexists; split;
    try reflexivity; [right; eexists; reflexivity | now left].
Qed.

Lemma inspects_readUInt32LE (offset : Z) : inspects (readUInt32LE offset).
Proof.
  intros w. unfold readUInt32LE. destruct (in_bounds _ _ _); eexists; split;
    try reflexivity; [right; eexists; reflexivity | now left].
Qed.

Lemma inspects_slice_ascii (start end_ : Z) : inspects (slice_ascii start end_).
Proof.
  intros w. eexists. split; [reflexivity | right; eexists; reflexivity].
Qed.

Lemma inspects_mapM {A B : Type} (f : A -> M B) (l : list A) :
  (forall x, inspects (f x)) -> inspects (mapM f l).
Proof.
  intros Hf. induction l as [|x l IH]; simpl.
  - apply inspects_ret.
  - apply inspects_bind; [apply Hf|]. intros y.
    apply inspects_bind; [apply IH|]. intros ys. apply inspects_ret.
Qed.

Lemma fails_below_now {A B : Type} (n : Z) (m : M A) (k : A -> M B) :
  fails_below n m -> fails_below n (bind m k).
Proof. intros Hm w Hw. unfold bind. now rewrite (Hm w Hw). Qed.

Lemma fails_below_later {A B : Type} (n : Z) (m : M A) (k : A -> M B) :
  inspects m -> (forall a, fails_below n (k a)) -> fails_below n (bind m k).
Proof.
  intros Hm Hk w Hw. unfold bind.
  destruct (Hm w) as (r & -> & [-> | [a ->]]); [reflexivity|].
  now apply Hk.
Qed.

Lemma fails_below_readUInt8 (n offset : Z) :
  n <= offset + 1 -> fails_below n (readUInt8 offset).
Proof.
  intros H w Hw. unfold readUInt8, len in *.
  now rewrite in_bounds_false by lia.
Qed.

Lemma fails_below_readUInt16LE (n offset : Z) :
  n <= offset + 2 -> fails_below n (readUInt16LE offset).
Proof.
  intros H w Hw. unfold readUInt16LE, len in *.
  now rewrite in_bounds_false by lia.
Qed.

Lemma fails_below_readUInt32LE (n offset : Z) :
  n <= offset + 4 -> fails_below n (readUInt32LE offset).
Proof.
  intros H w Hw. unfold readUInt32LE, len in *.
  now rewrite in_bounds_false by lia.
Qed.

Lemma succeeds_from_ret {A : Type} (n : Z) (a : A) : succeeds_from n (ret a).
Proof. intros w _. now exists w, a. Qed.

Lemma succeeds_from_bind {A B : Type} (n : Z) (m : M A) (k : A -> M B) :
  succeeds_from n m -> (forall a, succeeds_from n (k a)) ->
  succeeds_from n (bind m k).
Proof.
  intros Hm Hk w Hw. unfold bind.
  destruct (Hm w Hw) as (w1 & a & -> & Hb).
  destruct (Hk a w1) as (w2 & b & -> & Hb2).
  - unfold len in *. now rewrite Hb.
  - exists w2, b. split; [reflexivity | congruence].
Qed.

Lemma succeeds_from_readUInt8 (n offset : Z) :
  0 <= offset -> offset + 1 <= n -> succeeds_from n (readUInt8 offset).
Proof.
  intros H0 H w Hw. unfold readUInt8, len in *.
  rewrite in_bounds_true by lia. now eexists _, _.
Qed.

Lemma succeeds_from_readUInt16LE (n offset : Z) :
  0 <= offset -> offset + 2 <= n -> succeeds_from n (readUInt16LE offset).
Proof.
  intros H0 H w Hw. unfold readUInt16LE, len in *.
  rewrite in_bounds_true by lia. now eexists _, _.
Qed.

Lemma succeeds_from_readUInt32LE (n offset : Z) :
  0 <= offset -> offset + 4 <= n -> succeeds_from n (readUInt32LE offset).
Proof.
  intros H0 H w Hw. unfold readUInt32LE, len in *.
  rewrite in_bounds_true by lia. now eexists _, _.
Qed.

Lemma succeeds_from_slice_ascii (n start end_ : Z) :
  succeeds_from n (slice_ascii start end_).
Proof. intros w _. now eexists _, _. Qed.

Lemma succeeds_from_assert (n : Z) (value : bool) :
  succeeds_from n (assert value).
Proof. intros w _. now eexists _, _. Qed.

Lemma succeeds_from_console_log (n : Z) (line : string) :
  succeeds_from n (console_log line).
Proof. intros w _. now eexists _, _. Qed.

(** Stepping through a decoder: [inspecting] shows that it only inspects the
    world, [failing] finds the read that a short buffer cannot serve,
    [succeeding] serves every read of a long enough buffer. *)
Ltac inspecting :=
  repeat first
    [ apply inspects_ret | apply inspects_readUInt8
    | apply inspects_readUInt16LE | apply inspects_readUInt32LE
    | apply inspects_slice_ascii
    | apply inspects_mapM; intro
    | apply inspects_bind; [|intro] ].

Ltac failing_read :=
  first [ apply fails_below_readUInt8 | apply fails_below_readUInt16LE
        | apply fails_below_readUInt32LE ]; lia.

Ltac failing :=
  solve
    [ failing_read
    | apply fails_below_now; failing
    | apply fails_below_later; [solve [inspecting] | intro; failing] ].

Ltac succeeding :=
  repeat first
    [ apply succeeds_from_ret
    | apply succeeds_from_readUInt8; lia
    | apply succeeds_from_readUInt16LE; lia
    | apply succeeds_from_readUInt32LE; lia
    | apply succeeds_from_slice_ascii
    | apply succeeds_from_assert
    | apply succeeds_from_console_log
    | apply succeeds_from_bind; [|intro] ].

(** ** Every decoder against the buffer length *)

Lemma header_read_succeeds : succeeds_from 24 TCNetManagementHeader.read.
Proof. unfold TCNetManagementHeader.read. succeeding. Qed.

Lemma optin_read_fails_below : fails_below 67 TCNetOptInPacket.read.
Proof. unfold TCNetOptInPacket.read. failing. Qed.

Lemma optin_read_succeeds : succeeds_from 67 TCNetOptInPacket.read.
Proof. unfold TCNetOptInPacket.read. succeeding. Qed.

Lemma optout_read_fails_below : fails_below 28 TCNetOptOutPacket.read.
Proof. unfold TCNetOptOutPacket.read. failing. Qed.

Lemma optout_read_succeeds : succeeds_from 28 TCNetOptOutPacket.read.
Proof. unfold TCNetOptOutPacket.read. succeeding. Qed.

Lemma status_read_fails_below : fails_below 85 TCNetStatusPacket.read.
Proof. unfold TCNetStatusPacket.read. cbn [mapM layers]. failing. Qed.

Lemma status_read_succeeds : succeeds_from 85 TCNetStatusPacket.read.
Proof. unfold TCNetStatusPacket.read. cbn [mapM layers]. succeeding. Qed.

Lemma request_read_fails_below : fails_below 26 TCNetRequestPacket.read.
Proof. unfold TCNetRequestPacket.read. failing. Qed.

Lemma request_read_succeeds : succeeds_from 26 TCNetRequestPacket.read.
Proof. unfold TCNetRequestPacket.read. succeeding. Qed.

Lemma application_read_fails_below : fails_below 26 TCNetApplicationData.read.
Proof. unfold TCNetApplicationData.read. failing. Qed.

Lemma application_read_succeeds : succeeds_from 26 TCNetApplicationData.read.
Proof. unfold TCNetApplicationData.read. succeeding. Qed.

Lemma time_read_fails_below : fails_below 154 TCNetTimePacket.read.
Proof.
  unfold TCNetTimePacket.read, TCNetTimePacket.read_layer, TCNetTimecode.read.
  cbn [mapM layers]. failing.
Qed.

Lemma time_read_succeeds : succeeds_from 154 TCNetTimePacket.read.
Proof.
  unfold TCNetTimePacket.read, TCNetTimePacket.read_layer, TCNetTimecode.read.
  cbn [mapM layers]. succeeding.
Qed.

Lemma data_read_succeeds : succeeds_from 26 TCNetDataPacket.read.
Proof. unfold TCNetDataPacket.read. succeeding. Qed.

Lemma metrics_read_fails_below : fails_below 122 TCNetDataPacketMetrics.read.
Proof. unfold TCNetDataPacketMetrics.read. failing. Qed.

Lemma metrics_read_succeeds : succeeds_from 122 TCNetDataPacketMetrics.read.
Proof. unfold TCNetDataPacketMetrics.read. succeeding. Qed.

Lemma metadata_read_fails_below : fails_below 547 TCNetDataPacketMetadata.read.
Proof. unfold TCNetDataPacketMetadata.read. failing. Qed.

Lemma metadata_read_succeeds : succeeds_from 547 TCNetDataPacketMetadata.read.
Proof. unfold TCNetDataPacketMetadata.read. succeeding. Qed.

Lemma beatgrid_read_fails_below :
  fails_below 48 TCNetDataPacketBeatGridData.read.
Proof. unfold TCNetDataPacketBeatGridData.read. failing. Qed.

Lemma beatgrid_read_succeeds :
  succeeds_from 48 TCNetDataPacketBeatGridData.read.
Proof. unfold TCNetDataPacketBeatGridData.read. succeeding. Qed.

Lemma mixer_read_fails_below : fails_below 259 TCNetDataPacketMixerData.read.
Proof. unfold TCNetDataPacketMixerData.read. failing. Qed.

Lemma mixer_read_succeeds : succeeds_from 259 TCNetDataPacketMixerData.read.
Proof. unfold TCNetDataPacketMixerData.read. succeeding. Qed.

Lemma packet_read_fails_below (c : PacketClass) :
  packet_length c <> -1 -> fails_below (extent c) (packet_read c).
Proof.
  intros Hdef.
  destruct c; unfold packet_read, fmapM, extent; apply fails_below_now;
    first
      [ apply optin_read_fails_below | apply optout_read_fails_below
      | apply status_read_fails_below | apply request_read_fails_below
      | apply application_read_fails_below | apply time_read_fails_below
      | apply metrics_read_fails_below | apply metadata_read_fails_below
      | apply beatgrid_read_fails_below | apply mixer_read_fails_below
      | now contradict Hdef ].
Qed.

Lemma packet_read_succeeds (c : PacketClass) (w : World) :
  extent c <= len w ->
  exists w' p,
    packet_read c w = (w', Ok p) /\ buffer w' = buffer w /\ class_of p = c.
Proof.
  intros Hw.
  destruct c; unfold packet_read, fmapM, bind, ret; cbn [extent] in Hw;
      [ destruct (optin_read_succeeds w Hw) as (w' & a & -> & Hb)
      | destruct (optout_read_succeeds w Hw) as (w' & a & -> & Hb)
      | destruct (status_read_succeeds w Hw) as (w' & a & -> & Hb)
      | destruct (request_read_succeeds w Hw) as (w' & a & -> & Hb)
      | destruct (application_read_succeeds w Hw) as (w' & a & -> & Hb)
      | destruct (time_read_succeeds w Hw) as (w' & a & -> & Hb)
      | destruct (data_read_succeeds w Hw) as (w' & a & -> & Hb)
      | destruct (metrics_read_succeeds w Hw) as (w' & a & -> & Hb)
      | destruct (metadata_read_succeeds w Hw) as (w' & a & -> & Hb)
      | destruct (beatgrid_read_succeeds w Hw) as (w' & a & -> & Hb)
      | destruct (mixer_read_succeeds w Hw) as (w' & a & -> & Hb) ];
      eexists _, _; repeat split; assumption.
Qed.

Lemma readUInt8_ok (offset : Z) (w : World) :
  0 <= offset -> offset + 1 <= len w ->
  readUInt8 offset w = (w, Ok (byte_at (buffer w) offset)).
Proof. intros H0 H. unfold readUInt8, len in *. now rewrite in_bounds_true. Qed.

Lemma readUInt16LE_ok (offset : Z) (w : World) :
  0 <= offset -> offset + 2 <= len w ->
  readUInt16LE offset w = (w, Ok (u16le (buffer w) offset)).
Proof.
  intros H0 H. unfold readUInt16LE, len in *. now rewrite in_bounds_true.
Qed.

Lemma readUInt32LE_ok (offset : Z) (w : World) :
  0 <= offset -> offset + 4 <= len w ->
  readUInt32LE offset w = (w, Ok (u32le (buffer w) offset)).
Proof.
  intros H0 H. unfold readUInt32LE, len in *. now rewrite in_bounds_true.
Qed.

(** What an accessor returns is made of bytes found in the buffer: a
    successful read never falls back on a byte that is not there. *)
Lemma accessors_read_inside_the_buffer (offset : Z) (w w' : World) (v : Z) :
  (readUInt8 offset w = (w', Ok v) ->
   buffer w !! Z.to_nat offset = Some v)
  /\ (readUInt16LE offset w = (w', Ok v) ->
      exists b0 b1,
        buffer w !! Z.to_nat offset = Some b0
        /\ buffer w !! Z.to_nat (offset + 1) = Some b1
        /\ v = b0 + b1 * 2 ^ 8)
  /\ (readUInt32LE offset w = (w', Ok v) ->
      exists b0 b1 b2 b3,
        buffer w !! Z.to_nat offset = Some b0
        /\ buffer w !! Z.to_nat (offset + 1) = Some b1
        /\ buffer w !! Z.to_nat (offset + 2) = Some b2
        /\ buffer w !! Z.to_nat (offset + 3) = Some b3
        /\ v = b0 + b1 * 2 ^ 8 + b2 * 2 ^ 16 + b3 * 2 ^ 24).
Proof.
  assert (Hin : forall width i, in_bounds (buffer w) offset width = true ->
                  0 <= i < width ->
                  exists x, buffer w !! Z.to_nat (offset + i) = Some x
                            /\ byte_at (buffer w) (offset + i) = x).
  { intros width i Hb Hi. unfold in_bounds in Hb.
    apply andb_true_iff in Hb. destruct Hb as [H0 H1].
    apply Z.leb_le in H0, H1.
    destruct (lookup_lt_is_Some_2 (buffer w) (Z.to_nat (offset + i))
                ltac:(lia)) as [x Hx].
    exists x. split; [exact Hx|]. unfold byte_at. now rewrite Hx. }
  repeat split.
  - unfold readUInt8. destruct (in_bounds _ _ 1) eqn:Hb; [|discriminate].
    intros [= _ <-].
    destruct (Hin 1 0 Hb ltac:(lia)) as (x & Hx & Hv).
    rewrite Z.add_0_r in Hx, Hv. now rewrite Hv.
  - unfold readUInt16LE. destruct (in_bounds _ _ 2) eqn:Hb; [|discriminate].
    intros [= _ <-]. unfold u16le.
    destruct (Hin 2 0 Hb ltac:(lia)) as (x0 & Hx0 & Hv0).
    destruct (Hin 2 1 Hb ltac:(lia)) as (x1 & Hx1 & Hv1).
    rewrite Z.add_0_r in Hx0, Hv0. exists x0, x1. now rewrite Hv0, Hv1.
  - unfold readUInt32LE. destruct (in_bounds _ _ 4) eqn:Hb; [|discriminate].
    intros [= _ <-]. unfold u32le.
    destruct (Hin 4 0 Hb ltac:(lia)) as (x0 & Hx0 & Hv0).
    destruct (Hin 4 1 Hb ltac:(lia)) as (x1 & Hx1 & Hv1).
    destruct (Hin 4 2 Hb ltac:(lia)) as (x2 & Hx2 & Hv2).
    destruct (Hin 4 3 Hb ltac:(lia)) as (x3 & Hx3 & Hv3).
    rewrite Z.add_0_r in Hx0, Hv0. exists x0, x1, x2, x3.
    now rewrite Hv0, Hv1, Hv2, Hv3.
Qed.

(** On a buffer of 24 bytes or more [read] of the header always returns a
    header, whatever the bytes are; a wrong major version and a wrong magic
    show only as lines on the console. *)
Lemma header_read_warns_only (w : World) :
  24 <= len w ->
  exists h : TCNetManagementHeader.t,
    TCNetManagementHeader.read w
    = ({| buffer := buffer w;
          console :=
            (console w
             ++ console_assert
                  (byte_at (buffer w) 2 =? TCNetManagementHeader.MAJOR_VERSION)
                  None)
            ++ console_assert
                 (String.eqb (toString_ascii (slice (buffer w) 4 7))
                    TCNetManagementHeader.MAGIC_HEADER) None |},
       Ok h).
Proof.
  intros Hlen. eexists. unfold TCNetManagementHeader.read, bind.
  repeat (first
            [ rewrite readUInt8_ok by (unfold len in *; cbn [buffer]; lia)
            | rewrite readUInt16LE_ok by (unfold len in *; cbn [buffer]; lia)
            | rewrite readUInt32LE_ok by (unfold len in *; cbn [buffer]; lia)
            | unfold assert at 1
            | unfold slice_ascii at 1 ];
          cbv beta iota; cbn [buffer console]).
  reflexivity.
Qed.

(** ** What the specification states about the codec *)

(** C1 on the code: a header whose magic is "XYZ", and a header whose major
    version is 2, are both decoded. Each failed [assert] prints one line on
    the console; [read] then goes on and fills in every field. *)
Theorem header_read_only_warns :
  TCNetManagementHeader.read (on_buffer header_with_bad_magic)
  = ({| buffer := header_with_bad_magic;
        console := ["Assertion failed"%string] |},
     Ok {| TCNetManagementHeader.nodeId := 1;
           TCNetManagementHeader.minorVersion := 5;
           TCNetManagementHeader.messageType := 5;
           TCNetManagementHeader.nodeName := "NODE";
           TCNetManagementHeader.seq := 7;
           TCNetManagementHeader.nodeType := 2;
           TCNetManagementHeader.nodeOptions := 7;
           TCNetManagementHeader.timestamp := 1000 |})
  /\ TCNetManagementHeader.read (on_buffer header_with_version_2)
     = ({| buffer := header_with_version_2;
           console := ["Assertion failed"%string] |},
        Ok {| TCNetManagementHeader.nodeId := 1;
              TCNetManagementHeader.minorVersion := 5;
              TCNetManagementHeader.messageType := 5;
              TCNetManagementHeader.nodeName := "NODE";
              TCNetManagementHeader.seq := 7;
              TCNetManagementHeader.nodeType := 2;
              TCNetManagementHeader.nodeOptions := 7;
              TCNetManagementHeader.timestamp := 1000 |}).
Proof. split; reflexivity. Qed.

(** C4 on the code: writing the OptIn packet of version 1.2.3 into a zeroed
    68-byte buffer and reading it back yields version 0.0.0. The three
    [writeUInt8] calls of [write] take the constant 64, 65, 66 as the value
    and the version number as the offset, so bytes 1, 2 and 3 of the buffer
    (inside the management header) become 64, 65, 66 and bytes 64..66 stay
    as they were. *)
Theorem optin_roundtrip_loses_the_version :
  exists (w : World) (p : TCNetOptInPacket.t),
    TCNetOptInPacket.write optin_1_2_3 (on_buffer (alloc 68)) = (w, Ok tt)
    /\ TCNetOptInPacket.read w = (w, Ok p)
    /\ (TCNetOptInPacket.majorVersion p, TCNetOptInPacket.minorVersion p,
        TCNetOptInPacket.bugVersion p) = (0, 0, 0)
    /\ (TCNetOptInPacket.majorVersion optin_1_2_3,
        TCNetOptInPacket.minorVersion optin_1_2_3,
        TCNetOptInPacket.bugVersion optin_1_2_3) = (1, 2, 3)
    /\ take 4 (buffer w) = [0; 64; 65; 66]
    /\ slice (buffer w) 64 67 = [0; 0; 0].
Proof.
  eexists _, _.
  split; [vm_compute; reflexivity|].
  split; [vm_compute; reflexivity|].
  vm_compute. repeat split.
Qed.

(** C5, as stated, fails: an 85-byte buffer is shorter than the 300 bytes
    of [length()] of a Status packet, and the Status decoder returns a packet
    for it. *)
Lemma status_read_of_85_bytes_succeeds :
  len (on_buffer (alloc 85)) < packet_length StatusPacket
  /\ exists p, packet_read StatusPacket (on_buffer (alloc 85))
               = (on_buffer (alloc 85), Ok p).
Proof. split; [reflexivity|]. eexists. reflexivity. Qed.

(** C5, amended: no [read] compares the buffer with [length()]; what stops a
    decode is the bounds check of the buffer accessors. For every class
    with a defined [length()], decoding a buffer shorter than the end of the
    furthest integer field of the class ([extent]: OptIn 67, OptOut 28,
    Status 85, Request 26, ApplicationData 26, Time 154, Metrics 122,
    Metadata 547, BeatGrid 48, Mixer 259; never more than [length()]) throws
    a [RangeError] and has no other effect, and from that size on the decode
    returns a packet. A 10-byte buffer given to the Status decoder throws
    the [RangeError]. A byte that an accessor returns is a byte of the
    buffer. *)
Theorem short_buffer_read_throws_RangeError (c : PacketClass) (w : World) :
  packet_length c <> -1 ->
  len w < extent c ->
  packet_read c w = (w, Throw RangeError)
  /\ extent c <= packet_length c
  /\ (forall w', extent c <= len w' ->
        exists w'' p, packet_read c w' = (w'', Ok p) /\ buffer w'' = buffer w')
  /\ (forall w10, len w10 = 10 ->
        packet_read StatusPacket w10 = (w10, Throw RangeError))
  /\ (forall offset w0 w1 v,
        readUInt8 offset w0 = (w1, Ok v) ->
        buffer w0 !! Z.to_nat offset = Some v).
Proof.
  intros Hdef Hshort. split; [|split; [|split; [|split]]].
  - now apply packet_read_fails_below.
  - destruct c; try (now contradict Hdef); vm_compute; discriminate.
  - intros w' Hw'.
    destruct (packet_read_succeeds c w' Hw') as (w'' & p & H & Hb & _).
    now exists w'', p.
  - intros w10 H10. apply (packet_read_fails_below StatusPacket).
    + discriminate.
    + cbn. lia.
  - intros offset w0 w1 v.
    apply (accessors_read_inside_the_buffer offset w0 w1 v).
Qed.

Lemma short_buffer_read_throws_RangeError_witness :
  packet_length StatusPacket <> -1
  /\ len (on_buffer (alloc 10)) < extent StatusPacket
  /\ packet_read StatusPacket (on_buffer (alloc 10))
     = (on_buffer (alloc 10), Throw RangeError).
Proof.
  split; [discriminate|]. split; [reflexivity|].
  refine (proj1 (short_buffer_read_throws_RangeError StatusPacket
                   (on_buffer (alloc 10)) _ _)).
  - discriminate.
  - reflexivity.
Defined.

(** Running a decoder on a buffer that is long enough for its next read. *)
Ltac run_read :=
  repeat (first [ rewrite readUInt8_ok by lia
                | rewrite readUInt16LE_ok by lia
                | rewrite readUInt32LE_ok by lia ];
          cbv beta iota).

(** C6: for every Metrics buffer (122 bytes or more, as [read] needs), with
    [b0 b1 b2 b3] the bytes at offsets 112..115, the decoded [bpm] is the
    little-endian integer [b0 + b1*2^8 + b2*2^16 + b3*2^24] divided by 100;
    when that integer is 12000 the decoded [bpm] is exactly 120. *)
Theorem metrics_bpm_is_hundredths (w : World) (b0 b1 b2 b3 : Z) :
  122 <= len w ->
  buffer w !! 112%nat = Some b0 ->
  buffer w !! 113%nat = Some b1 ->
  buffer w !! 114%nat = Some b2 ->
  buffer w !! 115%nat = Some b3 ->
  exists p : TCNetDataPacketMetrics.t,
    TCNetDataPacketMetrics.read w = (w, Ok p)
    /\ TCNetDataPacketMetrics.bpm p
       = (number_of_Z (b0 + b1 * 2 ^ 8 + b2 * 2 ^ 16 + b3 * 2 ^ 24)
          / number_of_Z 100)%float
    /\ (b0 + b1 * 2 ^ 8 + b2 * 2 ^ 16 + b3 * 2 ^ 24 = 12000 ->
        TCNetDataPacketMetrics.bpm p = 120%float).
Proof.
  intros Hlen H0 H1 H2 H3.
  assert (Hraw : u32le (buffer w) 112
                 = b0 + b1 * 2 ^ 8 + b2 * 2 ^ 16 + b3 * 2 ^ 24).
  { unfold u32le, byte_at.
    change (Z.to_nat 112) with 112%nat.
    change (Z.to_nat (112 + 1)) with 113%nat.
    change (Z.to_nat (112 + 2)) with 114%nat.
    change (Z.to_nat (112 + 3)) with 115%nat.
    now rewrite H0, H1, H2, H3. }
  eexists. unfold TCNetDataPacketMetrics.read, bind.
  run_read. unfold ret. split; [reflexivity|].
  cbn [TCNetDataPacketMetrics.bpm]. rewrite Hraw.
  split; [reflexivity|]. intros ->. reflexivity.
Qed.

Lemma metrics_bpm_is_hundredths_witness :
  122 <= len (on_buffer metrics_with_12000)
  /\ exists p : TCNetDataPacketMetrics.t,
       TCNetDataPacketMetrics.read (on_buffer metrics_with_12000)
       = (on_buffer metrics_with_12000, Ok p)
       /\ TCNetDataPacketMetrics.bpm p = 120%float.
Proof.
  split; [discriminate|].
  destruct (metrics_bpm_is_hundredths (on_buffer metrics_with_12000)
              224 46 0 0) as (p & Hp & _ & H120);
    [discriminate | reflexivity | reflexivity | reflexivity | reflexivity |].
  exists p. split; [exact Hp | apply H120; reflexivity].
Defined.

(** C9: for every Status packet, Time packet and Data sub-type packet
    (Metrics, Metadata, BeatGrid, Mixer), [write] throws
    [Error("not supported!")] and leaves the buffer, and the console, as
    they were. *)
Theorem write_of_decode_only_packet_throws (p : Packet) (w : World) :
  In (class_of p) decode_only ->
  packet_write p w = (w, Throw (Error "not supported!")).
Proof.
  intros H. destruct p; try reflexivity; exfalso;
    unfold decode_only in H; cbn in H;
    repeat (destruct H as [H|H]; [discriminate H|]); exact H.
Qed.

Lemma write_of_decode_only_packet_throws_witness :
  In (class_of (Status a_status_packet)) decode_only
  /\ packet_write (Status a_status_packet) (on_buffer (alloc 300))
     = (on_buffer (alloc 300), Throw (Error "not supported!")).
Proof.
  split; [now left|].
  apply (write_of_decode_only_packet_throws (Status a_status_packet)).
  now left.
Defined.

(** ** The round trips that hold *)

(** Two different constant offsets are different indices. *)
Ltac other_offset := let H := fresh in intros H; apply Z2Nat.inj in H; lia.

Lemma length_store (b : Buffer) (i : nat) (x : Z) :
  List.length (store b i x) = List.length b.
Proof. apply length_insert. Qed.

Lemma byte_at_store_same (b : Buffer) (i : Z) (x : Z) :
  0 <= i < Z.of_nat (List.length b) ->
  byte_at (store b (Z.to_nat i) x) i = x mod 256.
Proof.
  intros Hi. unfold byte_at, store.
  now rewrite list_lookup_insert_eq by lia.
Qed.

Lemma byte_at_store_other (b : Buffer) (i : nat) (j : Z) (x : Z) :
  Z.to_nat j <> i -> byte_at (store b i x) j = byte_at b j.
Proof.
  intros Hne. unfold byte_at, store.
  now rewrite list_lookup_insert_ne by congruence.
Qed.

Lemma u16_of_bytes (v : Z) :
  0 <= v <= 65535 -> v mod 256 + Z.shiftr v 8 mod 256 * 2 ^ 8 = v.
Proof.
  intros Hv. rewrite Z.shiftr_div_pow2 by lia.
  change (2 ^ 8) with 256.
  rewrite (Z.mod_small (v / 256))
    by (split; [apply Z.div_pos | apply Z.div_lt_upper_bound]; lia).
  pose proof (Z.div_mod v 256 ltac:(lia)). lia.
Qed.

Lemma writeUInt8_ok (value offset : Z) (w : World) :
  0 <= value <= 255 -> 0 <= offset -> offset + 1 <= len w ->
  writeUInt8 value offset w
  = (set_buffer w (store (buffer w) (Z.to_nat offset) value), Ok tt).
Proof.
  intros Hv H0 H. unfold writeUInt8, len in *.
  rewrite in_bounds_true by lia.
  destruct (Z.leb_spec 0 value), (Z.leb_spec value 255); try lia. reflexivity.
Qed.

Lemma writeUInt16LE_ok (value offset : Z) (w : World) :
  0 <= value <= 65535 -> 0 <= offset -> offset + 2 <= len w ->
  writeUInt16LE value offset w
  = (set_buffer w
       (store (store (buffer w) (Z.to_nat offset) value)
          (S (Z.to_nat offset)) (Z.shiftr value 8)), Ok tt).
Proof.
  intros Hv H0 H. unfold writeUInt16LE, len in *.
  rewrite in_bounds_true by lia.
  destruct (Z.leb_spec 0 value), (Z.leb_spec value 65535); try lia. reflexivity.
Qed.

Lemma assert_true (w : World) : assert true w = (w, Ok tt).
Proof. unfold assert. cbn. rewrite app_nil_r. now destruct w. Qed.

Lemma byte_range_test (x : Z) :
  0 <= x <= 255 -> (0 <=? x) && (x <=? 255) = true.
Proof.
  intros H. apply andb_true_iff. split; apply Z.leb_le; lia.
Qed.

(** [dataType] and [layer], written at offsets 24 and 25 and read back. *)
Lemma two_bytes_roundtrip (dataType layer : Z) (w : World) :
  0 <= dataType <= 255 -> 0 <= layer <= 255 -> 26 <= len w ->
  exists w',
    (writeUInt8 dataType 24 ;; writeUInt8 layer 25) w = (w', Ok tt)
    /\ readUInt8 24 w' = (w', Ok dataType)
    /\ readUInt8 25 w' = (w', Ok layer)
    /\ len w' = len w.
Proof.
  intros Hd Hl Hw. unfold bind.
  rewrite writeUInt8_ok by lia.
  assert (Hlen1 : len (set_buffer w (store (buffer w) (Z.to_nat 24) dataType))
                  = len w).
  { unfold len, set_buffer. cbn [buffer]. now rewrite length_store. }
  rewrite writeUInt8_ok by lia.
  eexists. split; [reflexivity|].
  assert (Hlen2 : forall w0 i x, len (set_buffer w0 (store (buffer w0) i x))
                                 = len w0).
  { intros w0 i x. unfold len, set_buffer. cbn [buffer].
    now rewrite length_store. }
  repeat split.
  - rewrite readUInt8_ok by (rewrite ?Hlen2; lia).
    do 2 f_equal. cbn [set_buffer buffer].
    rewrite byte_at_store_other by other_offset.
    rewrite byte_at_store_same by (unfold len in Hw; lia).
    apply Z.mod_small. lia.
  - rewrite readUInt8_ok by (rewrite ?Hlen2; lia).
    do 2 f_equal. cbn [set_buffer buffer].
    rewrite byte_at_store_same by (rewrite length_store; unfold len in Hw; lia).
    apply Z.mod_small. lia.
  - now rewrite !Hlen2.
Qed.

(** Request: every packet whose two fields are bytes, written into a buffer
    of at least 26 bytes, is read back as it was. *)
Lemma request_roundtrip (p : TCNetRequestPacket.t) (w : World) :
  0 <= TCNetRequestPacket.dataType p <= 255 ->
  0 <= TCNetRequestPacket.layer p <= 255 ->
  26 <= len w ->
  exists w',
    TCNetRequestPacket.write p w = (w', Ok tt)
    /\ TCNetRequestPacket.read w' = (w', Ok p).
Proof.
  intros Hd Hl Hw.
  destruct (two_bytes_roundtrip _ _ w Hd Hl Hw) as (w' & Hwr & Hr1 & Hr2 & _).
  exists w'. unfold TCNetRequestPacket.write, TCNetRequestPacket.read.
  rewrite !byte_range_test by assumption.
  unfold bind at 1. rewrite assert_true. unfold bind at 1. rewrite assert_true.
  split; [exact Hwr|].
  unfold bind. rewrite Hr1, Hr2. unfold ret. now destruct p.
Qed.

(** ApplicationData: the same two fields at the same offsets. *)
Lemma applicationdata_roundtrip (p : TCNetApplicationData.t) (w : World) :
  0 <= TCNetApplicationData.dataType p <= 255 ->
  0 <= TCNetApplicationData.layer p <= 255 ->
  26 <= len w ->
  exists w',
    TCNetApplicationData.write p w = (w', Ok tt)
    /\ TCNetApplicationData.read w' = (w', Ok p).
Proof.
  intros Hd Hl Hw.
  destruct (two_bytes_roundtrip _ _ w Hd Hl Hw) as (w' & Hwr & Hr1 & Hr2 & _).
  exists w'. unfold TCNetApplicationData.write, TCNetApplicationData.read.
  rewrite !byte_range_test by assumption.
  unfold bind at 1. rewrite assert_true. unfold bind at 1. rewrite assert_true.
  split; [exact Hwr|].
  unfold bind. rewrite Hr1, Hr2. unfold ret. now destruct p.
Qed.

(** OptOut: every packet whose two fields are 16-bit, written into a buffer
    of at least 28 bytes, is read back as it was. *)
Lemma optout_roundtrip (p : TCNetOptOutPacket.t) (w : World) :
  0 <= TCNetOptOutPacket.nodeCount p <= 65535 ->
  0 <= TCNetOptOutPacket.nodeListenerPort p <= 65535 ->
  28 <= len w ->
  exists w',
    TCNetOptOutPacket.write p w = (w', Ok tt)
    /\ TCNetOptOutPacket.read w' = (w', Ok p).
Proof.
  intros Hc Hp Hw. destruct p as [count port]. cbn in Hc, Hp.
  assert (Hlen : forall w0 i x, len (set_buffer w0 (store (buffer w0) i x))
                                = len w0).
  { intros w0 i x. unfold len, set_buffer. cbn [buffer].
    now rewrite length_store. }
  unfold TCNetOptOutPacket.write, TCNetOptOutPacket.read, bind.
  cbn [TCNetOptOutPacket.nodeCount TCNetOptOutPacket.nodeListenerPort].
  rewrite writeUInt16LE_ok by lia.
  rewrite writeUInt16LE_ok
    by (unfold len, set_buffer in *; cbn [buffer]; rewrite ?length_store; lia).
  eexists. split; [reflexivity|].
  unfold len in Hw.
  rewrite readUInt16LE_ok
    by (unfold len, set_buffer; cbn [buffer]; rewrite ?length_store; lia).
  rewrite readUInt16LE_ok
    by (unfold len, set_buffer; cbn [buffer]; rewrite ?length_store; lia).
  unfold ret. do 3 f_equal; unfold u16le; cbn [set_buffer buffer].
  - change (S (Z.to_nat 26)) with (Z.to_nat 27).
    change (S (Z.to_nat 24)) with (Z.to_nat 25).
    change (24 + 1) with 25.
    rewrite !(byte_at_store_other _ (Z.to_nat 27)) by other_offset.
    rewrite !(byte_at_store_other _ (Z.to_nat 26)) by other_offset.
    rewrite byte_at_store_same by (rewrite ?length_store; lia).
    rewrite (byte_at_store_other _ (Z.to_nat 25)) by other_offset.
    rewrite byte_at_store_same by (rewrite ?length_store; lia).
    now apply u16_of_bytes.
  - change (S (Z.to_nat 26)) with (Z.to_nat 27).
    change (26 + 1) with 27.
    rewrite byte_at_store_same by (rewrite ?length_store; lia).
    rewrite (byte_at_store_other _ (Z.to_nat 27)) by other_offset.
    rewrite byte_at_store_same by (rewrite ?length_store; lia).
    now apply u16_of_bytes.
Qed.

(** ** More about the decoders *)

Import Fits.

Lemma byte_at_range (b : Buffer) (i : Z) :
  bytes b -> 0 <= byte_at b i < 256.
Proof.
  intros Hb. unfold byte_at.
  destruct (b !! Z.to_nat i) as [x|] eqn:Hx; [|lia].
  apply (Forall_lookup_1 _ _ _ _ Hb Hx).
Qed.

Lemma u16le_range (b : Buffer) (i : Z) :
  bytes b -> 0 <= u16le b i <= 65535.
Proof.
  intros Hb. unfold u16le.
  pose proof (byte_at_range b i Hb). pose proof (byte_at_range b (i + 1) Hb).
  lia.
Qed.

Lemma u32le_range (b : Buffer) (i : Z) :
  bytes b -> 0 <= u32le b i <= 4294967295.
Proof.
  intros Hb. unfold u32le.
  pose proof (byte_at_range b i Hb). pose proof (byte_at_range b (i + 1) Hb).
  pose proof (byte_at_range b (i + 2) Hb).
  pose proof (byte_at_range b (i + 3) Hb).
  lia.
Qed.

(** Running a decoder with loops: the reads, the slices and the returns. *)
Ltac run_decoder :=
  repeat (first [ rewrite readUInt8_ok by lia
                | rewrite readUInt16LE_ok by lia
                | rewrite readUInt32LE_ok by lia
                | progress unfold ret
                | progress unfold slice_ascii ];
          cbv beta iota).

(** What the Status decoder returns on a buffer that is long enough. *)
Lemma status_read_value (w : World) :
  85 <= len w ->
  TCNetStatusPacket.read w
  = (w,
     Ok {| TCNetStatusPacket.nodeCount := u16le (buffer w) 24;
           TCNetStatusPacket.nodeListenerPort := u16le (buffer w) 26;
           TCNetStatusPacket.layerSource :=
             map (fun n => byte_at (buffer w) (34 + n)) layers;
           TCNetStatusPacket.layerStatus :=
             map (fun n => byte_at (buffer w) (42 + n)) layers;
           TCNetStatusPacket.trackID :=
             map (fun n => u32le (buffer w) (50 + n * 4)) layers;
           TCNetStatusPacket.smpteMode := byte_at (buffer w) 83;
           TCNetStatusPacket.autoMasterMode := byte_at (buffer w) 84;
           TCNetStatusPacket.layerName :=
             map (fun n =>
                    strip_from_NUL
                      (toString_ascii
                         (slice (buffer w) (172 + n * 16)
                            (172 + (n + 1) * 16)))) layers |}).
Proof.
  intros Hlen. unfold TCNetStatusPacket.read. cbn [mapM layers].
  unfold bind. run_decoder. reflexivity.
Qed.

(** A decoder that returned did so on a buffer of at least its extent. *)
Lemma status_read_needs_85 (w w' : World) (p : TCNetStatusPacket.t) :
  TCNetStatusPacket.read w = (w', Ok p) -> 85 <= len w.
Proof.
  intros H. destruct (Z.lt_ge_cases (len w) 85) as [Hlt|Hge]; [|exact Hge].
  rewrite (status_read_fails_below w Hlt) in H. discriminate H.
Qed.

Lemma strip_from_NUL_length (s : string) :
  (String.length (strip_from_NUL s) <= String.length s)%nat.
Proof.
  induction s as [|c s IH]; simpl; [lia|].
  destruct (Ascii.eqb c NUL && no_line_terminator s); simpl; lia.
Qed.

Lemma toString_ascii_length (l : list Z) :
  String.length (toString_ascii l) = List.length l.
Proof.
  unfold toString_ascii. induction l as [|x l IH]; simpl; [reflexivity|].
  now rewrite IH.
Qed.

Lemma slice_length (b : Buffer) (start end_ : Z) :
  (List.length (slice b start end_) <= Z.to_nat (end_ - start))%nat.
Proof. unfold slice. rewrite length_take. lia. Qed.

(** X5: whatever the Status decoder returns, it returns with the buffer and
    the console as they were, and with exactly 8 entries in each of its four
    per-layer arrays; [layerStatus[n]] is the byte at offset 42+n and
    [trackID[n]] the little-endian 32-bit integer at offset 50+4n. On a
    buffer of bytes every status is in 0..255, every track id in 0..2^32-1,
    and every layer name has at most 16 characters. *)
Theorem status_read_fills_eight_layers
    (w w' : World) (p : TCNetStatusPacket.t) :
  bytes (buffer w) ->
  TCNetStatusPacket.read w = (w', Ok p) ->
  w' = w
  /\ (List.length (TCNetStatusPacket.layerSource p) = 8%nat
      /\ List.length (TCNetStatusPacket.layerStatus p) = 8%nat
      /\ List.length (TCNetStatusPacket.trackID p) = 8%nat
      /\ List.length (TCNetStatusPacket.layerName p) = 8%nat)
  /\ (forall n, (n < 8)%nat ->
        TCNetStatusPacket.layerStatus p !! n
        = Some (byte_at (buffer w) (42 + Z.of_nat n))
        /\ TCNetStatusPacket.trackID p !! n
           = Some (u32le (buffer w) (50 + Z.of_nat n * 4)))
  /\ Forall (fun x => 0 <= x <= 255) (TCNetStatusPacket.layerStatus p)
  /\ Forall (fun x => 0 <= x <= 4294967295) (TCNetStatusPacket.trackID p)
  /\ Forall (fun name => (String.length name <= 16)%nat)
       (TCNetStatusPacket.layerName p).
Proof.
  intros Hb H. pose proof (status_read_needs_85 _ _ _ H) as Hlen.
  rewrite (status_read_value w Hlen) in H. injection H as <- <-.
  cbn [TCNetStatusPacket.layerSource TCNetStatusPacket.layerStatus
       TCNetStatusPacket.trackID TCNetStatusPacket.layerName].
  split; [reflexivity|]. split; [repeat split|]. split; [|split; [|split]].
  - intros n Hn. do 8 (destruct n as [|n]; [split; reflexivity|]). lia.
  - unfold layers. cbn [map]. repeat constructor;
      pose proof (byte_at_range (buffer w)) as Hr;
      match goal with
      | |- _ <= byte_at _ ?i => specialize (Hr i Hb); lia
      | |- byte_at _ ?i <= _ => specialize (Hr i Hb); lia
      end.
  - unfold layers. cbn [map]. repeat constructor;
      pose proof (u32le_range (buffer w)) as Hr;
      match goal with
      | |- _ <= u32le _ ?i => specialize (Hr i Hb); lia
      | |- u32le _ ?i <= _ => specialize (Hr i Hb); lia
      end.
  - unfold layers. cbn [map].
    repeat (apply List.Forall_cons;
            [ match goal with
              | |- (String.length
                      (strip_from_NUL (toString_ascii (slice ?b ?s ?e)))
                    <= _)%nat =>
                  pose proof
                    (strip_from_NUL_length (toString_ascii (slice b s e)));
                  pose proof (toString_ascii_length (slice b s e));
                  pose proof (slice_length b s e); lia
              end |]).
    apply List.Forall_nil.
Qed.

Lemma status_read_fills_eight_layers_witness :
  bytes (buffer (on_buffer (alloc 85)))
  /\ exists p,
       TCNetStatusPacket.read (on_buffer (alloc 85))
       = (on_buffer (alloc 85), Ok p)
       /\ List.length (TCNetStatusPacket.trackID p) = 8%nat.
Proof.
  assert (Hb : bytes (buffer (on_buffer (alloc 85)))).
  { apply Forall_forall. intros x Hx. apply elem_of_replicate in Hx. lia. }
  split; [exact Hb|].
  destruct (status_read_succeeds (on_buffer (alloc 85)) ltac:(discriminate))
    as (w' & p & Hp & _).
  exists p.
  destruct (status_read_fills_eight_layers (on_buffer (alloc 85)) w' p Hb Hp)
    as (-> & (_ & _ & Ht & _) & _).
  split; [exact Hp | exact Ht].
Defined.

(** ** Writes, byte by byte *)

Lemma length_store_bytes (bs : list Z) :
  forall (b : Buffer) (i : nat),
    List.length (store_bytes b i bs) = List.length b.
Proof.
  induction bs as [|x bs IH]; intros b i; simpl; [reflexivity|].
  now rewrite IH, length_store.
Qed.

(** Outside the bytes written, a buffer reads as before. *)
Lemma lookup_store_bytes_out (bs : list Z) :
  forall (b : Buffer) (i j : nat),
    (j < i \/ i + List.length bs <= j)%nat ->
    store_bytes b i bs !! j = b !! j.
Proof.
  induction bs as [|x bs IH]; intros b i j Hj; simpl; [reflexivity|].
  rewrite IH by (simpl in Hj; lia).
  unfold store. apply list_lookup_insert_ne. simpl in Hj. lia.
Qed.

(** Inside, a byte that was written reads as its low eight bits. *)
Lemma lookup_store_bytes_in (bs : list Z) :
  forall (b : Buffer) (i k : nat) (x : Z),
    bs !! k = Some x -> (i + k < List.length b)%nat ->
    store_bytes b i bs !! (i + k)%nat = Some (x mod 256).
Proof.
  induction bs as [|y bs IH]; intros b i k x Hk Hlen; [discriminate Hk|].
  simpl. destruct k as [|k].
  - injection Hk as ->. rewrite Nat.add_0_r in *.
    rewrite lookup_store_bytes_out by lia.
    unfold store. now apply list_lookup_insert_eq.
  - replace (i + S k)%nat with (S i + k)%nat by lia.
    apply IH; [exact Hk | rewrite length_store; lia].
Qed.

Lemma byte_at_store_bytes_out (b : Buffer) (offset j : Z) (bs : list Z) :
  0 <= offset -> 0 <= j ->
  j < offset \/ offset + Z.of_nat (List.length bs) <= j ->
  byte_at (store_bytes b (Z.to_nat offset) bs) j = byte_at b j.
Proof.
  intros H0 Hj Hout. unfold byte_at.
  now rewrite lookup_store_bytes_out by lia.
Qed.

Lemma byte_at_store_bytes_in (b : Buffer) (offset j : Z) (bs : list Z) :
  0 <= offset <= j -> j < offset + Z.of_nat (List.length bs) ->
  j < Z.of_nat (List.length b) ->
  byte_at (store_bytes b (Z.to_nat offset) bs) j
  = nth (Z.to_nat (j - offset)) bs 0 mod 256.
Proof.
  intros H0 Hj Hlen. unfold byte_at.
  destruct (lookup_lt_is_Some_2 bs (Z.to_nat (j - offset)) ltac:(lia))
    as [x Hx].
  replace (Z.to_nat j) with (Z.to_nat offset + Z.to_nat (j - offset))%nat
    by lia.
  rewrite (lookup_store_bytes_in bs b _ _ x Hx) by lia.
  apply nth_lookup_Some with (d := 0) in Hx. now rewrite Hx.
Qed.

(** A slice inside the buffer, as its bytes. *)
Lemma slice_bytes (b : Buffer) (start end_ : Z) :
  0 <= start -> end_ <= Z.of_nat (List.length b) ->
  slice b start end_
  = map (fun k => byte_at b (start + Z.of_nat k))
      (seq 0 (Z.to_nat (end_ - start))).
Proof.
  intros H0 Hend. unfold slice. apply list_eq. intros k.
  rewrite list_lookup_fmap.
  destruct (Nat.lt_ge_cases k (Z.to_nat (end_ - start))) as [Hk|Hk].
  - rewrite lookup_take_lt by lia. rewrite lookup_drop.
    rewrite lookup_seq_lt by lia. cbn. unfold byte_at.
    replace (Z.to_nat (start + Z.of_nat k)) with (Z.to_nat start + k)%nat
      by lia.
    destruct (lookup_lt_is_Some_2 b (Z.to_nat start + k) ltac:(lia))
      as [x Hx].
    now rewrite Hx.
  - rewrite lookup_take_ge by lia.
    now rewrite lookup_seq_ge by lia.
Qed.

(** The writes on a buffer that has room for them. *)
Lemma writeUInt8_wrote (value offset : Z) (w : World) :
  0 <= value <= 255 -> 0 <= offset -> offset + 1 <= len w ->
  writeUInt8 value offset w
  = (set_buffer w (store_bytes (buffer w) (Z.to_nat offset) [value]), Ok tt).
Proof. intros. now rewrite writeUInt8_ok. Qed.

Lemma writeUInt16LE_wrote (value offset : Z) (w : World) :
  0 <= value <= 65535 -> 0 <= offset -> offset + 2 <= len w ->
  writeUInt16LE value offset w
  = (set_buffer w
       (store_bytes (buffer w) (Z.to_nat offset) [value; Z.shiftr value 8]),
     Ok tt).
Proof. intros. now rewrite writeUInt16LE_ok. Qed.

Lemma writeUInt32LE_wrote (value offset : Z) (w : World) :
  0 <= value <= 4294967295 -> 0 <= offset -> offset + 4 <= len w ->
  writeUInt32LE value offset w
  = (set_buffer w
       (store_bytes (buffer w) (Z.to_nat offset)
          [value; Z.shiftr value 8; Z.shiftr value 16; Z.shiftr value 24]),
     Ok tt).
Proof.
  intros Hv H0 H. unfold writeUInt32LE, len in *.
  rewrite in_bounds_true by lia.
  destruct (Z.leb_spec 0 value), (Z.leb_spec value 4294967295); try lia.
  reflexivity.
Qed.

Lemma write_ascii_wrote (s : string) (offset : Z) (w : World) :
  0 <= offset <= len w ->
  write_ascii s offset w
  = (set_buffer w (store_bytes (buffer w) (Z.to_nat offset) (ascii_bytes s)),
     Ok tt).
Proof.
  intros H. unfold write_ascii, len in *.
  destruct (Z.leb_spec 0 offset), (Z.leb_spec offset (Z.of_nat (List.length (buffer w))));
    try lia.
  reflexivity.
Qed.

Lemma len_wrote (w : World) (i : nat) (bs : list Z) :
  len (set_buffer w (store_bytes (buffer w) i bs)) = len w.
Proof. unfold len, set_buffer. cbn [buffer]. now rewrite length_store_bytes. Qed.

Lemma u32_of_bytes (v : Z) :
  0 <= v <= 4294967295 ->
  v mod 256 + Z.shiftr v 8 mod 256 * 2 ^ 8 + Z.shiftr v 16 mod 256 * 2 ^ 16
  + Z.shiftr v 24 mod 256 * 2 ^ 24 = v.
Proof.
  intros Hv. rewrite !Z.shiftr_div_pow2 by lia.
  change (2 ^ 8) with 256. change (2 ^ 16) with 65536.
  change (2 ^ 24) with 16777216.
  pose proof (Z.div_mod v 256 ltac:(lia)).
  pose proof (Z.div_mod (v / 256) 256 ltac:(lia)).
  pose proof (Z.div_mod (v / 256 / 256) 256 ltac:(lia)).
  pose proof (Z.mod_pos_bound v 256 ltac:(lia)).
  pose proof (Z.mod_pos_bound (v / 256) 256 ltac:(lia)).
  pose proof (Z.mod_pos_bound (v / 256 / 256) 256 ltac:(lia)).
  replace (v / 65536) with (v / 256 / 256)
    by (rewrite Z.div_div by lia; reflexivity).
  replace (v / 16777216) with (v / 256 / 256 / 256)
    by (rewrite !Z.div_div by lia; reflexivity).
  assert (0 <= v / 256 / 256 / 256 < 256).
  { split; [repeat apply Z.div_pos; lia|].
    repeat (apply Z.div_lt_upper_bound; [lia|]). lia. }
  rewrite (Z.mod_small (v / 256 / 256 / 256)) by assumption.
  lia.
Qed.

(** ** Strings in fixed-width fields *)

(** A seven-bit character survives being written and read back. *)
Lemma ascii_byte_roundtrip (c : ascii) :
  (N_of_ascii c < 128)%N ->
  ascii_of_N (Z.to_N (Z.land (Z.of_N (N_of_ascii c) mod 256) 127)) = c.
Proof.
  destruct c as [[] [] [] [] [] [] [] []]; intros H;
    first [reflexivity | vm_compute in H; discriminate H].
Qed.

Lemma toString_ascii_bytes (s : string) :
  Forall (fun c => (N_of_ascii c < 128)%N) (list_ascii_of_string s) ->
  toString_ascii (map (fun x => x mod 256) (ascii_bytes s)) = s.
Proof.
  unfold toString_ascii, ascii_bytes.
  induction s as [|c s IH]; intros H; [reflexivity|].
  cbn [list_ascii_of_string map string_of_list_ascii] in *.
  apply List.Forall_cons_iff in H. destruct H as [Hc Hs].
  rewrite ascii_byte_roundtrip by exact Hc. now rewrite IH.
Qed.

(** [n] NULs. *)
Lemma no_line_terminator_NULs (n : nat) :
  no_line_terminator (string_of_list_ascii (replicate n NUL)) = true.
Proof. induction n as [|n IH]; [reflexivity|]. cbn. exact IH. Qed.

Lemma strip_from_NUL_NULs (n : nat) :
  strip_from_NUL (string_of_list_ascii (replicate n NUL)) = EmptyString.
Proof.
  destruct n as [|n]; [reflexivity|].
  cbn [replicate string_of_list_ascii strip_from_NUL].
  now rewrite no_line_terminator_NULs.
Qed.

(** Text without NUL comes back from its NUL-padded field. *)
Lemma strip_from_NUL_padded (s : string) (n : nat) :
  Fits.field_text s ->
  strip_from_NUL
    (String.append s (string_of_list_ascii (replicate n NUL))) = s.
Proof.
  unfold Fits.field_text. induction s as [|c s IH]; intros H.
  - apply strip_from_NUL_NULs.
  - cbn [list_ascii_of_string] in H.
    apply List.Forall_cons_iff in H. destruct H as [Hc Hs].
    change (String.append (String c s) ?x)
      with (String c (String.append s x)).
    cbn [strip_from_NUL].
    assert (Hne : Ascii.eqb c NUL = false).
    { apply Ascii.eqb_neq. intros ->. vm_compute in Hc. destruct Hc as [Hc _].
      discriminate Hc. }
    rewrite Hne. cbn [andb]. now rewrite IH.
Qed.

Lemma field_text_seven_bit (s : string) :
  Fits.field_text s ->
  Forall (fun c => (N_of_ascii c < 128)%N) (list_ascii_of_string s).
Proof.
  unfold Fits.field_text. intros H.
  apply (List.Forall_impl _ (P := fun c => (0 < N_of_ascii c < 128)%N));
    [|exact H].
  intros c Hc. lia.
Qed.

Lemma padEnd_NUL_length (s : string) (n : nat) :
  (String.length s <= n)%nat -> String.length (padEnd_NUL s n) = n.
Proof.
  intros H. unfold padEnd_NUL.
  assert (Happ : forall a b,
            String.length (String.append a b)
            = (String.length a + String.length b)%nat).
  { induction a as [|c a IH]; intros b; [reflexivity|].
    change (String.append (String c a) b) with (String c (String.append a b)).
    cbn [String.length]. now rewrite IH. }
  rewrite Happ.
  assert (Hl : forall l, String.length (string_of_list_ascii l) = List.length l).
  { induction l as [|c l IH]; cbn; [reflexivity | now rewrite IH]. }
  rewrite Hl, length_replicate. lia.
Qed.

Lemma ascii_bytes_length (s : string) :
  List.length (ascii_bytes s) = String.length s.
Proof.
  unfold ascii_bytes. rewrite length_map.
  induction s as [|c s IH]; cbn; [reflexivity | now rewrite IH].
Qed.

Lemma padEnd_NUL_seven_bit (s : string) (n : nat) :
  Fits.field_text s ->
  Forall (fun c => (N_of_ascii c < 128)%N)
    (list_ascii_of_string (padEnd_NUL s n)).
Proof.
  intros H. unfold padEnd_NUL.
  assert (Happ : forall a b,
            list_ascii_of_string (String.append a b)
            = list_ascii_of_string a ++ list_ascii_of_string b).
  { induction a as [|c a IH]; intros b; [reflexivity|].
    change (String.append (String c a) b) with (String c (String.append a b)).
    cbn [list_ascii_of_string app]. now rewrite IH. }
  rewrite Happ. apply List.Forall_app.
  split; [now apply field_text_seven_bit|].
  rewrite list_ascii_of_string_of_list_ascii.
  apply Forall_forall. intros c Hc. apply elem_of_replicate in Hc.
  destruct Hc as [-> _]. reflexivity.
Qed.


(** ** The header on the wire *)

(** Writing right after a prefix of the buffer. *)
Lemma store_bytes_at_cursor (bs : list Z) :
  forall (pre rest : list Z) (i : nat),
    i = List.length pre -> (List.length bs <= List.length rest)%nat ->
    store_bytes (pre ++ rest) i bs
    = (pre ++ map (fun x => x mod 256) bs) ++ drop (List.length bs) rest.
Proof.
  induction bs as [|x bs IH]; intros pre rest i Hi Hlen.
  - cbn. now rewrite app_nil_r.
  - destruct rest as [|y rest]; [cbn in Hlen; lia|].
    cbn [store_bytes]. unfold store. subst i.
    rewrite insert_app_r_alt by lia. rewrite Nat.sub_diag. cbn [insert list_insert].
    change (<[0%nat:=x mod 256]> (y :: rest)) with (x mod 256 :: rest).
    rewrite (cons_middle (x mod 256) pre rest), app_assoc.
    rewrite IH by (rewrite ?length_app; cbn in *; lia).
    cbn [map List.length drop]. now rewrite <- !app_assoc.
Qed.

Lemma byte_at_here (x : Z) (l : list Z) (k : Z) :
  k = 0 -> byte_at (x :: l) k = x.
Proof. now intros ->. Qed.

Lemma byte_at_further (x : Z) (l : list Z) (k : Z) :
  0 < k -> byte_at (x :: l) k = byte_at l (k - 1).
Proof.
  intros Hk. unfold byte_at.
  replace (Z.to_nat k) with (S (Z.to_nat (k - 1))) by lia. reflexivity.
Qed.

Ltac side_len :=
  unfold len in *; cbn [buffer set_buffer]; rewrite ?length_store_bytes; lia.

Ltac run_write :=
  repeat (first [ rewrite writeUInt8_wrote by side_len
                | rewrite writeUInt16LE_wrote by side_len
                | rewrite writeUInt32LE_wrote by side_len
                | rewrite write_ascii_wrote by side_len
                | rewrite assert_true ];
          cbv beta iota; unfold set_buffer; cbn [buffer console]).

Lemma ascii_bytes_mod (s : string) :
  map (fun x => x mod 256) (ascii_bytes s) = ascii_bytes s.
Proof.
  unfold ascii_bytes. rewrite map_map. apply map_ext. intros c.
  apply Z.mod_small. pose proof (N_ascii_bounded c). lia.
Qed.

Ltac at_cursor :=
  rewrite ?length_app, ?length_map, ?length_drop; cbn [List.length];
  unfold len in *; lia.

Ltac wire_byte :=
  rewrite ?Z.shiftr_div_pow2 by lia;
  change (2 ^ 8) with 256; change (2 ^ 16) with 65536;
  change (2 ^ 24) with 16777216;
  first [ reflexivity
        | apply Z.mod_small; lia
        | apply Z.mod_small; split;
          [apply Z.div_pos; lia | apply Z.div_lt_upper_bound; lia] ].

Lemma header_write_image (h : TCNetManagementHeader.t) (w : World) :
  Fits.header_fits h -> 24 <= len w ->
  TCNetManagementHeader.write h w
  = ({| buffer := Fits.header_image h ++ drop 24 (buffer w);
        console := console w |}, Ok tt).
Proof.
  destruct h as [nodeId minor type name sq nodeType options ts].
  unfold Fits.header_fits, Fits.header_image.
  cbn [TCNetManagementHeader.nodeId TCNetManagementHeader.minorVersion
       TCNetManagementHeader.messageType TCNetManagementHeader.nodeName
       TCNetManagementHeader.seq TCNetManagementHeader.nodeType
       TCNetManagementHeader.nodeOptions TCNetManagementHeader.timestamp].
  intros (Hid & Hminor & Htype & Htext & Hname & Hseq & Hnt & Hopt & Hts) Hlen.
  pose proof (padEnd_NUL_length name 8 Hname) as Hpad.
  rewrite <- ascii_bytes_length in Hpad.
  unfold TCNetManagementHeader.write, bind.
  cbn [TCNetManagementHeader.nodeId TCNetManagementHeader.minorVersion
       TCNetManagementHeader.messageType TCNetManagementHeader.nodeName
       TCNetManagementHeader.seq TCNetManagementHeader.nodeType
       TCNetManagementHeader.nodeOptions TCNetManagementHeader.timestamp].
  replace (ascii_length name <=? 8) with true
    by (symmetry; apply Z.leb_le; unfold ascii_length; lia).
  unfold TCNetManagementHeader.MAJOR_VERSION.
  run_write.
  change (ascii_bytes TCNetManagementHeader.MAGIC_HEADER) with [84; 67; 78].
  do 2 f_equal.
  rewrite (store_bytes_at_cursor _ [] (buffer w)) by at_cursor.
  rewrite !store_bytes_at_cursor by at_cursor.
  rewrite !drop_drop, <- !app_assoc. cbn [app map List.length].
  rewrite ascii_bytes_mod.
  repeat match goal with
         | |- _ :: _ = _ :: _ => f_equal
         | |- _ ++ _ = _ ++ _ => f_equal
         end; try wire_byte.
  now rewrite Hpad.
Qed.

Ltac peel_cons :=
  repeat first [ rewrite byte_at_here by lia
               | rewrite byte_at_further by lia ].

Lemma u16_of_wire (v : Z) : v mod 256 + v / 256 * 2 ^ 8 = v.
Proof. change (2 ^ 8) with 256. pose proof (Z.div_mod v 256 ltac:(lia)). lia. Qed.

Lemma u32_of_wire (v : Z) :
  v mod 256 + v / 256 mod 256 * 2 ^ 8 + v / 65536 mod 256 * 2 ^ 16
  + v / 16777216 * 2 ^ 24 = v.
Proof.
  change (2 ^ 8) with 256. change (2 ^ 16) with 65536.
  change (2 ^ 24) with 16777216.
  pose proof (Z.div_mod v 256 ltac:(lia)).
  pose proof (Z.div_mod (v / 256) 256 ltac:(lia)).
  pose proof (Z.div_mod (v / 256 / 256) 256 ltac:(lia)).
  replace (v / 65536) with (v / 256 / 256)
    by (rewrite Z.div_div by lia; reflexivity).
  replace (v / 16777216) with (v / 256 / 256 / 256)
    by (rewrite !Z.div_div by lia; reflexivity).
  lia.
Qed.

Lemma header_read_image
    (h : TCNetManagementHeader.t) (rest : list Z) (c : Console) :
  Fits.header_fits h ->
  TCNetManagementHeader.read
    {| buffer := Fits.header_image h ++ rest; console := c |}
  = ({| buffer := Fits.header_image h ++ rest; console := c |}, Ok h).
Proof.
  destruct h as [nodeId minor type name sq nodeType options ts].
  unfold Fits.header_fits, Fits.header_image.
  cbn [TCNetManagementHeader.nodeId TCNetManagementHeader.minorVersion
       TCNetManagementHeader.messageType TCNetManagementHeader.nodeName
       TCNetManagementHeader.seq TCNetManagementHeader.nodeType
       TCNetManagementHeader.nodeOptions TCNetManagementHeader.timestamp].
  intros (Hid & Hminor & Htype & Htext & Hname & Hseq & Hnt & Hopt & Hts).
  pose proof (padEnd_NUL_length name 8 Hname) as Hpad.
  rewrite <- ascii_bytes_length in Hpad.
  pose proof (toString_ascii_bytes _ (padEnd_NUL_seven_bit name 8 Htext))
    as Hback.
  rewrite ascii_bytes_mod in Hback.
  remember (ascii_bytes (padEnd_NUL name 8)) as nb eqn:Enb.
  do 8 (destruct nb as [|? nb]; [discriminate Hpad|]).
  destruct nb; [|discriminate Hpad]. clear Hpad Enb.
  cbn [app].
  unfold TCNetManagementHeader.read, bind.
  unfold TCNetManagementHeader.MAJOR_VERSION,
    TCNetManagementHeader.MAGIC_HEADER.
  unfold slice_ascii, slice.
  change (Z.to_nat (16 - 8)) with 8%nat. change (Z.to_nat 8) with 8%nat.
  repeat (first
            [ rewrite readUInt8_ok by (unfold len; cbn [buffer List.length]; lia)
            | rewrite readUInt16LE_ok
                by (unfold len; cbn [buffer List.length]; lia)
            | rewrite readUInt32LE_ok
                by (unfold len; cbn [buffer List.length]; lia)
            | progress peel_cons
            | progress change (3 =? 3) with true
            | rewrite assert_true ];
          cbv beta iota; cbn [buffer firstn skipn]).
  unfold ret, u16le, u32le. peel_cons.
  rewrite Hback, !u16_of_wire, u32_of_wire.
  unfold padEnd_NUL. rewrite strip_from_NUL_padded by exact Htext.
  reflexivity.
Qed.

Lemma header_image_length (h : TCNetManagementHeader.t) :
  Fits.header_fits h -> List.length (Fits.header_image h) = 24%nat.
Proof.
  intros (_ & _ & _ & _ & Hname & _).
  unfold Fits.header_image. rewrite !length_app, ascii_bytes_length.
  rewrite padEnd_NUL_length by exact Hname. reflexivity.
Qed.

Lemma text_NODE : Fits.field_text "NODE".
Proof.
  unfold Fits.field_text. cbn [list_ascii_of_string].
  repeat (apply List.Forall_cons; [split; reflexivity|]).
  apply List.Forall_nil.
Qed.

(** X10. A header whose values fit their fields survives the wire: on a
    buffer of 24 bytes or more [write] succeeds, [read] of the written buffer
    gives the same header back, and [write] has touched nothing but the first
    24 bytes: the console, the length and every later byte are as before. *)
Theorem header_roundtrip (h : TCNetManagementHeader.t) (w : World) :
  Fits.header_fits h -> 24 <= len w ->
  exists w',
    TCNetManagementHeader.write h w = (w', Ok tt)
    /\ TCNetManagementHeader.read w' = (w', Ok h)
    /\ console w' = console w
    /\ len w' = len w
    /\ drop 24 (buffer w') = drop 24 (buffer w).
Proof.
  intros Hfits Hlen. eexists. split; [apply header_write_image; assumption|].
  pose proof (header_image_length h Hfits) as Himage.
  split; [apply header_read_image; exact Hfits|].
  split; [reflexivity|]. unfold len in *. cbn [buffer]. split.
  - rewrite length_app, length_drop. lia.
  - rewrite drop_app_length'; [reflexivity|symmetry; exact Himage].
Qed.

Lemma header_roundtrip_witness :
  exists w',
    TCNetManagementHeader.write
      {| TCNetManagementHeader.nodeId := 1;
         TCNetManagementHeader.minorVersion := 5;
         TCNetManagementHeader.messageType := 5;
         TCNetManagementHeader.nodeName := "NODE";
         TCNetManagementHeader.seq := 7;
         TCNetManagementHeader.nodeType := 2;
         TCNetManagementHeader.nodeOptions := 7;
         TCNetManagementHeader.timestamp := 1000 |}
      (on_buffer (alloc 24)) = (w', Ok tt)
    /\ TCNetManagementHeader.read w'
       = (w', Ok {| TCNetManagementHeader.nodeId := 1;
                    TCNetManagementHeader.minorVersion := 5;
                    TCNetManagementHeader.messageType := 5;
                    TCNetManagementHeader.nodeName := "NODE";
                    TCNetManagementHeader.seq := 7;
                    TCNetManagementHeader.nodeType := 2;
                    TCNetManagementHeader.nodeOptions := 7;
                    TCNetManagementHeader.timestamp := 1000 |})
    /\ console w' = console (on_buffer (alloc 24))
    /\ len w' = len (on_buffer (alloc 24))
    /\ drop 24 (buffer w') = drop 24 (buffer (on_buffer (alloc 24))).
Proof.
  apply header_roundtrip.
  - unfold Fits.header_fits. cbn.
    repeat split; try lia; try apply text_NODE.
  - vm_compute. discriminate.
Defined.

(** ** Header and payload side by side *)

Lemma store_bytes_from (bs : list Z) (b : Buffer) (i : nat) :
  (i + List.length bs <= List.length b)%nat ->
  store_bytes b i bs
  = (take i b ++ map (fun x => x mod 256) bs)
    ++ drop (List.length bs) (drop i b).
Proof.
  intros H. rewrite <- (take_drop i b) at 1.
  apply store_bytes_at_cursor.
  - rewrite length_take. lia.
  - rewrite length_drop. lia.
Qed.

Lemma byte_at_past (pre l : list Z) (k : Z) :
  Z.of_nat (List.length pre) <= k ->
  byte_at (pre ++ l) k = byte_at l (k - Z.of_nat (List.length pre)).
Proof.
  intros H. unfold byte_at. rewrite lookup_app_r by lia.
  now replace (Z.to_nat k - List.length pre)%nat
    with (Z.to_nat (k - Z.of_nat (List.length pre))) by lia.
Qed.

Lemma payload_extent (p : Packet) :
  Fits.payload_fits p ->
  extent (class_of p) = 24 + Z.of_nat (List.length (Fits.payload_image p)).
Proof. destruct p; cbn; intros H; try contradiction; reflexivity. Qed.

Ltac in_range_asserts :=
  repeat match goal with
         | |- context [(0 <=? ?x) && (?x <=? 255)] =>
             rewrite (byte_range_test x) by lia
         end.

Lemma payload_write_image (p : Packet) (w : World) :
  Fits.payload_fits p -> extent (class_of p) <= len w ->
  packet_write p w
  = ({| buffer :=
          take 24 (buffer w) ++ Fits.payload_image p
          ++ drop (24 + List.length (Fits.payload_image p)) (buffer w);
        console := console w |}, Ok tt).
Proof.
  destruct p as [q|q|q|q|q|q|q|q|q|q|q]; cbn [Fits.payload_fits];
    try contradiction; destruct q as [a b];
    cbn [class_of extent packet_write Fits.payload_image
         TCNetOptOutPacket.nodeCount TCNetOptOutPacket.nodeListenerPort
         TCNetRequestPacket.dataType TCNetRequestPacket.layer
         TCNetApplicationData.dataType TCNetApplicationData.layer
         TCNetDataPacket.dataType TCNetDataPacket.layer];
    intros [Ha Hb] Hlen;
    unfold TCNetOptOutPacket.write, TCNetRequestPacket.write,
      TCNetApplicationData.write, TCNetDataPacket.write, bind;
    cbn [TCNetOptOutPacket.nodeCount TCNetOptOutPacket.nodeListenerPort
         TCNetRequestPacket.dataType TCNetRequestPacket.layer
         TCNetApplicationData.dataType TCNetApplicationData.layer
         TCNetDataPacket.dataType TCNetDataPacket.layer];
    in_range_asserts; run_write; do 2 f_equal;
    (rewrite (store_bytes_from _ (buffer w)) by at_cursor);
    (rewrite store_bytes_at_cursor
       by (rewrite ?length_app, ?length_map, ?length_drop, ?length_take;
           cbn [List.length]; unfold len in *; lia));
    rewrite !drop_drop, <- !app_assoc; cbn [app map List.length];
    repeat match goal with
           | |- _ :: _ = _ :: _ => f_equal
           | |- _ ++ _ = _ ++ _ => f_equal
           end; try wire_byte.
Qed.

Lemma payload_read_image (p : Packet) (hd rest : list Z) (c : Console) :
  Fits.payload_fits p -> List.length hd = 24%nat ->
  packet_read (class_of p)
    {| buffer := hd ++ Fits.payload_image p ++ rest; console := c |}
  = ({| buffer := hd ++ Fits.payload_image p ++ rest; console := c |}, Ok p).
Proof.
  destruct p as [q|q|q|q|q|q|q|q|q|q|q]; cbn [Fits.payload_fits];
    try contradiction; destruct q as [a b];
    cbn [class_of packet_read Fits.payload_image
         TCNetOptOutPacket.nodeCount TCNetOptOutPacket.nodeListenerPort
         TCNetRequestPacket.dataType TCNetRequestPacket.layer
         TCNetApplicationData.dataType TCNetApplicationData.layer
         TCNetDataPacket.dataType TCNetDataPacket.layer];
    intros [Ha Hb] Hhd;
    unfold fmapM, TCNetOptOutPacket.read, TCNetRequestPacket.read,
      TCNetApplicationData.read, TCNetDataPacket.read, bind;
    repeat (first
              [ rewrite readUInt8_ok
                  by (unfold len; cbn [buffer];
                      rewrite ?length_app; cbn [List.length]; lia)
              | rewrite readUInt16LE_ok
                  by (unfold len; cbn [buffer];
                      rewrite ?length_app; cbn [List.length]; lia) ];
            cbv beta iota; cbn [buffer]);
    unfold ret, u16le; rewrite !(byte_at_past hd) by lia; rewrite Hhd;
    cbn [app]; peel_cons; rewrite ?u16_of_wire; reflexivity.
Qed.

(** X11. The fields of the header and the fields of an OptOut, Request,
    ApplicationData or Data packet lie side by side in the buffer: when the
    values fit their fields and the buffer reaches the end of the packet's
    last field, writing the header and then the packet, or the packet and
    then the header, succeeds with the same buffer, from which [read] gives
    back the header and the packet; the console and the length of the buffer
    are as before. *)
Theorem header_and_payload_do_not_overlap
    (h : TCNetManagementHeader.t) (p : Packet) (w : World) :
  Fits.header_fits h -> Fits.payload_fits p -> extent (class_of p) <= len w ->
  exists w',
    (TCNetManagementHeader.write h ;; packet_write p) w = (w', Ok tt)
    /\ (packet_write p ;; TCNetManagementHeader.write h) w = (w', Ok tt)
    /\ TCNetManagementHeader.read w' = (w', Ok h)
    /\ packet_read (class_of p) w' = (w', Ok p)
    /\ console w' = console w
    /\ len w' = len w.
Proof.
  intros Hh Hp Hlen.
  pose proof (payload_extent p Hp) as He.
  pose proof (header_image_length h Hh) as Himage.
  assert (H24 : 24 <= len w) by lia.
  exists {| buffer :=
              Fits.header_image h ++ Fits.payload_image p
              ++ drop (24 + List.length (Fits.payload_image p)) (buffer w);
            console := console w |}.
  repeat split.
  - unfold bind. rewrite header_write_image by assumption.
    rewrite payload_write_image
      by (try assumption; unfold len in *; cbn [buffer];
          rewrite length_app, Himage, length_drop; lia).
    cbn [buffer console]. do 2 f_equal.
    rewrite take_app_length' by (symmetry; exact Himage). do 2 f_equal.
    rewrite drop_app_ge by lia. rewrite drop_drop. f_equal. lia.
  - unfold bind. rewrite payload_write_image by assumption.
    rewrite header_write_image
      by (try assumption; unfold len in *; cbn [buffer];
          rewrite !length_app, length_take, length_drop; lia).
    cbn [buffer console]. do 3 f_equal.
    apply drop_app_length'. rewrite length_take. unfold len in *. lia.
  - apply header_read_image. exact Hh.
  - apply payload_read_image; assumption.
  - unfold len in *. cbn [buffer].
    rewrite !length_app, Himage, length_drop. lia.
Qed.

Lemma header_and_payload_do_not_overlap_witness :
  exists w',
    (TCNetManagementHeader.write
       {| TCNetManagementHeader.nodeId := 1;
          TCNetManagementHeader.minorVersion := 5;
          TCNetManagementHeader.messageType := 3;
          TCNetManagementHeader.nodeName := "NODE";
          TCNetManagementHeader.seq := 7;
          TCNetManagementHeader.nodeType := 2;
          TCNetManagementHeader.nodeOptions := 7;
          TCNetManagementHeader.timestamp := 1000 |} ;;
     packet_write
       (OptOut {| TCNetOptOutPacket.nodeCount := 1;
                  TCNetOptOutPacket.nodeListenerPort := 65023 |}))
      (on_buffer (alloc 28)) = (w', Ok tt)
    /\ (packet_write
          (OptOut {| TCNetOptOutPacket.nodeCount := 1;
                     TCNetOptOutPacket.nodeListenerPort := 65023 |}) ;;
        TCNetManagementHeader.write
          {| TCNetManagementHeader.nodeId := 1;
             TCNetManagementHeader.minorVersion := 5;
             TCNetManagementHeader.messageType := 3;
             TCNetManagementHeader.nodeName := "NODE";
             TCNetManagementHeader.seq := 7;
             TCNetManagementHeader.nodeType := 2;
             TCNetManagementHeader.nodeOptions := 7;
             TCNetManagementHeader.timestamp := 1000 |})
         (on_buffer (alloc 28)) = (w', Ok tt)
    /\ TCNetManagementHeader.read w'
       = (w', Ok {| TCNetManagementHeader.nodeId := 1;
                    TCNetManagementHeader.minorVersion := 5;
                    TCNetManagementHeader.messageType := 3;
                    TCNetManagementHeader.nodeName := "NODE";
                    TCNetManagementHeader.seq := 7;
                    TCNetManagementHeader.nodeType := 2;
                    TCNetManagementHeader.nodeOptions := 7;
                    TCNetManagementHeader.timestamp := 1000 |})
    /\ packet_read
         (class_of
            (OptOut {| TCNetOptOutPacket.nodeCount := 1;
                       TCNetOptOutPacket.nodeListenerPort := 65023 |})) w'
       = (w', Ok (OptOut {| TCNetOptOutPacket.nodeCount := 1;
                            TCNetOptOutPacket.nodeListenerPort := 65023 |}))
    /\ console w' = console (on_buffer (alloc 28))
    /\ len w' = len (on_buffer (alloc 28)).
Proof.
  apply header_and_payload_do_not_overlap.
  - unfold Fits.header_fits. cbn.
    repeat split; try lia; try apply text_NODE.
  - cbn. lia.
  - vm_compute. discriminate.
Defined.

(** ** Writing into a buffer that is too short *)

Lemma stores_assert (value : bool) : stores (assert value).
Proof.
  intros w. eexists _, _. split; [reflexivity|].
  split; [reflexivity|]. right. now exists tt.
Qed.

Lemma stores_writeUInt8 (value offset : Z) : stores (writeUInt8 value offset).
Proof.
  intros w. unfold writeUInt8.
  destruct ((0 <=? value) && (value <=? 255) && in_bounds (buffer w) offset 1);
    eexists _, _; (split; [reflexivity|]); split;
    [ unfold len, set_buffer; cbn [buffer]; now rewrite length_store
    | right; now exists tt | reflexivity | now left ].
Qed.

Lemma stores_writeUInt16LE (value offset : Z) :
  stores (writeUInt16LE value offset).
Proof.
  intros w. unfold writeUInt16LE.
  destruct ((0 <=? value) && (value <=? 65535)
            && in_bounds (buffer w) offset 2);
    eexists _, _; (split; [reflexivity|]); split;
    [ apply len_wrote | right; now exists tt | reflexivity | now left ].
Qed.

Lemma stores_writeUInt32LE (value offset : Z) :
  stores (writeUInt32LE value offset).
Proof.
  intros w. unfold writeUInt32LE.
  destruct ((0 <=? value) && (value <=? 4294967295)
            && in_bounds (buffer w) offset 4);
    eexists _, _; (split; [reflexivity|]); split;
    [ apply len_wrote | right; now exists tt | reflexivity | now left ].
Qed.

Lemma stores_write_ascii (s : string) (offset : Z) :
  stores (write_ascii s offset).
Proof.
  intros w. unfold write_ascii.
  destruct ((0 <=? offset) && (offset <=? Z.of_nat (List.length (buffer w))));
    eexists _, _; (split; [reflexivity|]); split;
    [ apply len_wrote | right; now exists tt | reflexivity | now left ].
Qed.

Lemma breaks_below_after {A B : Type} (n : Z) (m : M A) (k : A -> M B) :
  stores m -> (forall a, breaks_below n (k a)) -> breaks_below n (bind m k).
Proof.
  intros Hm Hk w Hw.
  destruct (Hm w) as (w1 & r & E & Hl & [->|(a & ->)]); unfold bind; rewrite E.
  - exists w1. split; [reflexivity|exact Hl].
  - destruct (Hk a w1 ltac:(lia)) as (w' & E' & Hl').
    exists w'. split; [exact E'|lia].
Qed.

Lemma in_bounds_short (b : Buffer) (offset width : Z) :
  Z.of_nat (List.length b) < offset + width -> in_bounds b offset width = false.
Proof.
  intros H. unfold in_bounds. apply andb_false_iff. right.
  apply Z.leb_gt. exact H.
Qed.

Lemma breaks_below_writeUInt8 (n value offset : Z) :
  n <= offset + 1 -> breaks_below n (writeUInt8 value offset).
Proof.
  intros Hn w Hw. exists w. split; [|reflexivity]. unfold writeUInt8.
  rewrite in_bounds_short by (unfold len in Hw; lia).
  now rewrite andb_false_r.
Qed.

Lemma breaks_below_writeUInt16LE (n value offset : Z) :
  n <= offset + 2 -> breaks_below n (writeUInt16LE value offset).
Proof.
  intros Hn w Hw. exists w. split; [|reflexivity]. unfold writeUInt16LE.
  rewrite in_bounds_short by (unfold len in Hw; lia).
  now rewrite andb_false_r.
Qed.

Lemma breaks_below_writeUInt32LE (n value offset : Z) :
  n <= offset + 4 -> breaks_below n (writeUInt32LE value offset).
Proof.
  intros Hn w Hw. exists w. split; [|reflexivity]. unfold writeUInt32LE.
  rewrite in_bounds_short by (unfold len in Hw; lia).
  now rewrite andb_false_r.
Qed.

Ltac breaking :=
  repeat (apply breaks_below_after;
          [ first [ apply stores_assert | apply stores_writeUInt8
                  | apply stores_writeUInt16LE | apply stores_writeUInt32LE
                  | apply stores_write_ascii ]
          | intros _ ]);
  first [ apply breaks_below_writeUInt8 | apply breaks_below_writeUInt16LE
        | apply breaks_below_writeUInt32LE ]; lia.

(** X12. [write] of a header never completes on a buffer shorter than 24
    bytes, whatever the header holds: it ends in the [RangeError] of a buffer
    accessor, and the buffer keeps its length (nothing is appended to make
    room). *)
Theorem header_write_breaks_on_a_short_buffer
    (h : TCNetManagementHeader.t) (w : World) :
  len w < 24 ->
  exists w',
    TCNetManagementHeader.write h w = (w', Throw RangeError)
    /\ len w' = len w.
Proof.
  revert w. change (breaks_below 24 (TCNetManagementHeader.write h)).
  unfold TCNetManagementHeader.write. breaking.
Qed.

Lemma header_write_breaks_on_a_short_buffer_witness :
  exists w',
    TCNetManagementHeader.write
      {| TCNetManagementHeader.nodeId := 1;
         TCNetManagementHeader.minorVersion := 5;
         TCNetManagementHeader.messageType := 3;
         TCNetManagementHeader.nodeName := "NODE";
         TCNetManagementHeader.seq := 7;
         TCNetManagementHeader.nodeType := 2;
         TCNetManagementHeader.nodeOptions := 7;
         TCNetManagementHeader.timestamp := 1000 |}
      (on_buffer (alloc 23)) = (w', Throw RangeError)
    /\ len w' = len (on_buffer (alloc 23)).
Proof.
  apply header_write_breaks_on_a_short_buffer. vm_compute. reflexivity.
Defined.

(** X13. [write] of an OptOut, Request, ApplicationData or Data packet never
    completes on a buffer that ends before the packet's last field (28 bytes
    for OptOut, 26 for the others), whatever the packet holds: it ends in the
    [RangeError] of a buffer accessor, and the buffer keeps its length. *)
Theorem packet_write_breaks_on_a_short_buffer (p : Packet) (w : World) :
  In (class_of p) [OptOutPacket; RequestPacket; ApplicationData; DataPacket] ->
  len w < extent (class_of p) ->
  exists w',
    packet_write p w = (w', Throw RangeError) /\ len w' = len w.
Proof.
  intros Hc. revert w.
  change (breaks_below (extent (class_of p)) (packet_write p)).
  destruct p as [q|q|q|q|q|q|q|q|q|q|q]; cbn [class_of] in Hc;
    try (exfalso; cbn in Hc; intuition discriminate);
    cbn [class_of extent packet_write];
    unfold TCNetOptOutPacket.write, TCNetRequestPacket.write,
      TCNetApplicationData.write, TCNetDataPacket.write;
    breaking.
Qed.

Lemma packet_write_breaks_on_a_short_buffer_witness :
  exists w',
    packet_write
      (OptOut {| TCNetOptOutPacket.nodeCount := 1;
                 TCNetOptOutPacket.nodeListenerPort := 65023 |})
      (on_buffer (alloc 27)) = (w', Throw RangeError)
    /\ len w' = len (on_buffer (alloc 27)).
Proof.
  apply packet_write_breaks_on_a_short_buffer.
  - cbn. now left.
  - vm_compute. reflexivity.
Defined.

(** X14. A Request whose [dataType] is not a byte value is not written: the
    assertion at the top of [write] only prints "Assertion failed", and the
    first [writeUInt8] then throws the [RangeError]; the buffer is untouched,
    and the console holds that line, followed by the line of the second
    assertion when [layer] is no byte value either. *)
Theorem request_write_stops_at_a_wide_dataType
    (p : TCNetRequestPacket.t) (w : World) :
  ~ (0 <= TCNetRequestPacket.dataType p <= 255) ->
  TCNetRequestPacket.write p w
  = ({| buffer := buffer w;
        console :=
          (console w ++ ["Assertion failed"%string])
          ++ console_assert
               ((0 <=? TCNetRequestPacket.layer p)
                && (TCNetRequestPacket.layer p <=? 255)) None |},
     Throw RangeError).
Proof.
  intros Hd.
  assert (E : (0 <=? TCNetRequestPacket.dataType p)
              && (TCNetRequestPacket.dataType p <=? 255) = false).
  { apply andb_false_iff.
    destruct (Z.leb_spec 0 (TCNetRequestPacket.dataType p));
      [right; apply Z.leb_gt; lia | now left]. }
  unfold TCNetRequestPacket.write, bind, assert, writeUInt8.
  cbn [buffer console]. rewrite E. reflexivity.
Qed.

Lemma request_write_stops_at_a_wide_dataType_witness :
  TCNetRequestPacket.write
    {| TCNetRequestPacket.dataType := 256; TCNetRequestPacket.layer := 1 |}
    (on_buffer (alloc 26))
  = ({| buffer := buffer (on_buffer (alloc 26));
        console :=
          (console (on_buffer (alloc 26)) ++ ["Assertion failed"%string])
          ++ console_assert
               ((0 <=? TCNetRequestPacket.layer
                         {| TCNetRequestPacket.dataType := 256;
                            TCNetRequestPacket.layer := 1 |})
                && (TCNetRequestPacket.layer
                      {| TCNetRequestPacket.dataType := 256;
                         TCNetRequestPacket.layer := 1 |} <=? 255)) None |},
     Throw RangeError).
Proof.
  apply request_write_stops_at_a_wide_dataType. cbn. lia.
Defined.

(** ** Decoders look, they do not touch *)

Lemma packet_read_inspects (c : PacketClass) :
  c <> DataPacketBeatGridData -> inspects (packet_read c).
Proof.
  intros Hc.
  destruct c; try congruence;
    unfold packet_read, fmapM, TCNetOptInPacket.read, TCNetOptOutPacket.read,
      TCNetStatusPacket.read, TCNetRequestPacket.read,
      TCNetApplicationData.read, TCNetTimePacket.read,
      TCNetTimePacket.read_layer, TCNetTimecode.read, TCNetDataPacket.read,
      TCNetDataPacketMetrics.read, TCNetDataPacketMetadata.read,
      TCNetDataPacketMixerData.read;
    inspecting.
Qed.

(** X15. No decoder but the one of the beat grid has an effect: whatever the
    buffer holds, [read] of every other class hands back the buffer and the
    console as it found them, and either returns a packet or throws the
    [RangeError] of a buffer accessor, never another error. *)
Theorem packet_read_leaves_the_world
    (c : PacketClass) (w w' : World) (r : result Packet) :
  c <> DataPacketBeatGridData ->
  packet_read c w = (w', r) ->
  w' = w /\ (r = Throw RangeError \/ exists p, r = Ok p).
Proof.
  intros Hc H.
  destruct (packet_read_inspects c Hc w) as (r0 & E & Hr).
  rewrite E in H. injection H as <- <-. split; [reflexivity|exact Hr].
Qed.

Lemma packet_read_leaves_the_world_witness :
  on_buffer (alloc 10) = on_buffer (alloc 10)
  /\ (@Throw Packet RangeError = Throw RangeError
      \/ exists p : Packet, Throw RangeError = Ok p).
Proof.
  apply (packet_read_leaves_the_world StatusPacket (on_buffer (alloc 10))).
  - discriminate.
  - vm_compute. reflexivity.
Defined.

Lemma beatgrid_read_value (w : World) :
  48 <= len w ->
  TCNetDataPacketBeatGridData.read w
  = ({| buffer := buffer w;
        console :=
          ((console w
            ++ [String.append (number_toString (u32le (buffer w) 26))
                  "datasize -- "])
           ++ [String.append (number_toString (u32le (buffer w) 30))
                 "totalPacket --"])
          ++ [String.append (number_toString (u16le (buffer w) 42))
                "beatNumber --"] |},
     Ok {| TCNetDataPacketBeatGridData.dataSize := u32le (buffer w) 26;
           TCNetDataPacketBeatGridData.totalPacket := u32le (buffer w) 30;
           TCNetDataPacketBeatGridData.beatNumber := u16le (buffer w) 42;
           TCNetDataPacketBeatGridData.beatType := byte_at (buffer w) 44;
           TCNetDataPacketBeatGridData.beatTypeTimestamp :=
             u16le (buffer w) 46 |}).
Proof.
  intros Hlen. unfold TCNetDataPacketBeatGridData.read, bind.
  run_decoder. unfold console_log. cbn [buffer console]. reflexivity.
Qed.

(** X16. The decoder of the beat grid prints: a [read] that returns has
    appended exactly three lines to the console, the decimal [dataSize],
    [totalPacket] and [beatNumber] of the packet it returns, each followed by
    its label, and has left the buffer alone. *)
Theorem beatgrid_read_prints_three_lines
    (w w' : World) (p : TCNetDataPacketBeatGridData.t) :
  TCNetDataPacketBeatGridData.read w = (w', Ok p) ->
  buffer w' = buffer w
  /\ console w'
     = console w
       ++ [String.append
             (number_toString (TCNetDataPacketBeatGridData.dataSize p))
             "datasize -- ";
           String.append
             (number_toString (TCNetDataPacketBeatGridData.totalPacket p))
             "totalPacket --";
           String.append
             (number_toString (TCNetDataPacketBeatGridData.beatNumber p))
             "beatNumber --"]%string.
Proof.
  intros H.
  assert (Hlen : 48 <= len w).
  { destruct (Z.lt_ge_cases (len w) 48) as [Hlt|Hge]; [|exact Hge].
    rewrite (beatgrid_read_fails_below w Hlt) in H. discriminate H. }
  rewrite (beatgrid_read_value w Hlen) in H. injection H as <- <-.
  cbn [buffer console TCNetDataPacketBeatGridData.dataSize
       TCNetDataPacketBeatGridData.totalPacket
       TCNetDataPacketBeatGridData.beatNumber].
  split; [reflexivity|]. now rewrite <- !app_assoc.
Qed.

Lemma beatgrid_read_prints_three_lines_witness :
  buffer {| buffer := alloc 48;
            console := ["0datasize -- "; "0totalPacket --";
                        "0beatNumber --"]%string |}
  = buffer (on_buffer (alloc 48))
  /\ console {| buffer := alloc 48;
                console := ["0datasize -- "; "0totalPacket --";
                            "0beatNumber --"]%string |}
     = console (on_buffer (alloc 48))
       ++ [String.append
             (number_toString
                (TCNetDataPacketBeatGridData.dataSize
                   {| TCNetDataPacketBeatGridData.dataSize := 0;
                      TCNetDataPacketBeatGridData.totalPacket := 0;
                      TCNetDataPacketBeatGridData.beatNumber := 0;
                      TCNetDataPacketBeatGridData.beatType := 0;
                      TCNetDataPacketBeatGridData.beatTypeTimestamp := 0 |}))
             "datasize -- ";
           String.append
             (number_toString
                (TCNetDataPacketBeatGridData.totalPacket
                   {| TCNetDataPacketBeatGridData.dataSize := 0;
                      TCNetDataPacketBeatGridData.totalPacket := 0;
                      TCNetDataPacketBeatGridData.beatNumber := 0;
                      TCNetDataPacketBeatGridData.beatType := 0;
                      TCNetDataPacketBeatGridData.beatTypeTimestamp := 0 |}))
             "totalPacket --";
           String.append
             (number_toString
                (TCNetDataPacketBeatGridData.beatNumber
                   {| TCNetDataPacketBeatGridData.dataSize := 0;
                      TCNetDataPacketBeatGridData.totalPacket := 0;
                      TCNetDataPacketBeatGridData.beatNumber := 0;
                      TCNetDataPacketBeatGridData.beatType := 0;
                      TCNetDataPacketBeatGridData.beatTypeTimestamp := 0 |}))
             "beatNumber --"]%string.
Proof.
  apply beatgrid_read_prints_three_lines. vm_compute. reflexivity.
Defined.

(** ** What a decoded header holds *)

Lemma stores_of_inspects {A : Type} (m : M A) : inspects m -> stores m.
Proof.
  intros Hm w. destruct (Hm w) as (r & E & Hr).
  exists w, r. split; [exact E|]. split; [reflexivity|exact Hr].
Qed.

Lemma breaks_below_now {A B : Type} (n : Z) (m : M A) (k : A -> M B) :
  fails_below n m -> breaks_below n (bind m k).
Proof.
  intros Hm w Hw. exists w. split; [|reflexivity].
  unfold bind. now rewrite (Hm w Hw).
Qed.

Lemma header_read_breaks_below : breaks_below 24 TCNetManagementHeader.read.
Proof.
  unfold TCNetManagementHeader.read.
  do 11 (apply breaks_below_after;
         [ first [ apply stores_assert
                 | apply stores_of_inspects; solve [inspecting] ]
         | intro ]).
  apply breaks_below_now. apply fails_below_readUInt32LE. lia.
Qed.

Lemma header_read_value (w : World) :
  24 <= len w ->
  TCNetManagementHeader.read w
  = ({| buffer := buffer w;
        console :=
          (console w
           ++ console_assert
                (byte_at (buffer w) 2 =? TCNetManagementHeader.MAJOR_VERSION)
                None)
          ++ console_assert
               (String.eqb (toString_ascii (slice (buffer w) 4 7))
                  TCNetManagementHeader.MAGIC_HEADER) None |},
     Ok {| TCNetManagementHeader.nodeId := u16le (buffer w) 0;
           TCNetManagementHeader.minorVersion := byte_at (buffer w) 3;
           TCNetManagementHeader.messageType := byte_at (buffer w) 7;
           TCNetManagementHeader.nodeName :=
             strip_from_NUL (toString_ascii (slice (buffer w) 8 16));
           TCNetManagementHeader.seq := byte_at (buffer w) 16;
           TCNetManagementHeader.nodeType := byte_at (buffer w) 17;
           TCNetManagementHeader.nodeOptions := u16le (buffer w) 18;
           TCNetManagementHeader.timestamp := u32le (buffer w) 20 |}).
Proof.
  intros Hlen. unfold TCNetManagementHeader.read, bind.
  repeat (first
            [ rewrite readUInt8_ok by (unfold len in *; cbn [buffer]; lia)
            | rewrite readUInt16LE_ok by (unfold len in *; cbn [buffer]; lia)
            | rewrite readUInt32LE_ok by (unfold len in *; cbn [buffer]; lia)
            | unfold assert at 1
            | unfold slice_ascii at 1 ];
          cbv beta iota; cbn [buffer console]).
  reflexivity.
Qed.

(** X17. Whatever [read] of the header returns, it returns from a buffer of
    at least 24 bytes, which it leaves alone, and every field lies in the
    range of its width: the one-byte fields in 0..255, the node id and the
    node options in 0..65535, the timestamp in 0..2^32-1, and the node name
    has at most 8 characters. On a shorter buffer [read] returns nothing. *)
Theorem header_read_is_in_range
    (w w' : World) (h : TCNetManagementHeader.t) :
  bytes (buffer w) ->
  TCNetManagementHeader.read w = (w', Ok h) ->
  24 <= len w
  /\ buffer w' = buffer w
  /\ 0 <= TCNetManagementHeader.nodeId h <= 65535
  /\ 0 <= TCNetManagementHeader.minorVersion h <= 255
  /\ 0 <= TCNetManagementHeader.messageType h <= 255
  /\ (String.length (TCNetManagementHeader.nodeName h) <= 8)%nat
  /\ 0 <= TCNetManagementHeader.seq h <= 255
  /\ 0 <= TCNetManagementHeader.nodeType h <= 255
  /\ 0 <= TCNetManagementHeader.nodeOptions h <= 65535
  /\ 0 <= TCNetManagementHeader.timestamp h <= 4294967295.
Proof.
  intros Hb H.
  assert (Hlen : 24 <= len w).
  { destruct (Z.lt_ge_cases (len w) 24) as [Hlt|Hge]; [|exact Hge].
    destruct (header_read_breaks_below w Hlt) as (w0 & E & _).
    rewrite E in H. discriminate H. }
  rewrite (header_read_value w Hlen) in H. injection H as <- <-.
  cbn [buffer TCNetManagementHeader.nodeId TCNetManagementHeader.minorVersion
       TCNetManagementHeader.messageType TCNetManagementHeader.nodeName
       TCNetManagementHeader.seq TCNetManagementHeader.nodeType
       TCNetManagementHeader.nodeOptions TCNetManagementHeader.timestamp].
  pose proof (byte_at_range (buffer w) 3 Hb).
  pose proof (byte_at_range (buffer w) 7 Hb).
  pose proof (byte_at_range (buffer w) 16 Hb).
  pose proof (byte_at_range (buffer w) 17 Hb).
  pose proof (u16le_range (buffer w) 0 Hb).
  pose proof (u16le_range (buffer w) 18 Hb).
  pose proof (u32le_range (buffer w) 20 Hb).
  pose proof (strip_from_NUL_length
                (toString_ascii (slice (buffer w) 8 16))) as Hname.
  rewrite toString_ascii_length in Hname.
  pose proof (slice_length (buffer w) 8 16) as Hslice.
  repeat split; try lia.
Qed.

Lemma alloc_bytes (n : nat) : bytes (alloc n).
Proof. unfold bytes, alloc. apply Forall_replicate. lia. Qed.

Lemma header_read_is_in_range_witness :
  24 <= len (on_buffer (alloc 24))
  /\ buffer {| buffer := alloc 24;
               console := ["Assertion failed"; "Assertion failed"]%string |}
     = buffer (on_buffer (alloc 24))
  /\ 0 <= 0 <= 65535
  /\ 0 <= 0 <= 255
  /\ 0 <= 0 <= 255
  /\ (String.length "" <= 8)%nat
  /\ 0 <= 0 <= 255
  /\ 0 <= 0 <= 255
  /\ 0 <= 0 <= 65535
  /\ 0 <= 0 <= 4294967295.
Proof.
  apply (header_read_is_in_range
           (on_buffer (alloc 24))
           {| buffer := alloc 24;
              console := ["Assertion failed"; "Assertion failed"]%string |}
           {| TCNetManagementHeader.nodeId := 0;
              TCNetManagementHeader.minorVersion := 0;
              TCNetManagementHeader.messageType := 0;
              TCNetManagementHeader.nodeName := "";
              TCNetManagementHeader.seq := 0;
              TCNetManagementHeader.nodeType := 0;
              TCNetManagementHeader.nodeOptions := 0;
              TCNetManagementHeader.timestamp := 0 |}).
  - apply alloc_bytes.
  - vm_compute. reflexivity.
Defined.

(** ** The text of a Metadata packet *)

Lemma remove_NULs_has_no_NUL (s : string) :
  ~ In NUL (list_ascii_of_string (remove_NULs s)).
Proof.
  induction s as [|c s IH]; cbn [remove_NULs]; [intros []|].
  destruct (Ascii.eqb_spec c NUL) as [->|Hc]; [exact IH|].
  cbn [list_ascii_of_string]. intros [E|H]; [congruence|exact (IH H)].
Qed.

Lemma remove_NULs_length (s : string) :
  (String.length (remove_NULs s) <= String.length s)%nat.
Proof.
  induction s as [|c s IH]; cbn [remove_NULs String.length]; [lia|].
  destruct (Ascii.eqb c NUL); cbn [String.length]; lia.
Qed.

Lemma trimEnd_keeps (s : string) (c : ascii) :
  In c (list_ascii_of_string (trimEnd s)) -> In c (list_ascii_of_string s).
Proof.
  induction s as [|a s IH]; [intros []|].
  cbn [trimEnd]. destruct (all_white_space (String a s)); [intros []|].
  cbn [list_ascii_of_string]. intros [E|H]; [now left|right; exact (IH H)].
Qed.

Lemma trimEnd_length (s : string) :
  (String.length (trimEnd s) <= String.length s)%nat.
Proof.
  induction s as [|a s IH]; [cbn; lia|].
  cbn [trimEnd]. destruct (all_white_space (String a s));
    cbn [String.length]; lia.
Qed.

Lemma trimEnd_not_white (s : string) :
  all_white_space s = false -> all_white_space (trimEnd s) = false.
Proof.
  induction s as [|a s IH]; [discriminate|].
  intros H. cbn [trimEnd]. rewrite H.
  cbn [all_white_space] in *.
  destruct (is_white_space a); [|reflexivity].
  cbn [andb] in *. exact (IH H).
Qed.

Lemma trimEnd_trimEnd (s : string) : trimEnd (trimEnd s) = trimEnd s.
Proof.
  induction s as [|a s IH]; [reflexivity|].
  cbn [trimEnd]. destruct (all_white_space (String a s)) eqn:E;
    [reflexivity|].
  cbn [trimEnd]. rewrite IH.
  replace (all_white_space (String a (trimEnd s))) with false; [reflexivity|].
  symmetry. cbn [all_white_space] in *.
  destruct (is_white_space a); [|reflexivity].
  cbn [andb] in *. now apply trimEnd_not_white.
Qed.

Lemma metadata_read_value (w : World) :
  547 <= len w ->
  TCNetDataPacketMetadata.read w
  = (w,
     Ok {| TCNetDataPacketMetadata.trackArtist :=
             trimEnd (remove_NULs (toString_ascii (slice (buffer w) 29 285)));
           TCNetDataPacketMetadata.trackTitle :=
             trimEnd (remove_NULs (toString_ascii (slice (buffer w) 285 541)));
           TCNetDataPacketMetadata.trackKey :=
             remove_NULs (toString_ascii (slice (buffer w) 541 566));
           TCNetDataPacketMetadata.trackID := u32le (buffer w) 543 |}).
Proof.
  intros Hlen. unfold TCNetDataPacketMetadata.read, bind.
  run_decoder. reflexivity.
Qed.

(** X18. The three strings of a decoded Metadata packet are cleaned: none
    of them holds a NUL character, the artist and the title are left
    unchanged by another [trimEnd] (they do not end in white space), and
    they are no longer than their fields: 256 characters for the artist and
    for the title, 25 for the key. The decoder leaves the buffer and the
    console alone. *)
Theorem metadata_read_cleans_the_text
    (w w' : World) (p : TCNetDataPacketMetadata.t) :
  TCNetDataPacketMetadata.read w = (w', Ok p) ->
  w' = w
  /\ (~ In NUL (list_ascii_of_string (TCNetDataPacketMetadata.trackArtist p))
      /\ ~ In NUL (list_ascii_of_string (TCNetDataPacketMetadata.trackTitle p))
      /\ ~ In NUL (list_ascii_of_string (TCNetDataPacketMetadata.trackKey p)))
  /\ (trimEnd (TCNetDataPacketMetadata.trackArtist p)
      = TCNetDataPacketMetadata.trackArtist p
      /\ trimEnd (TCNetDataPacketMetadata.trackTitle p)
         = TCNetDataPacketMetadata.trackTitle p)
  /\ (String.length (TCNetDataPacketMetadata.trackArtist p) <= 256
      /\ String.length (TCNetDataPacketMetadata.trackTitle p) <= 256
      /\ String.length (TCNetDataPacketMetadata.trackKey p) <= 25)%nat.
Proof.
  intros H.
  assert (Hlen : 547 <= len w).
  { destruct (Z.lt_ge_cases (len w) 547) as [Hlt|Hge]; [|exact Hge].
    rewrite (metadata_read_fails_below w Hlt) in H. discriminate H. }
  rewrite (metadata_read_value w Hlen) in H. injection H as <- <-.
  cbn [TCNetDataPacketMetadata.trackArtist TCNetDataPacketMetadata.trackTitle
       TCNetDataPacketMetadata.trackKey].
  assert (Hfield : forall a b,
             (String.length (remove_NULs (toString_ascii (slice (buffer w) a b)))
              <= Z.to_nat (b - a))%nat).
  { intros a b.
    pose proof (remove_NULs_length (toString_ascii (slice (buffer w) a b))).
    rewrite toString_ascii_length in *.
    pose proof (slice_length (buffer w) a b). lia. }
  split; [reflexivity|]. split; [|split].
  - split; [|split].
    + intros Hin. apply trimEnd_keeps in Hin.
      exact (remove_NULs_has_no_NUL _ Hin).
    + intros Hin. apply trimEnd_keeps in Hin.
      exact (remove_NULs_has_no_NUL _ Hin).
    + apply remove_NULs_has_no_NUL.
  - split; apply trimEnd_trimEnd.
  - split; [|split].
    + pose proof (trimEnd_length
                    (remove_NULs (toString_ascii (slice (buffer w) 29 285)))).
      pose proof (Hfield 29 285). lia.
    + pose proof (trimEnd_length
                    (remove_NULs (toString_ascii (slice (buffer w) 285 541)))).
      pose proof (Hfield 285 541). lia.
    + pose proof (Hfield 541 566). lia.
Qed.

Lemma metadata_read_cleans_the_text_witness :
  on_buffer (alloc 547) = on_buffer (alloc 547)
  /\ (~ In NUL (list_ascii_of_string
                  (TCNetDataPacketMetadata.trackArtist metadata_of_zeros))
      /\ ~ In NUL (list_ascii_of_string
                     (TCNetDataPacketMetadata.trackTitle metadata_of_zeros))
      /\ ~ In NUL (list_ascii_of_string
                     (TCNetDataPacketMetadata.trackKey metadata_of_zeros)))
  /\ (trimEnd (TCNetDataPacketMetadata.trackArtist metadata_of_zeros)
      = TCNetDataPacketMetadata.trackArtist metadata_of_zeros
      /\ trimEnd (TCNetDataPacketMetadata.trackTitle metadata_of_zeros)
         = TCNetDataPacketMetadata.trackTitle metadata_of_zeros)
  /\ (String.length (TCNetDataPacketMetadata.trackArtist metadata_of_zeros)
      <= 256
      /\ String.length (TCNetDataPacketMetadata.trackTitle metadata_of_zeros)
         <= 256
      /\ String.length (TCNetDataPacketMetadata.trackKey metadata_of_zeros)
         <= 25)%nat.
Proof.
  apply (metadata_read_cleans_the_text (on_buffer (alloc 547))).
  vm_compute. reflexivity.
Defined.

(** ** The layers of a Time packet *)




(** ** utils: a colour from three bytes *)

(** X20. [toColor] never reaches past the buffer: it hands the buffer and the
    console back as they were; on a buffer of exactly three bytes it returns
    the colour made of those bytes, in the order red, green, blue; on any
    other buffer it throws its own [Error], and the [RangeError] of a buffer
    accessor cannot occur. *)
Theorem toColor_reads_exactly_three_bytes (w : World) :
  exists r,
    Utils.toColor w = (w, r)
    /\ r <> Throw RangeError
    /\ (len w = 3 ->
        r = Ok {| Utils.red := byte_at (buffer w) 0;
                  Utils.green := byte_at (buffer w) 1;
                  Utils.blue := byte_at (buffer w) 2 |})
    /\ (len w <> 3 ->
        r = Throw (Error "amount of bytes not correct for RGB")).
Proof.
  unfold Utils.toColor.
  destruct (Z.eqb_spec (len w) 3) as [E|E]; cbn [negb].
  - unfold bind. rewrite !readUInt8_ok by lia. unfold ret.
    eexists. split; [reflexivity|]. split; [discriminate|].
    split; [reflexivity|]. intros H. contradiction.
  - eexists. split; [reflexivity|]. split; [discriminate|].
    split; [intros H; contradiction|reflexivity].
Qed.

End CodecFacts.

(** * The dispatch tables against the classes *)

Section DispatchFacts.

Import Network Dispatch.

Ltac by_key key H :=
  destruct key as [|key|key]; try discriminate H;
  repeat (destruct key as [key|key|]; try discriminate H);
  injection H as <-; reflexivity.

(** X21. The table of message types agrees with the classes: a class that
    [TCNetPackets] holds under a key answers that key from its [type()]. *)
Theorem registered_class_answers_its_key (messageType : Z) (c : PacketClass) :
  TCNetPackets messageType = constructable c ->
  packet_type c = messageType.
Proof. intros H. by_key messageType H. Qed.

Lemma registered_class_answers_its_key_witness : packet_type StatusPacket = 5.
Proof. apply registered_class_answers_its_key. reflexivity. Defined.

(** X22. Every class of the table of Data packet types is a Data packet:
    its [type()] is the one of the Data envelope, and [TCNetPackets] holds
    the envelope, not the class, under that message type. *)
Theorem data_classes_are_data_packets (dataType : Z) (c : PacketClass) :
  TCNetDataPackets dataType = constructable c ->
  packet_type c = TCNetDataPacket.type
  /\ TCNetPackets (packet_type c) = constructable DataPacket
  /\ c <> DataPacket.
Proof.
  intros H.
  destruct dataType as [|key|key]; try discriminate H;
    repeat (destruct key as [key|key|]; try discriminate H);
    injection H as <-; repeat split; discriminate.
Qed.

Lemma data_classes_are_data_packets_witness :
  packet_type DataPacketMetrics = TCNetDataPacket.type
  /\ TCNetPackets (packet_type DataPacketMetrics) = constructable DataPacket
  /\ DataPacketMetrics <> DataPacket.
Proof. apply (data_classes_are_data_packets 2). reflexivity. Defined.

End DispatchFacts.


(** * More about the tracker, and the client on top of it *)

Section ClientFacts.

Import Pioneer Client.

(** Once the stored array agrees with an array on all its indices, an
    update from that array finds nothing to report. *)
Lemma update_again (field source : ref) (h : Heap) :
  (forall j, (j < length (deref h source))%nat ->
     array_get (deref h field) j = array_get (deref h source) j) ->
  changed (update field source h) = [].
Proof.
  intros Hsame. rewrite update_changed.
  replace (List.filter _ _) with (@nil nat); [reflexivity|].
  symmetry. apply filter_none. intros j Hj. apply in_seq in Hj.
  unfold differs. rewrite Hsame by lia. apply strict_neq_refl.
Qed.

Lemma update_heap_frame (field source : ref) (h : Heap) (r : ref) :
  r <> field -> heap (update field source h) !! r = h !! r.
Proof.
  intros Hr. unfold update.
  pose proof (update_loop_frame (length (deref h source)) 0 field source h []
                r Hr) as H.
  destruct (update_loop _ 0 field source h []) as [h' c]. exact H.
Qed.

Lemma update_length (field source : ref) (h : Heap) :
  (length (deref h source) <= length (deref h field))%nat ->
  length (deref (heap (update field source h)) field)
  = length (deref h field).
Proof.
  intros Hle. unfold update.
  pose proof (update_loop_length (length (deref h source)) 0 field source h
                []) as H.
  destruct (update_loop _ 0 field source h []) as [h' c].
  apply H. lia.
Qed.

Lemma update_printed (field source : ref) (h : Heap) :
  length (deref h source) = 8%nat -> printed (update field source h) = [].
Proof.
  intros Hlen. unfold update.
  destruct (update_loop _ 0 field source h []) as [h' c]. cbn [printed].
  now rewrite Hlen.
Qed.

(** X1: [updateTrackIDs] and [updateStatus] write to no array but the one
    they store into: every other array of the heap is as before, and the
    array given as input is as before even when it is the stored array
    itself. *)
Theorem update_writes_only_its_store
    (st : PioneerDJState) (newValues : ref) (h : Heap) :
  ((forall r, r <> _trackID st ->
      heap (updateTrackIDs st newValues h) !! r = h !! r)
   /\ deref (heap (updateTrackIDs st newValues h)) newValues
      = deref h newValues)
  /\ ((forall r, r <> _status st ->
         heap (updateStatus st newValues h) !! r = h !! r)
      /\ deref (heap (updateStatus st newValues h)) newValues
         = deref h newValues).
Proof.
  unfold updateTrackIDs, updateStatus. repeat split.
  - intros r Hr. now apply update_heap_frame.
  - apply update_source_unchanged.
  - intros r Hr. now apply update_heap_frame.
  - apply update_source_unchanged.
Qed.

(** X2: the 8-slot shape is an invariant. On a tracker whose two arrays are
    two arrays of 8 slots each (as [new PioneerDJState()] makes them), an
    update with an 8-element array leaves the stored array equal to the
    input, element for element, and both arrays 8 slots long. *)
Theorem update_keeps_eight_slots
    (st : PioneerDJState) (newValues : ref) (h : Heap) :
  _trackID st <> _status st ->
  length (deref h (_trackID st)) = 8%nat ->
  length (deref h (_status st)) = 8%nat ->
  length (deref h newValues) = 8%nat ->
  (deref (heap (updateTrackIDs st newValues h)) (_trackID st)
   = deref h newValues
   /\ length (deref (heap (updateTrackIDs st newValues h)) (_trackID st)) = 8%nat
   /\ length (deref (heap (updateTrackIDs st newValues h)) (_status st)) = 8%nat)
  /\ (deref (heap (updateStatus st newValues h)) (_status st)
      = deref h newValues
      /\ length (deref (heap (updateStatus st newValues h)) (_status st)) = 8%nat
      /\ length (deref (heap (updateStatus st newValues h)) (_trackID st)) = 8%nat).
Proof.
  intros Hne Ht Hs Hn. unfold updateTrackIDs, updateStatus.
  rewrite !update_stores_the_source by congruence.
  rewrite !update_frame by congruence.
  repeat split; assumption.
Qed.

Lemma update_keeps_eight_slots_witness :
  let s := fresh_tracker_with tracks_5_5 in
  _trackID (tracker_of s) <> _status (tracker_of s)
  /\ deref (heap (updateTrackIDs (tracker_of s) (array_of s) (heap_of s)))
       (_trackID (tracker_of s))
     = deref (heap_of s) (array_of s).
Proof.
  split; [vm_compute; discriminate|].
  refine (proj1 (proj1
    (update_keeps_eight_slots
       (tracker_of (fresh_tracker_with tracks_5_5))
       (array_of (fresh_tracker_with tracks_5_5))
       (heap_of (fresh_tracker_with tracks_5_5)) _ _ _ _)));
    vm_compute; first [discriminate | reflexivity].
Defined.

(** ** [receiveBroadcast] *)

Lemma filter_nil_inv {A : Type} (f : A -> bool) (l : list A) :
  List.filter f l = [] -> forall x, In x l -> f x = false.
Proof.
  induction l as [|y l IH]; simpl; intros H x Hx; [contradiction|].
  destruct (f y) eqn:Hy; [discriminate|].
  destruct Hx as [<-|Hx]; [exact Hy | now apply IH].
Qed.

Lemma differing_layers_nil (stored input : list value) :
  differing_layers stored input = []
  <-> forall i, (i < 8)%nat -> array_get stored i = array_get input i.
Proof.
  unfold differing_layers. split.
  - intros H i Hi. apply map_eq_nil in H.
    apply strict_neq_false.
    apply (filter_nil_inv _ _ H i). apply in_seq. lia.
  - intros H. rewrite filter_none; [reflexivity|].
    intros i Hi. apply in_seq in Hi. unfold differs.
    rewrite H by lia. apply strict_neq_refl.
Qed.

Lemma every_layer (P : nat -> Prop) :
  (forall idx : LayerIndex, P (LayerIndex_value idx - 1)%nat)
  <-> forall i, (i < 8)%nat -> P i.
Proof.
  split.
  - intros H i Hi.
    do 8 (destruct i as [|i];
          [first [ exact (H Layer1) | exact (H Layer2) | exact (H Layer3)
                 | exact (H Layer4) | exact (H LayerA) | exact (H LayerB)
                 | exact (H LayerM) | exact (H LayerC) ]|]).
    lia.
  - intros H idx. apply H. destruct idx; cbn; lia.
Qed.

(** What the two updates of [receiveBroadcast] return, read off the heap
    before the call. *)
Lemma receiveBroadcast_changed
    (st : PioneerDJState) (trackIDs layerStatus : ref) (h : Heap) :
  separate st trackIDs layerStatus ->
  length (deref h trackIDs) = 8%nat ->
  length (deref h layerStatus) = 8%nat ->
  changed (updateTrackIDs st trackIDs h)
  = differing_layers (deref h (_trackID st)) (deref h trackIDs)
  /\ changed (updateStatus st layerStatus (heap (updateTrackIDs st trackIDs h)))
     = differing_layers (deref h (_status st)) (deref h layerStatus)
  /\ printed (updateTrackIDs st trackIDs h) = []
  /\ printed (updateStatus st layerStatus (heap (updateTrackIDs st trackIDs h)))
     = [].
Proof.
  intros (Hts & Ht1 & Ht2 & Hs1 & Hs2) Hlt Hls.
  unfold updateTrackIDs, updateStatus, differing_layers.
  rewrite !update_changed.
  rewrite !(update_frame (_trackID st) trackIDs h) by congruence.
  rewrite Hlt, Hls. repeat split.
  - now apply update_printed.
  - apply update_printed. now rewrite update_frame by congruence.
Qed.

(** X3: for a Status packet whose two arrays have 8 elements and are not the
    tracker's own, [receiveBroadcast] emits one [changedtrack] per layer
    whose stored track id differs from the packet's, in ascending order,
    then one [changedstatus] per layer whose stored status differs, in
    ascending order, then one [statuschange] if there was any of those; it
    prints nothing. *)
Theorem receiveBroadcast_reports_the_changes
    (st : PioneerDJState) (trackIDs layerStatus : ref) (h : Heap) :
  separate st trackIDs layerStatus ->
  length (deref h trackIDs) = 8%nat ->
  length (deref h layerStatus) = 8%nat ->
  let tracks := differing_layers (deref h (_trackID st)) (deref h trackIDs) in
  let statuses :=
    differing_layers (deref h (_status st)) (deref h layerStatus) in
  emitted (receiveBroadcast st (StatusPacketObject trackIDs layerStatus) h)
  = map changedtrack tracks ++ map changedstatus statuses
    ++ (if (0 <? length tracks)%nat || (0 <? length statuses)%nat
        then [statuschange] else [])
  /\ console_lines
       (receiveBroadcast st (StatusPacketObject trackIDs layerStatus) h)
     = [].
Proof.
  intros Hsep Hlt Hls.
  destruct (receiveBroadcast_changed st trackIDs layerStatus h Hsep Hlt Hls)
    as (H1 & H2 & H3 & H4).
  cbn [receiveBroadcast emitted console_lines].
  rewrite H1, H2, H3, H4. split; reflexivity.
Qed.

Lemma receiveBroadcast_reports_the_changes_witness :
  let s := fresh_tracker_with tracks_5_5 in
  separate (tracker_of s) (array_of s) (array_of s)
  /\ emitted (receiveBroadcast (tracker_of s)
                (StatusPacketObject (array_of s) (array_of s)) (heap_of s))
     = [changedtrack 1; changedtrack 2; changedstatus 1; changedstatus 2;
        statuschange].
Proof.
  assert (Hsep : separate (tracker_of (fresh_tracker_with tracks_5_5))
                   (array_of (fresh_tracker_with tracks_5_5))
                   (array_of (fresh_tracker_with tracks_5_5))).
  { vm_compute. repeat split; discriminate. }
  split; [exact Hsep|].
  rewrite (proj1 (receiveBroadcast_reports_the_changes
                    (tracker_of (fresh_tracker_with tracks_5_5))
                    (array_of (fresh_tracker_with tracks_5_5))
                    (array_of (fresh_tracker_with tracks_5_5))
                    (heap_of (fresh_tracker_with tracks_5_5)) Hsep
                    ltac:(vm_compute; reflexivity)
                    ltac:(vm_compute; reflexivity))).
  vm_compute. reflexivity.
Defined.

(** X4: under the same conditions, [receiveBroadcast] emits nothing exactly
    when the packet agrees with the tracker on the track id and the status of
    every layer; otherwise the last event emitted is [statuschange]. *)
Theorem receiveBroadcast_is_silent_iff_nothing_changed
    (st : PioneerDJState) (trackIDs layerStatus : ref) (h : Heap) :
  separate st trackIDs layerStatus ->
  length (deref h trackIDs) = 8%nat ->
  length (deref h layerStatus) = 8%nat ->
  let events :=
    emitted (receiveBroadcast st (StatusPacketObject trackIDs layerStatus) h)
  in
  (events = []
   <-> forall idx : LayerIndex,
         trackID st idx h
         = array_get (deref h trackIDs) (LayerIndex_value idx - 1)
         /\ status st idx h
            = array_get (deref h layerStatus) (LayerIndex_value idx - 1))
  /\ (events <> [] -> exists before, events = before ++ [statuschange]).
Proof.
  intros Hsep Hlt Hls events.
  destruct (receiveBroadcast_changed st trackIDs layerStatus h Hsep Hlt Hls)
    as (H1 & H2 & _ & _).
  assert (Hev : events
                = map changedtrack
                    (differing_layers (deref h (_trackID st)) (deref h trackIDs))
                  ++ map changedstatus
                       (differing_layers (deref h (_status st))
                          (deref h layerStatus))
                  ++ (if (0 <? length
                                 (differing_layers (deref h (_trackID st))
                                    (deref h trackIDs)))%nat
                         || (0 <? length
                                    (differing_layers (deref h (_status st))
                                       (deref h layerStatus)))%nat
                      then [statuschange] else [])).
  { unfold events. cbn [receiveBroadcast emitted]. now rewrite H1, H2. }
  clearbody events. subst events.
  pose proof (differing_layers_nil (deref h (_trackID st)) (deref h trackIDs))
    as Nt.
  pose proof (differing_layers_nil (deref h (_status st)) (deref h layerStatus))
    as Ns.
  destruct (differing_layers (deref h (_trackID st)) (deref h trackIDs))
    as [|a tracks];
    destruct (differing_layers (deref h (_status st)) (deref h layerStatus))
      as [|b statuses]; cbn [map app length Nat.ltb Nat.leb orb].
  - split; [|intros H; now contradict H].
    split; [|reflexivity]. intros _.
    apply (every_layer (fun i =>
             array_get (deref h (_trackID st)) i
             = array_get (deref h trackIDs) i
             /\ array_get (deref h (_status st)) i
                = array_get (deref h layerStatus) i)).
    intros i Hi. split; [now apply Nt | now apply Ns].
  - split.
    + split; [discriminate|]. intros H. exfalso.
      assert (Hc : b :: statuses = []); [|discriminate Hc].
      apply Ns. intros i Hi.
      apply (proj1 (every_layer (fun i =>
               array_get (deref h (_status st)) i
               = array_get (deref h layerStatus) i))
               (fun idx => proj2 (H idx)) i Hi).
    + intros _. exists (changedstatus b :: map changedstatus statuses).
      reflexivity.
  - split.
    + split; [discriminate|]. intros H. exfalso.
      assert (Hc : a :: tracks = []); [|discriminate Hc].
      apply Nt. intros i Hi.
      apply (proj1 (every_layer (fun i =>
               array_get (deref h (_trackID st)) i
               = array_get (deref h trackIDs) i))
               (fun idx => proj1 (H idx)) i Hi).
    + intros _. exists (changedtrack a :: map changedtrack tracks).
      reflexivity.
  - split.
    + split; [discriminate|]. intros H. exfalso.
      assert (Hc : a :: tracks = []); [|discriminate Hc].
      apply Nt. intros i Hi.
      apply (proj1 (every_layer (fun i =>
               array_get (deref h (_trackID st)) i
               = array_get (deref h trackIDs) i))
               (fun idx => proj1 (H idx)) i Hi).
    + intros _.
      exists (changedtrack a :: map changedtrack tracks
              ++ changedstatus b :: map changedstatus statuses).
      cbn. now rewrite <- app_assoc.
Qed.

Lemma receiveBroadcast_is_silent_iff_nothing_changed_witness :
  let s := fresh_tracker_with tracks_5_5 in
  separate (tracker_of s) (array_of s) (array_of s)
  /\ emitted (receiveBroadcast (tracker_of s)
                (StatusPacketObject (array_of s) (array_of s)) (heap_of s))
     <> []
  /\ exists before,
       emitted (receiveBroadcast (tracker_of s)
                  (StatusPacketObject (array_of s) (array_of s)) (heap_of s))
       = before ++ [statuschange].
Proof.
  assert (Hsep : separate (tracker_of (fresh_tracker_with tracks_5_5))
                   (array_of (fresh_tracker_with tracks_5_5))
                   (array_of (fresh_tracker_with tracks_5_5))).
  { vm_compute. repeat split; discriminate. }
  assert (Hne : emitted (receiveBroadcast
                           (tracker_of (fresh_tracker_with tracks_5_5))
                           (StatusPacketObject
                              (array_of (fresh_tracker_with tracks_5_5))
                              (array_of (fresh_tracker_with tracks_5_5)))
                           (heap_of (fresh_tracker_with tracks_5_5))) <> []).
  { vm_compute. discriminate. }
  split; [exact Hsep|]. split; [exact Hne|].
  exact (proj2 (receiveBroadcast_is_silent_iff_nothing_changed
                  (tracker_of (fresh_tracker_with tracks_5_5))
                  (array_of (fresh_tracker_with tracks_5_5))
                  (array_of (fresh_tracker_with tracks_5_5))
                  (heap_of (fresh_tracker_with tracks_5_5)) Hsep
                  ltac:(vm_compute; reflexivity)
                  ltac:(vm_compute; reflexivity)) Hne).
Defined.

(** The heap after a Status broadcast, array by array. *)
Lemma receiveBroadcast_heap
    (st : PioneerDJState) (trackIDs layerStatus : ref) (h : Heap) :
  separate st trackIDs layerStatus ->
  let h' :=
    heap_after
      (receiveBroadcast st (StatusPacketObject trackIDs layerStatus) h) in
  (forall j, (j < length (deref h trackIDs))%nat ->
     array_get (deref h' (_trackID st)) j = array_get (deref h trackIDs) j)
  /\ (forall j, (j < length (deref h layerStatus))%nat ->
        array_get (deref h' (_status st)) j
        = array_get (deref h layerStatus) j)
  /\ deref h' trackIDs = deref h trackIDs
  /\ deref h' layerStatus = deref h layerStatus.
Proof.
  intros (Hts & Ht1 & Ht2 & Hs1 & Hs2) h'. subst h'.
  cbn [receiveBroadcast heap_after]. unfold updateTrackIDs, updateStatus.
  assert (Hs : deref (heap (update (_trackID st) trackIDs h)) layerStatus
               = deref h layerStatus) by now apply update_frame.
  split; [|split; [|split]].
  - intros j Hj. rewrite update_frame by congruence.
    now apply update_stored.
  - intros j Hj. rewrite update_stored by now rewrite Hs. now rewrite Hs.
  - rewrite update_frame by congruence. now apply update_frame.
  - now rewrite update_source_unchanged.
Qed.

(** X6: after a Status broadcast whose arrays have 8 elements, the getters
    of the tracker return, for every layer, the packet's track id and the
    packet's status; the packet's arrays are as they were. *)
Theorem receiveBroadcast_stores_the_packet
    (st : PioneerDJState) (trackIDs layerStatus : ref) (h : Heap) :
  separate st trackIDs layerStatus ->
  length (deref h trackIDs) = 8%nat ->
  length (deref h layerStatus) = 8%nat ->
  let h' :=
    heap_after
      (receiveBroadcast st (StatusPacketObject trackIDs layerStatus) h) in
  (forall idx : LayerIndex,
     trackID st idx h'
     = array_get (deref h trackIDs) (LayerIndex_value idx - 1)
     /\ status st idx h'
        = array_get (deref h layerStatus) (LayerIndex_value idx - 1))
  /\ deref h' trackIDs = deref h trackIDs
  /\ deref h' layerStatus = deref h layerStatus.
Proof.
  intros Hsep Hlt Hls h'.
  destruct (receiveBroadcast_heap st trackIDs layerStatus h Hsep)
    as (Ht & Hs & Hkt & Hks).
  fold h' in Ht, Hs, Hkt, Hks.
  split; [|split; assumption].
  intros idx. unfold trackID, status.
  split; [apply Ht | apply Hs]; destruct idx; cbn; lia.
Qed.

Lemma receiveBroadcast_stores_the_packet_witness :
  let s := fresh_tracker_with tracks_5_5 in
  separate (tracker_of s) (array_of s) (array_of s)
  /\ trackID (tracker_of s) Layer1
       (heap_after
          (receiveBroadcast (tracker_of s)
             (StatusPacketObject (array_of s) (array_of s)) (heap_of s)))
     = number 5.
Proof.
  assert (Hsep : separate (tracker_of (fresh_tracker_with tracks_5_5))
                   (array_of (fresh_tracker_with tracks_5_5))
                   (array_of (fresh_tracker_with tracks_5_5))).
  { vm_compute. repeat split; discriminate. }
  split; [exact Hsep|].
  rewrite (proj1 (proj1 (receiveBroadcast_stores_the_packet
                    (tracker_of (fresh_tracker_with tracks_5_5))
                    (array_of (fresh_tracker_with tracks_5_5))
                    (array_of (fresh_tracker_with tracks_5_5))
                    (heap_of (fresh_tracker_with tracks_5_5)) Hsep
                    ltac:(vm_compute; reflexivity)
                    ltac:(vm_compute; reflexivity)) Layer1)).
  vm_compute. reflexivity.
Defined.

(** X7: a Status packet received twice in a row emits nothing the second
    time, whatever the width of its arrays. *)
Theorem receiveBroadcast_twice_is_silent
    (st : PioneerDJState) (trackIDs layerStatus : ref) (h : Heap) :
  separate st trackIDs layerStatus ->
  emitted
    (receiveBroadcast st (StatusPacketObject trackIDs layerStatus)
       (heap_after
          (receiveBroadcast st (StatusPacketObject trackIDs layerStatus) h)))
  = [].
Proof.
  intros Hsep.
  destruct (receiveBroadcast_heap st trackIDs layerStatus h Hsep)
    as (Ht & Hs & Hkt & Hks).
  destruct Hsep as (Hts & Ht1 & Ht2 & Hs1 & Hs2).
  set (h' := heap_after
               (receiveBroadcast st (StatusPacketObject trackIDs layerStatus)
                  h)) in *.
  cbn [receiveBroadcast emitted]. unfold updateTrackIDs, updateStatus.
  assert (H1 : changed (update (_trackID st) trackIDs h') = []).
  { apply update_again. rewrite Hkt. exact Ht. }
  assert (H2 : changed (update (_status st) layerStatus
                          (heap (update (_trackID st) trackIDs h'))) = []).
  { apply update_again.
    rewrite !(update_frame (_trackID st) trackIDs h') by congruence.
    rewrite Hks. exact Hs. }
  now rewrite H1, H2.
Qed.

Lemma receiveBroadcast_twice_is_silent_witness :
  let s := fresh_tracker_with tracks_5_5 in
  separate (tracker_of s) (array_of s) (array_of s)
  /\ emitted
       (receiveBroadcast (tracker_of s)
          (StatusPacketObject (array_of s) (array_of s))
          (heap_after
             (receiveBroadcast (tracker_of s)
                (StatusPacketObject (array_of s) (array_of s)) (heap_of s))))
     = [].
Proof.
  assert (Hsep : separate (tracker_of (fresh_tracker_with tracks_5_5))
                   (array_of (fresh_tracker_with tracks_5_5))
                   (array_of (fresh_tracker_with tracks_5_5))).
  { vm_compute. repeat split; discriminate. }
  split; [exact Hsep|].
  exact (receiveBroadcast_twice_is_silent
           (tracker_of (fresh_tracker_with tracks_5_5))
           (array_of (fresh_tracker_with tracks_5_5))
           (array_of (fresh_tracker_with tracks_5_5))
           (heap_of (fresh_tracker_with tracks_5_5)) Hsep).
Defined.

(** ** From a decoded packet to the tracker *)

Lemma alloc_lookup (a : list value) (h : Heap) :
  snd (alloc a h) !! fst (alloc a h) = Some a.
Proof. unfold alloc. cbn [fst snd]. apply lookup_insert_eq. Qed.

(** The arrays of a packet object are new: they are no array of the heap the
    packet was created in, which keeps all its arrays. *)
Lemma status_packet_object_spec
    (p : Network.TCNetStatusPacket.t) (h : Heap) :
  exists t s,
    fst (status_packet_object p h) = StatusPacketObject t s
    /\ h !! t = None /\ h !! s = None
    /\ deref (snd (status_packet_object p h)) t
       = numbers (Network.TCNetStatusPacket.trackID p)
    /\ deref (snd (status_packet_object p h)) s
       = numbers (Network.TCNetStatusPacket.layerStatus p)
    /\ forall r, is_Some (h !! r) ->
         snd (status_packet_object p h) !! r = h !! r.
Proof.
  unfold status_packet_object.
  pose proof (alloc_spec (numbers (Network.TCNetStatusPacket.trackID p)) h)
    as (Hf1 & Hd1 & Ho1).
  destruct (alloc (numbers (Network.TCNetStatusPacket.trackID p)) h)
    as [t h1] eqn:E1.
  pose proof (alloc_spec (numbers (Network.TCNetStatusPacket.layerStatus p)) h1)
    as (Hf2 & Hd2 & Ho2).
  destruct (alloc (numbers (Network.TCNetStatusPacket.layerStatus p)) h1)
    as [s h2] eqn:E2.
  pose proof (alloc_lookup (numbers (Network.TCNetStatusPacket.trackID p)) h)
    as Hl1.
  rewrite E1 in Hl1. cbn [fst snd] in *.
  assert (Hts : t <> s) by (intros ->; congruence).
  exists t, s. split; [reflexivity|]. split; [exact Hf1|]. split; [|split; [|split]].
  - rewrite <- (Ho1 s) by congruence. exact Hf2.
  - unfold deref in *. rewrite Ho2 by exact Hts. exact Hd1.
  - exact Hd2.
  - intros r [a Hr].
    assert (r <> t) by (intros ->; congruence).
    assert (r <> s).
    { intros ->. rewrite <- (Ho1 s) in Hr by congruence. congruence. }
    rewrite Ho2 by assumption. now apply Ho1.
Qed.

Lemma packet_is_separate
    (st : PioneerDJState) (h : Heap) (t s : ref) :
  tracker_in st h -> h !! t = None -> h !! s = None -> separate st t s.
Proof.
  intros (Hne & [a Ha] & [b Hb]) Ht Hs.
  repeat split; try exact Hne; intros ->; congruence.
Qed.

Lemma deref_kept (h h' : Heap) (r : ref) :
  (forall r, is_Some (h !! r) -> h' !! r = h !! r) ->
  is_Some (h !! r) -> deref h' r = deref h r.
Proof. intros Hk Hr. unfold deref. now rewrite Hk. Qed.

Lemma new_tracker_is_in (h : Heap) :
  tracker_in (fst (new_PioneerDJState h)) (snd (new_PioneerDJState h)).
Proof.
  pose proof (new_PioneerDJState_spec h) as (Hne & Ht & Hs & _).
  cbv zeta in *. split; [exact Hne|].
  unfold deref in Ht, Hs.
  split.
  - destruct (snd (new_PioneerDJState h) !! _trackID (fst (new_PioneerDJState h)));
      [eauto | discriminate Ht].
  - destruct (snd (new_PioneerDJState h) !! _status (fst (new_PioneerDJState h)));
      [eauto | discriminate Hs].
Qed.

(** Against the sentinel -1 every slot of an array of eight non-negative
    numbers differs. *)
Lemma differing_from_the_sentinel (l : list Z) :
  length l = 8%nat -> Forall (fun x => 0 <= x) l ->
  differing_layers (replicate 8 (number (-1))) (numbers l)
  = [1; 2; 3; 4; 5; 6; 7; 8]%nat.
Proof.
  intros Hlen Hpos.
  do 8 (destruct l as [|? l]; [discriminate Hlen|]).
  destruct l; [|discriminate Hlen].
  repeat match goal with
         | H : Forall _ (_ :: _) |- _ =>
             apply List.Forall_cons_iff in H; destruct H as [? H]
         end.
  unfold differing_layers, differs, numbers. cbn -[Z.eqb].
  repeat match goal with
         | |- context [(-1 =? ?x)] =>
             destruct (Z.eqb_spec (-1) x); [lia|]; cbn -[Z.eqb]
         end.
  reflexivity.
Qed.

(** X8: the first Status packet that a new tracker receives, carrying 8
    track ids and 8 statuses that are non-negative (as every decoded packet
    does), emits [changedtrack] and [changedstatus] for all 8 layers and then
    [statuschange]: 17 events, whatever the values are. *)
Theorem first_broadcast_reports_every_layer
    (h0 : Heap) (p : Network.TCNetStatusPacket.t) :
  length (Network.TCNetStatusPacket.trackID p) = 8%nat ->
  length (Network.TCNetStatusPacket.layerStatus p) = 8%nat ->
  Forall (fun x => 0 <= x) (Network.TCNetStatusPacket.trackID p) ->
  Forall (fun x => 0 <= x) (Network.TCNetStatusPacket.layerStatus p) ->
  let st := fst (new_PioneerDJState h0) in
  let h1 := snd (new_PioneerDJState h0) in
  let packet := fst (status_packet_object p h1) in
  let h2 := snd (status_packet_object p h1) in
  emitted (receiveBroadcast st packet h2)
  = map changedtrack [1; 2; 3; 4; 5; 6; 7; 8]%nat
    ++ map changedstatus [1; 2; 3; 4; 5; 6; 7; 8]%nat ++ [statuschange].
Proof.
  intros Hlt Hls Hpt Hps st h1 packet h2.
  pose proof (new_tracker_is_in h0) as Hin. fold st h1 in Hin.
  pose proof (new_PioneerDJState_spec h0) as (_ & Ht & Hs & _).
  cbv zeta in Ht, Hs. fold st h1 in Ht, Hs.
  destruct (status_packet_object_spec p h1)
    as (t & s & Hpk & Hft & Hfs & Hdt & Hds & Hkeep).
  fold packet h2 in Hpk, Hdt, Hds, Hkeep. rewrite Hpk.
  pose proof (packet_is_separate st h1 t s Hin Hft Hfs) as Hsep.
  destruct Hin as (_ & Hit & His).
  destruct (receiveBroadcast_changed st t s h2 Hsep)
    as (H1 & H2 & _ & _).
  { rewrite Hdt. unfold numbers. now rewrite length_map. }
  { rewrite Hds. unfold numbers. now rewrite length_map. }
  cbn [receiveBroadcast emitted]. rewrite H1, H2.
  rewrite (deref_kept h1 h2 (_trackID st)) by assumption.
  rewrite (deref_kept h1 h2 (_status st)) by assumption.
  rewrite Ht, Hs, Hdt, Hds.
  rewrite !differing_from_the_sentinel by assumption.
  reflexivity.
Qed.

Lemma first_broadcast_reports_every_layer_witness :
  Forall (fun x => 0 <= x)
    (Network.TCNetStatusPacket.trackID Network.a_status_packet)
  /\ Forall (fun x => 0 <= x)
       (Network.TCNetStatusPacket.layerStatus Network.a_status_packet)
  /\ emitted
       (receiveBroadcast (fst (new_PioneerDJState empty_heap))
          (fst (status_packet_object Network.a_status_packet
                  (snd (new_PioneerDJState empty_heap))))
          (snd (status_packet_object Network.a_status_packet
                  (snd (new_PioneerDJState empty_heap)))))
     = map changedtrack [1; 2; 3; 4; 5; 6; 7; 8]%nat
       ++ map changedstatus [1; 2; 3; 4; 5; 6; 7; 8]%nat ++ [statuschange].
Proof.
  assert (Ht : Forall (fun x => 0 <= x)
                 (Network.TCNetStatusPacket.trackID Network.a_status_packet)).
  { cbn. repeat (apply List.Forall_cons; [lia|]). apply List.Forall_nil. }
  assert (Hs : Forall (fun x => 0 <= x)
                 (Network.TCNetStatusPacket.layerStatus
                    Network.a_status_packet)).
  { cbn. repeat (apply List.Forall_cons; [lia|]). apply List.Forall_nil. }
  split; [exact Ht|]. split; [exact Hs|].
  exact (first_broadcast_reports_every_layer empty_heap
           Network.a_status_packet eq_refl eq_refl Ht Hs).
Defined.

(** X9: from the wire to the getters. For every buffer that the Status
    decoder accepts and every tracker, handing the decoded packet to
    [receiveBroadcast] prints no assertion line (a decoded packet always has
    8-element arrays), and afterwards [trackID(n)] is the little-endian
    32-bit integer at offset 50+4(n-1) of the buffer and [status(n)] the byte
    at offset 42+(n-1), for every layer n in 1..8. *)
Theorem decoded_status_reaches_the_tracker
    (w w' : Network.World) (p : Network.TCNetStatusPacket.t)
    (st : PioneerDJState) (h : Heap) :
  Network.TCNetStatusPacket.read w = (w', Network.Ok p) ->
  tracker_in st h ->
  let packet := fst (status_packet_object p h) in
  let h1 := snd (status_packet_object p h) in
  console_lines (receiveBroadcast st packet h1) = []
  /\ forall idx : LayerIndex,
       trackID st idx (heap_after (receiveBroadcast st packet h1))
       = number (Network.u32le (Network.buffer w)
                   (50 + (Z.of_nat (LayerIndex_value idx) - 1) * 4))
       /\ status st idx (heap_after (receiveBroadcast st packet h1))
          = number (Network.byte_at (Network.buffer w)
                      (42 + (Z.of_nat (LayerIndex_value idx) - 1))).
Proof.
  intros Hread Hin packet h1.
  pose proof (status_read_needs_85 _ _ _ Hread) as Hlen.
  rewrite (status_read_value w Hlen) in Hread. injection Hread as _ Hp.
  assert (Htr : Network.TCNetStatusPacket.trackID p
                = map (fun n => Network.u32le (Network.buffer w) (50 + n * 4))
                    Network.layers) by (now rewrite <- Hp).
  assert (Hst : Network.TCNetStatusPacket.layerStatus p
                = map (fun n => Network.byte_at (Network.buffer w) (42 + n))
                    Network.layers) by (now rewrite <- Hp).
  clear Hp.
  destruct (status_packet_object_spec p h)
    as (t & s & Hpk & Hft & Hfs & Hdt & Hds & _).
  fold packet h1 in Hpk, Hdt, Hds. rewrite Hpk.
  rewrite Htr in Hdt. rewrite Hst in Hds.
  pose proof (packet_is_separate st h t s Hin Hft Hfs) as Hsep.
  destruct (receiveBroadcast_changed st t s h1 Hsep)
    as (_ & _ & H3 & H4); [now rewrite Hdt | now rewrite Hds |].
  destruct (receiveBroadcast_heap st t s h1 Hsep) as (Ht & Hs & _ & _).
  split.
  - cbn [receiveBroadcast console_lines]. now rewrite H3, H4.
  - intros idx. unfold trackID, status. split.
    + rewrite Ht by (rewrite Hdt; destruct idx; cbn; lia).
      rewrite Hdt. now destruct idx.
    + rewrite Hs by (rewrite Hds; destruct idx; cbn; lia).
      rewrite Hds. now destruct idx.
Qed.

Lemma decoded_status_reaches_the_tracker_witness :
  exists p,
    Network.TCNetStatusPacket.read (Network.on_buffer (Network.alloc 85))
    = (Network.on_buffer (Network.alloc 85), Network.Ok p)
    /\ tracker_in (fst (new_PioneerDJState empty_heap))
         (snd (new_PioneerDJState empty_heap))
    /\ console_lines
         (receiveBroadcast (fst (new_PioneerDJState empty_heap))
            (fst (status_packet_object p (snd (new_PioneerDJState empty_heap))))
            (snd (status_packet_object p (snd (new_PioneerDJState empty_heap)))))
       = [].
Proof.
  eexists. split; [vm_compute; reflexivity|].
  split; [apply new_tracker_is_in|].
  refine (proj1 (decoded_status_reaches_the_tracker
                   (Network.on_buffer (Network.alloc 85))
                   (Network.on_buffer (Network.alloc 85)) _
                   (fst (new_PioneerDJState empty_heap))
                   (snd (new_PioneerDJState empty_heap)) _ _)).
  - vm_compute. reflexivity.
  - apply new_tracker_is_in.
Defined.

End ClientFacts.
